(** * Synthetic data validator: the conformance-and-coverage engine

    A shallow embedding of [validator/data_checker.py] (class [DataChecker]):
    the value normalizer [_to_json_serializable], the DataFrame conversion
    [_convert_dataframe_to_json_serializable] and the report builder
    [validate_data_against_schema], followed by the properties of the
    report that the specification states.

    Conventions of the embedding:
    - Python values are a tagged variant [pyval]; ints are [Z]; floats are
      IEEE 754 binary64 values ([spec_float] at precision 53), with the
      arithmetic of [SpecFloat] and exact comparison, also between an int
      and a float; dicts are association lists in insertion order, with
      distinct keys.
    - An exception that leaves a function is the [Raise] case of [result].
    - A DataFrame is the list of its labelled, typed columns.
    - What belongs to a library and is only observed through its result
      is a parameter of the checker: [jsonschema.validate] by its outcome
      on a record, the iteration order of a [set], [str] and
      [format(_, '.2f')].  Logging is left out.

    The embedding then follows the report to its consumers and covers the
    helpers around the checker: [extract_schema_properties] of
    [validator/schema_parser.py]; [export_failed_cases_csv] of
    [reports/export_utils.py], with [to_csv] and its encoding a parameter
    given by its outcome; and the two
    helpers that [validator/ai_suggester.py] and
    [validator/test_case_generator.py] share, [_call_gemini_with_retry],
    with the model given by the outcomes of its calls and the loop run on
    fuel, and [_parse_gemini_json_response], on a str as the list of its
    code points and with [json.loads] a parameter. *)

From Stdlib Require Import ZArith NArith List String Ascii Bool Lia.
From Stdlib Require Import Permutation Sorted.
From Stdlib Require Import Floats.SpecFloat.
Import ListNotations.

Set Warnings "-register-all".

Local Open Scope Z_scope.
Local Open Scope string_scope.
Local Open Scope list_scope.

(** ** Python values *)

(** The values that reach the checker: JSON-native Python values, the
    NumPy and pandas wrappers that tabular cells arrive in, and any other
    object.  A value that is only observed through a conversion is carried
    by the result of that conversion: a Timestamp or Timedelta by its
    [str()], a Series by its [tolist()], a DataFrame by its
    [to_dict(orient='records')], any other scalar object that
    [json.dumps] rejects by its [str()]. *)
Inductive pyval : Type :=
| PNone
| PBool (b : bool)
| PInt (z : Z)
| PFloat (f : spec_float)
| PStr (s : string)
| PList (l : list pyval)
| PDict (d : list (string * pyval))
| NpInt (z : Z)                  (* np.integer *)
| NpFloat (f : spec_float)       (* np.floating *)
| NpBool (b : bool)              (* np.bool_ *)
| PdTimestamp (s : string)       (* pd.Timestamp, pd.Timedelta *)
| PdNaT                          (* pd.NaT, pd.NA *)
| PSeries (l : list pyval)       (* pd.Series *)
| PDataFrame (records : list pyval) (* pd.DataFrame *)
| PObject (s : string).          (* any other scalar json.dumps rejects *)

Definition pydict := list (string * pyval).

(** Induction over values that reaches inside lists and dicts. *)
Section PyvalInd.
Variable P : pyval -> Prop.
Hypothesis HNone : P PNone.
Hypothesis HBool : forall b, P (PBool b).
Hypothesis HInt : forall z, P (PInt z).
Hypothesis HFloat : forall f, P (PFloat f).
Hypothesis HStr : forall s, P (PStr s).
Hypothesis HList : forall l, Forall P l -> P (PList l).
Hypothesis HDict : forall d, Forall (fun kv => P (snd kv)) d -> P (PDict d).
Hypothesis HNpInt : forall z, P (NpInt z).
Hypothesis HNpFloat : forall f, P (NpFloat f).
Hypothesis HNpBool : forall b, P (NpBool b).
Hypothesis HTimestamp : forall s, P (PdTimestamp s).
Hypothesis HNaT : P PdNaT.
Hypothesis HSeries : forall l, Forall P l -> P (PSeries l).
Hypothesis HDataFrame : forall l, Forall P l -> P (PDataFrame l).
Hypothesis HObject : forall s, P (PObject s).

Fixpoint pyval_nested_ind (v : pyval) : P v :=
  let fix on_list (l : list pyval) : Forall P l :=
    match l with
    | [] => Forall_nil _
    | x :: xs => Forall_cons _ (pyval_nested_ind x) (on_list xs)
    end in
  let fix on_dict (d : list (string * pyval))
      : Forall (fun kv => P (snd kv)) d :=
    match d with
    | [] => Forall_nil _
    | kv :: xs => Forall_cons _ (pyval_nested_ind (snd kv)) (on_dict xs)
    end in
  match v with
  | PNone => HNone
  | PBool b => HBool b
  | PInt z => HInt z
  | PFloat f => HFloat f
  | PStr s => HStr s
  | PList l => HList l (on_list l)
  | PDict d => HDict d (on_dict d)
  | NpInt z => HNpInt z
  | NpFloat f => HNpFloat f
  | NpBool b => HNpBool b
  | PdTimestamp s => HTimestamp s
  | PdNaT => HNaT
  | PSeries l => HSeries l (on_list l)
  | PDataFrame l => HDataFrame l (on_list l)
  | PObject s => HObject s
  end.
End PyvalInd.

(** ** The value normalizer *)

Definition is_nan (f : spec_float) : bool :=
  match f with S754_nan => true | _ => false end.

(** [_to_json_serializable].  The branches are tried in the order of the
    source: dict, list, Series, DataFrame, np.integer, np.floating,
    np.bool_, Timestamp/Timedelta, [pd.isna], and last the [json.dumps]
    probe, which accepts None, bool, int, float and str and sends every
    other object to [str(obj)]. *)
Fixpoint to_json_serializable (obj : pyval) : pyval :=
  match obj with
  | PDict d => PDict (map (fun kv => (fst kv, to_json_serializable (snd kv))) d)
  | PList l => PList (map to_json_serializable l)
  | PSeries l => PList (map to_json_serializable l)
  | PDataFrame records => PList (map to_json_serializable records)
  | NpInt z => PInt z
  | NpFloat f => PFloat f
  | NpBool b => PBool b
  | PdTimestamp s => PStr s
  | PNone => PNone
  | PdNaT => PNone
  | PFloat f => if is_nan f then PNone else PFloat f
  | PBool b => PBool b
  | PInt z => PInt z
  | PStr s => PStr s
  | PObject s => PStr s
  end.

(** A value holds a NumPy floating NaN somewhere inside it. *)
Fixpoint has_np_nan (v : pyval) : bool :=
  match v with
  | NpFloat f => is_nan f
  | PList l | PSeries l | PDataFrame l => existsb has_np_nan l
  | PDict d => existsb (fun kv => has_np_nan (snd kv)) d
  | _ => false
  end.

(** The JSON-primitive values: what the normalizer promises to return. *)
Fixpoint json_primitive (v : pyval) : bool :=
  match v with
  | PNone | PBool _ | PInt _ | PStr _ => true
  | PFloat f => negb (is_nan f)
  | PList l => forallb json_primitive l
  | PDict d => forallb (fun kv => json_primitive (snd kv)) d
  | _ => false
  end.


(** ** Exceptions *)

Inductive exn := TypeError | AttributeError | KeyError | OverflowError.

Inductive result (A : Type) : Type :=
| Ok (a : A)
| Raise (e : exn).
Arguments Ok {A} a.
Arguments Raise {A} e.

Definition bind {A B : Type} (r : result A) (k : A -> result B) : result B :=
  match r with
  | Ok a => k a
  | Raise e => Raise e
  end.

Notation "x <- r ;; k" := (bind r (fun x => k))
  (at level 61, r at next level, right associativity).

(** ** Numbers *)

(** Python floats are IEEE 754 binary64. *)
Definition prec : Z := 53.
Definition emax : Z := 1024.

Definition float_inf : spec_float := S754_infinity false.      (* float('inf') *)
Definition float_neg_inf : spec_float := S754_infinity true.   (* float('-inf') *)

(** The literal [0.01]: the binary64 value nearest to 1/100. *)
Definition float_0_01 : spec_float := S754_finite false 5764607523034235 (-59).

(** bool, int and float are Python's numbers; a bool counts as the int 0
    or 1. *)
Inductive pynum :=
| NInt (z : Z)
| NFloat (f : spec_float).

Definition as_num (v : pyval) : option pynum :=
  match v with
  | PBool b | NpBool b => Some (NInt (Z.b2z b))
  | PInt z | NpInt z => Some (NInt z)
  | PFloat f | NpFloat f => Some (NFloat f)
  | _ => None
  end.

(** int to float, rounding to nearest even; an int beyond the float range
    raises OverflowError. *)
Definition float_of_int (z : Z) : result spec_float :=
  match binary_normalize prec emax z 0 false with
  | S754_infinity _ => Raise OverflowError
  | f => Ok f
  end.

Definition to_float (n : pynum) : result spec_float :=
  match n with
  | NInt z => float_of_int z
  | NFloat f => Ok f
  end.

(** Binary arithmetic: int with int stays int, anything with a float goes
    through float; an operand that is not a number raises TypeError (the
    call sites have a float on one side or use [-]). *)
Definition py_arith (int_op : Z -> Z -> Z)
    (float_op : spec_float -> spec_float -> spec_float)
    (a b : pyval) : result pyval :=
  match as_num a, as_num b with
  | Some (NInt x), Some (NInt y) => Ok (PInt (int_op x y))
  | Some x, Some y =>
      fx <- to_float x ;;
      fy <- to_float y ;;
      Ok (PFloat (float_op fx fy))
  | _, _ => Raise TypeError
  end.

Definition py_add : pyval -> pyval -> result pyval := py_arith Z.add (SFadd prec emax).
Definition py_sub : pyval -> pyval -> result pyval := py_arith Z.sub (SFsub prec emax).
Definition py_mul : pyval -> pyval -> result pyval := py_arith Z.mul (SFmul prec emax).

(** Comparison of numbers is exact, also between an int and a float: each
    number is read as [m * 2^e], an infinity or NaN. *)
Inductive xreal :=
| XNaN
| XInf (negative : bool)
| XFin (m e : Z).

Definition xreal_of_float (f : spec_float) : xreal :=
  match f with
  | S754_zero _ => XFin 0 0
  | S754_infinity s => XInf s
  | S754_nan => XNaN
  | S754_finite s m e => XFin (cond_Zopp s (Zpos m)) e
  end.

Definition xreal_of_num (n : pynum) : xreal :=
  match n with
  | NInt z => XFin z 0
  | NFloat f => xreal_of_float f
  end.

Definition xreal_compare (a b : xreal) : option comparison :=
  match a, b with
  | XNaN, _ | _, XNaN => None
  | XInf s1, XInf s2 =>
      Some (if s1 then (if s2 then Eq else Lt) else (if s2 then Gt else Eq))
  | XInf s, XFin _ _ => Some (if s then Lt else Gt)
  | XFin _ _, XInf s => Some (if s then Gt else Lt)
  | XFin m1 e1, XFin m2 e2 =>
      let e := Z.min e1 e2 in
      Some (Z.compare (m1 * 2 ^ (e1 - e)) (m2 * 2 ^ (e2 - e)))
  end.

Definition num_compare (a b : pynum) : option comparison :=
  xreal_compare (xreal_of_num a) (xreal_of_num b).

Definition num_ltb (a b : pynum) : bool :=
  match num_compare a b with Some Lt => true | _ => false end.
Definition num_leb (a b : pynum) : bool :=
  match num_compare a b with Some Lt | Some Eq => true | _ => false end.
Definition num_eqb (a b : pynum) : bool :=
  match num_compare a b with Some Eq => true | _ => false end.

(** [a < b], [a <= b], [a > b], [a >= b] on numbers; the call sites compare
    an observed extreme with a float. *)
Definition py_cmp (test : pynum -> pynum -> bool) (a b : pyval) : result bool :=
  match as_num a, as_num b with
  | Some x, Some y => Ok (test x y)
  | _, _ => Raise TypeError
  end.

Definition py_lt : pyval -> pyval -> result bool := py_cmp num_ltb.
Definition py_le : pyval -> pyval -> result bool := py_cmp num_leb.
Definition py_gt (a b : pyval) : result bool := py_cmp (fun x y => num_ltb y x) a b.
Definition py_ge (a b : pyval) : result bool := py_cmp (fun x y => num_leb y x) a b.

(** [a == b] between the values that are hashed or looked up: numbers by
    value across bool, int and float (NaN equals nothing), strings and
    string-carried objects by their text, None with None. *)
Definition py_eqb (a b : pyval) : bool :=
  match as_num a, as_num b with
  | Some x, Some y => num_eqb x y
  | None, None =>
      match a, b with
      | PNone, PNone => true
      | PStr s, PStr t => String.eqb s t
      | PdTimestamp s, PdTimestamp t => String.eqb s t
      | PObject s, PObject t => String.eqb s t
      | _, _ => false
      end
  | _, _ => false
  end.

Definition py_ne (a b : pyval) : bool := negb (py_eqb a b).

(** The builtins [min(a, b)] and [max(a, b)]: the first argument unless the
    second is strictly smaller (larger). *)
Definition py_min (a b : pyval) : result pyval :=
  lt <- py_lt b a ;; Ok (if lt then b else a).
Definition py_max (a b : pyval) : result pyval :=
  gt <- py_gt b a ;; Ok (if gt then b else a).

(** ** Dicts, sets and strings *)

Section Dict.
Context {A : Type}.

Fixpoint dict_get (k : string) (d : list (string * A)) : option A :=
  match d with
  | [] => None
  | (k', v) :: rest => if String.eqb k k' then Some v else dict_get k rest
  end.

Definition dict_mem (k : string) (d : list (string * A)) : bool :=
  match dict_get k d with Some _ => true | None => false end.

(** [d[k] = v]: an existing key keeps its position. *)
Fixpoint dict_set (k : string) (v : A) (d : list (string * A)) : list (string * A) :=
  match d with
  | [] => [(k, v)]
  | (k', v') :: rest =>
      if String.eqb k k' then (k, v) :: rest else (k', v') :: dict_set k v rest
  end.
End Dict.

(** Lists, dicts and the tabular containers have no hash. *)
Definition hashable (v : pyval) : bool :=
  match v with
  | PList _ | PDict _ | PSeries _ | PDataFrame _ => false
  | _ => true
  end.

(** A set is the list of its elements, pairwise unequal under [==], in
    order of insertion. *)
Definition pyset := list pyval.

Definition set_mem (x : pyval) (s : pyset) : bool := existsb (py_eqb x) s.

Definition set_add (x : pyval) (s : pyset) : pyset :=
  if set_mem x s then s else s ++ [x].

Fixpoint set_update (s : pyset) (xs : list pyval) : result pyset :=
  match xs with
  | [] => Ok s
  | x :: rest =>
      if hashable x then set_update (set_add x s) rest else Raise TypeError
  end.

Definition set_difference (a b : pyset) : pyset :=
  filter (fun x => negb (set_mem x b)) a.

Definition chars (s : string) : list pyval :=
  map (fun c => PStr (String c EmptyString)) (list_ascii_of_string s).

(** Iteration, as [set(...)] needs it: a list gives its elements, a string
    its characters, a dict its keys; a schema comes from a JSON or YAML
    loader, and any other value in it is not iterable. *)
Definition py_iter (v : pyval) : result (list pyval) :=
  match v with
  | PList l => Ok l
  | PStr s => Ok (chars s)
  | PDict d => Ok (map (fun kv => PStr (fst kv)) d)
  | _ => Raise TypeError
  end.

Definition py_set (v : pyval) : result pyset :=
  l <- py_iter v ;; set_update [] l.

Definition is_substring (needle hay : string) : bool :=
  match String.index 0 needle hay with Some _ => true | None => false end.

(** [key in v] for a string [key]. *)
Definition py_contains (key : string) (v : pyval) : result bool :=
  match v with
  | PDict d => Ok (dict_mem key d)
  | PStr s => Ok (is_substring key s)
  | PList l => Ok (existsb (py_eqb (PStr key)) l)
  | _ => Raise TypeError
  end.

(** [v[key]] for a string [key]. *)
Definition py_getitem (v : pyval) (key : string) : result pyval :=
  match v with
  | PDict d => match dict_get key d with Some x => Ok x | None => Raise KeyError end
  | _ => Raise TypeError
  end.

(** [v.get(key)]: only a dict has the method. *)
Definition py_get (v : pyval) (key : string) : result pyval :=
  match v with
  | PDict d => Ok (match dict_get key d with Some x => x | None => PNone end)
  | _ => Raise AttributeError
  end.

Fixpoint all_str (l : list pyval) : result (list string) :=
  match l with
  | [] => Ok []
  | PStr s :: rest => ss <- all_str rest ;; Ok (s :: ss)
  | _ => Raise TypeError
  end.

(** [sep.join(l)]: every item must be a str. *)
Definition py_join (sep : string) (l : list pyval) : result string :=
  ss <- all_str l ;; Ok (String.concat sep ss).

Definition is_None (v : pyval) : bool :=
  match v with PNone => true | _ => false end.

(** ** DataFrames *)

(** A column with its dtype.  The numeric dtypes are int64, float64 (NaN
    is the missing value) and bool; every other column holds objects. *)
Inductive column :=
| IntCol (xs : list Z)
| FloatCol (xs : list spec_float)
| BoolCol (xs : list bool)
| ObjectCol (xs : list pyval).

(** A DataFrame is the list of its labelled columns, all of one length;
    the labels are distinct strings. *)
Definition DataFrame := list (string * column).

(** [Series.tolist()]: the cells as native Python values. *)
Definition tolist (c : column) : list pyval :=
  match c with
  | IntCol xs => map PInt xs
  | FloatCol xs => map PFloat xs
  | BoolCol xs => map PBool xs
  | ObjectCol xs => xs
  end.

Definition n_rows (df : DataFrame) : nat :=
  match df with
  | [] => 0%nat
  | (_, c) :: _ => List.length (tolist c)
  end.

(** [df.empty]: no column or no row. *)
Definition df_empty (df : DataFrame) : bool := Nat.eqb (n_rows df) 0.

(** [df.to_dict(orient='records')]. *)
Definition to_dict_records (df : DataFrame) : list pyval :=
  map (fun i => PDict (map (fun nc => (fst nc, nth i (tolist (snd nc)) PNone)) df))
      (seq 0 (n_rows df)).

(** [_convert_dataframe_to_json_serializable]. *)
Definition convert_dataframe_to_json_serializable (df : DataFrame) : list pyval :=
  map to_json_serializable (to_dict_records df).

(** [pd.isna] on a scalar. *)
Definition py_isna (v : pyval) : bool :=
  match v with
  | PNone | PdNaT => true
  | PFloat f | NpFloat f => is_nan f
  | _ => false
  end.

(** [series.isnull().all()]. *)
Definition all_null (c : column) : bool := forallb py_isna (tolist c).

(** [series.dropna().unique().tolist()]: the non-null cells, one of each;
    [unique] hashes the cells, so a list or dict cell raises TypeError. *)
Definition dropna_unique (c : column) : result (list pyval) :=
  set_update [] (filter (fun v => negb (py_isna v)) (tolist c)).

(** [pd.api.types.is_numeric_dtype(series)]. *)
Definition is_numeric_dtype (c : column) : bool :=
  match c with
  | ObjectCol _ => false
  | _ => true
  end.

Definition series_empty (c : column) : bool := Nat.eqb (List.length (tolist c)) 0.

Definition float_ltb (a b : spec_float) : bool := num_ltb (NFloat a) (NFloat b).

(** Minimum and maximum of a float64 column, NaN skipped; NaN when nothing
    is left. *)
Fixpoint nanmin (xs : list spec_float) : spec_float :=
  match xs with
  | [] => S754_nan
  | x :: rest =>
      let m := nanmin rest in
      if is_nan x then m
      else if is_nan m then x
      else if float_ltb m x then m else x
  end.

Fixpoint nanmax (xs : list spec_float) : spec_float :=
  match xs with
  | [] => S754_nan
  | x :: rest =>
      let m := nanmax rest in
      if is_nan x then m
      else if is_nan m then x
      else if float_ltb x m then m else x
  end.

(** [series.min()] and [series.max()] of a numeric column, as the NumPy
    scalar pandas returns (the source asks only when [is_numeric_dtype]
    holds, so an object column is never reached). *)
Definition series_min (c : column) : pyval :=
  match c with
  | IntCol (x :: xs) => NpInt (fold_left Z.min xs x)
  | IntCol [] => NpFloat S754_nan
  | FloatCol xs => NpFloat (nanmin xs)
  | BoolCol [] => NpFloat S754_nan
  | BoolCol xs => NpBool (forallb (fun b => b) xs)
  | ObjectCol _ => PNone
  end.

Definition series_max (c : column) : pyval :=
  match c with
  | IntCol (x :: xs) => NpInt (fold_left Z.max xs x)
  | IntCol [] => NpFloat S754_nan
  | FloatCol xs => NpFloat (nanmax xs)
  | BoolCol [] => NpFloat S754_nan
  | BoolCol xs => NpBool (existsb (fun b => b) xs)
  | ObjectCol _ => PNone
  end.

(** ** The report *)

(** [jsonschema.ValidationError], by the attributes the checker reads;
    [ve_path] is [str(e.path)]. *)
Record ValidationError := {
  ve_path : string;
  ve_message : string;
  ve_validator : string;
  ve_validator_value : pyval;
  ve_instance : pyval
}.

(** What [validate(instance=record, schema=schema)] does: return, raise a
    ValidationError, or raise another exception with text [str(e)]. *)
Inductive validation_outcome :=
| Valid
| RaisesValidationError (e : ValidationError)
| RaisesException (message : string).

(** The [validation_report] dict: its keys are fixed, so it is a record
    until it is returned. *)
Record report := {
  overall_status : string;
  errors : list pyval;
  warnings : list pyval;
  required_fields_coverage : pyval;
  enum_coverage : pydict;
  min_max_coverage : pydict
}.

Definition initial_report : report := {|
  overall_status := "PASS";
  errors := [];
  warnings := [];
  required_fields_coverage :=
    PDict [("total", PInt 0); ("covered", PInt 0); ("missing", PList [])];
  enum_coverage := [];
  min_max_coverage := []
|}.

Definition set_status (s : string) (r : report) : report :=
  {| overall_status := s; errors := errors r; warnings := warnings r;
     required_fields_coverage := required_fields_coverage r;
     enum_coverage := enum_coverage r; min_max_coverage := min_max_coverage r |}.

Definition append_error (e : pyval) (r : report) : report :=
  {| overall_status := overall_status r; errors := errors r ++ [e];
     warnings := warnings r;
     required_fields_coverage := required_fields_coverage r;
     enum_coverage := enum_coverage r; min_max_coverage := min_max_coverage r |}.

Definition append_warning (w : pyval) (r : report) : report :=
  {| overall_status := overall_status r; errors := errors r;
     warnings := warnings r ++ [w];
     required_fields_coverage := required_fields_coverage r;
     enum_coverage := enum_coverage r; min_max_coverage := min_max_coverage r |}.

Definition set_required_fields_coverage (c : pyval) (r : report) : report :=
  {| overall_status := overall_status r; errors := errors r;
     warnings := warnings r; required_fields_coverage := c;
     enum_coverage := enum_coverage r; min_max_coverage := min_max_coverage r |}.

Definition set_enum_coverage (field : string) (c : pyval) (r : report) : report :=
  {| overall_status := overall_status r; errors := errors r;
     warnings := warnings r;
     required_fields_coverage := required_fields_coverage r;
     enum_coverage := dict_set field c (enum_coverage r);
     min_max_coverage := min_max_coverage r |}.

Definition set_min_max_coverage (field : string) (c : pyval) (r : report) : report :=
  {| overall_status := overall_status r; errors := errors r;
     warnings := warnings r;
     required_fields_coverage := required_fields_coverage r;
     enum_coverage := enum_coverage r;
     min_max_coverage := dict_set field c (min_max_coverage r) |}.

(** The dict the record stands for. *)
Definition report_dict (r : report) : pyval :=
  PDict [("overall_status", PStr (overall_status r));
         ("errors", PList (errors r));
         ("warnings", PList (warnings r));
         ("coverage",
          PDict [("required_fields_coverage", required_fields_coverage r);
                 ("enum_coverage", PDict (enum_coverage r));
                 ("min_max_coverage", PDict (min_max_coverage r))])].

Definition warning (field message : string) : pyval :=
  PDict [("field", PStr field); ("message", PStr message)].

Definition len (l : list pyval) : pyval := PInt (Z.of_nat (List.length l)).

Definition nonempty {A : Type} (l : list A) : bool :=
  match l with [] => false | _ :: _ => true end.

(** ** The checker *)

(** The dicts the coverage pass fills from the schema and from the data. *)
Record coverage_vars := {
  enum_values_in_schema : list (string * pyset);
  enum_values_in_data : list (string * pyset);
  min_max_constraints : list (string * (pyval * pyval));
  min_max_data_values : list (string * (pyval * pyval))
}.

Definition no_constraints : coverage_vars := {|
  enum_values_in_schema := [];
  enum_values_in_data := [];
  min_max_constraints := [];
  min_max_data_values := []
|}.

(** One turn of the loop over [schema['properties'].items()]. *)
Definition scan_property (cv : coverage_vars) (prop : string * pyval)
    : result coverage_vars :=
  let '(prop_name, prop_details) := prop in
  has_enum <- py_contains "enum" prop_details ;;
  cv <- (if has_enum : bool then
           declared <- py_getitem prop_details "enum" ;;
           values <- py_set (to_json_serializable declared) ;;
           Ok {| enum_values_in_schema :=
                   dict_set prop_name values (enum_values_in_schema cv);
                 enum_values_in_data :=
                   dict_set prop_name [] (enum_values_in_data cv);
                 min_max_constraints := min_max_constraints cv;
                 min_max_data_values := min_max_data_values cv |}
         else Ok cv) ;;
  has_minimum <- py_contains "minimum" prop_details ;;
  has_bound <- (if has_minimum : bool then Ok true
                else py_contains "maximum" prop_details) ;;
  if has_bound : bool then
    minimum <- py_get prop_details "minimum" ;;
    maximum <- py_get prop_details "maximum" ;;
    Ok {| enum_values_in_schema := enum_values_in_schema cv;
          enum_values_in_data := enum_values_in_data cv;
          min_max_constraints :=
            dict_set prop_name
              (to_json_serializable minimum, to_json_serializable maximum)
              (min_max_constraints cv);
          min_max_data_values :=
            dict_set prop_name (PFloat float_inf, PFloat float_neg_inf)
              (min_max_data_values cv) |}
  else Ok cv.

Fixpoint scan_properties (cv : coverage_vars) (props : pydict)
    : result coverage_vars :=
  match props with
  | [] => Ok cv
  | prop :: rest => cv' <- scan_property cv prop ;; scan_properties cv' rest
  end.

(** [schema.get('required', [])]. *)
Definition schema_required (schema : pydict) : pyval :=
  match dict_get "required" schema with
  | Some v => v
  | None => PList []
  end.

(** The constraints collected when ['properties' in schema] and
    [schema['properties']] is a dict; none otherwise. *)
Definition schema_constraints (schema : pydict) : result coverage_vars :=
  match dict_get "properties" schema with
  | Some (PDict props) => scan_properties no_constraints props
  | _ => Ok no_constraints
  end.

(** One turn of the loop over [data_df.columns]. *)
Definition scan_column (required : pyset) (acc : pyset * coverage_vars)
    (col : string * column) : result (pyset * coverage_vars) :=
  let '(present, cv) := acc in
  let '(name, series) := col in
  let present :=
    if set_mem (PStr name) required then
      if negb (all_null series) then set_add (PStr name) present else present
    else present in
  cv <- (if dict_mem name (enum_values_in_schema cv) then
           match dict_get name (enum_values_in_data cv) with
           | Some seen =>
               values <- dropna_unique series ;;
               seen' <- set_update seen (map to_json_serializable values) ;;
               Ok {| enum_values_in_schema := enum_values_in_schema cv;
                     enum_values_in_data :=
                       dict_set name seen' (enum_values_in_data cv);
                     min_max_constraints := min_max_constraints cv;
                     min_max_data_values := min_max_data_values cv |}
           | None => Raise KeyError
           end
         else Ok cv) ;;
  cv <- (if dict_mem name (min_max_constraints cv) && is_numeric_dtype series then
           if negb (series_empty series) then
             match dict_get name (min_max_data_values cv) with
             | Some (min_data, max_data) =>
                 min_data' <- py_min min_data (to_json_serializable (series_min series)) ;;
                 max_data' <- py_max max_data (to_json_serializable (series_max series)) ;;
                 Ok {| enum_values_in_schema := enum_values_in_schema cv;
                       enum_values_in_data := enum_values_in_data cv;
                       min_max_constraints := min_max_constraints cv;
                       min_max_data_values :=
                         dict_set name (min_data', max_data')
                           (min_max_data_values cv) |}
             | None => Raise KeyError
             end
           else Ok cv
         else Ok cv) ;;
  Ok (present, cv).

Fixpoint scan_columns (required : pyset) (acc : pyset * coverage_vars)
    (cols : DataFrame) : result (pyset * coverage_vars) :=
  match cols with
  | [] => Ok acc
  | col :: rest =>
      acc' <- scan_column required acc col ;; scan_columns required acc' rest
  end.

Section Checker.

(** [jsonschema.validate], by its outcome on a record and a schema. *)
Variable validate : pyval -> pydict -> validation_outcome.

(** [list(s)] of a set: its elements in the set's iteration order, which
    follows the hashes and not the order of insertion. *)
Variable set_iter : pyset -> list pyval.

(** [str(v)] and [format(v, '.2f')]. *)
Variable py_str : pyval -> string.
Variable format_2f : pyval -> string.

(** The body of the loop over [enumerate(data_to_validate)]. *)
Definition check_record (schema : pydict) (i : nat) (record : pyval)
    (r : report) : report :=
  match validate record schema with
  | Valid => r
  | RaisesValidationError e =>
      append_error
        (to_json_serializable
           (PDict [("row_index", PInt (Z.of_nat i));
                   ("path", PStr (ve_path e));
                   ("message", PStr (ve_message e));
                   ("validator", PStr (ve_validator e));
                   ("validator_value", ve_validator_value e);
                   ("instance", ve_instance e)]))
        (set_status "FAIL" r)
  | RaisesException message =>
      append_error
        (to_json_serializable
           (PDict [("row_index", PInt (Z.of_nat i));
                   ("path", PStr "N/A");
                   ("message",
                    PStr ("Unexpected error during validation: " ++ message)%string);
                   ("detail", PStr message)]))
        (set_status "FAIL" r)
  end.

Fixpoint check_records (schema : pydict) (i : nat) (records : list pyval)
    (r : report) : report :=
  match records with
  | [] => r
  | record :: rest =>
      check_records schema (S i) rest (check_record schema i record r)
  end.

(** "Consolidate required fields coverage". *)
Definition consolidate_required (required present : pyset) (r : report)
    : result report :=
  let missing_required_fields := set_iter (set_difference required present) in
  let r :=
    set_required_fields_coverage
      (PDict [("total", len required);
              ("covered", len present);
              ("missing", PList missing_required_fields)]) r in
  if nonempty missing_required_fields then
    names <- py_join ", " missing_required_fields ;;
    Ok (append_warning
          (warning "N/A"
             ("Missing or entirely null required fields: " ++ names ++ ".")%string)
          (set_status "WARNINGS" r))
  else Ok r.

(** "Consolidate enum coverage": one turn of the loop over
    [enum_values_in_schema.items()]. *)
Definition consolidate_enum (cv : coverage_vars) (r : report)
    (item : string * pyset) : report :=
  let '(field, schema_enums) := item in
  let data_enums :=
    match dict_get field (enum_values_in_data cv) with
    | Some s => s
    | None => []
    end in
  let missing_enum_values := set_iter (set_difference schema_enums data_enums) in
  let r :=
    set_enum_coverage field
      (PDict [("total", len schema_enums);
              ("covered", len data_enums);
              ("missing", PList missing_enum_values)]) r in
  if nonempty missing_enum_values then
    append_warning
      (warning field
         ("Enum values in schema not present in data for '" ++ field ++ "': "
            ++ String.concat ", " (map py_str missing_enum_values) ++ ".")%string)
      (set_status "WARNINGS" r)
  else r.

(** "Consolidate min/max coverage": one turn of the loop over
    [min_max_constraints.items()]. *)
Definition consolidate_min_max (cv : coverage_vars) (r : report)
    (item : string * (pyval * pyval)) : result report :=
  let '(field, (min_constraint_val, max_constraint_val)) := item in
  let no_data_warning (r : report) : report :=
    append_warning
      (warning field
         ("Min/Max constraints for '" ++ field
            ++ "' defined in schema but no numeric data found to test them.")%string)
      (set_status "WARNINGS" r) in
  match dict_get field (min_max_data_values cv) with
  | None =>
      (* [data_values] is None: the else branch subscripts it *)
      if negb (is_None min_constraint_val) || negb (is_None max_constraint_val)
      then Raise TypeError else Ok r
  | Some (min_data_val, max_data_val) =>
      if py_ne min_data_val (PFloat float_inf)
         && py_ne max_data_val (PFloat float_neg_inf) then
        tolerance <-
          (if negb (is_None min_constraint_val) && negb (is_None max_constraint_val)
           then d <- py_sub max_constraint_val min_constraint_val ;;
                py_mul (PFloat float_0_01) d
           else Ok (PFloat float_0_01)) ;;
        min_boundary_tested <-
          (if is_None min_constraint_val then Ok true
           else
             hi <- py_add min_constraint_val tolerance ;;
             below <- py_le min_data_val hi ;;
             if below : bool then
               lo <- py_sub min_constraint_val tolerance ;;
               py_ge min_data_val lo
             else Ok false) ;;
        max_boundary_tested <-
          (if is_None max_constraint_val then Ok true
           else
             lo <- py_sub max_constraint_val tolerance ;;
             above <- py_ge max_data_val lo ;;
             if above : bool then
               hi <- py_add max_constraint_val tolerance ;;
               py_le max_data_val hi
             else Ok false) ;;
        let r :=
          set_min_max_coverage field
            (PDict [("min_constraint", min_constraint_val);
                    ("max_constraint", max_constraint_val);
                    ("min_data_value", min_data_val);
                    ("max_data_value", max_data_val);
                    ("min_boundary_tested", PBool min_boundary_tested);
                    ("max_boundary_tested", PBool max_boundary_tested)]) r in
        let r :=
          if negb (is_None min_constraint_val) && negb min_boundary_tested then
            append_warning
              (warning field
                 ("Data for '" ++ field
                    ++ "' does not sufficiently test the minimum boundary ("
                    ++ py_str min_constraint_val ++ "). Smallest value found: "
                    ++ format_2f min_data_val ++ ".")%string)
              (set_status "WARNINGS" r)
          else r in
        let r :=
          if negb (is_None max_constraint_val) && negb max_boundary_tested then
            append_warning
              (warning field
                 ("Data for '" ++ field
                    ++ "' does not sufficiently test the maximum boundary ("
                    ++ py_str max_constraint_val ++ "). Largest value found: "
                    ++ format_2f max_data_val ++ ".")%string)
              (set_status "WARNINGS" r)
          else r in
        Ok r
      else
        if (negb (is_None min_constraint_val) || negb (is_None max_constraint_val))
           && (py_eqb min_data_val (PFloat float_inf)
               || py_eqb max_data_val (PFloat float_neg_inf))
        then Ok (no_data_warning r)
        else Ok r
  end.

Fixpoint consolidate_min_max_all (cv : coverage_vars) (r : report)
    (items : list (string * (pyval * pyval))) : result report :=
  match items with
  | [] => Ok r
  | item :: rest =>
      r' <- consolidate_min_max cv r item ;; consolidate_min_max_all cv r' rest
  end.

(** "2. Constraint Coverage Checker", on the report the validation loop
    leaves. *)
Definition coverage_pass (data_df : DataFrame) (schema : pydict) (r : report)
    : result report :=
  required_fields_in_schema <- py_set (schema_required schema) ;;
  cv <- schema_constraints schema ;;
  scanned <- scan_columns required_fields_in_schema ([], cv) data_df ;;
  let '(present_required_fields, cv) := scanned in
  r <- consolidate_required required_fields_in_schema present_required_fields r ;;
  let r := fold_left (consolidate_enum cv) (enum_values_in_schema cv) r in
  consolidate_min_max_all cv r (min_max_constraints cv).

(** [validate_data_against_schema].  A missing schema is [None]. *)
Definition validate_data_against_schema (data_df : DataFrame)
    (schema : option pydict) : result pyval :=
  let validation_report := initial_report in
  if df_empty data_df then
    Ok (report_dict
          (append_warning
             (PDict [("message", PStr "No data provided for validation.")])
             (set_status "WARNINGS" validation_report)))
  else
    match schema with
    | None | Some [] =>
        Ok (report_dict
              (append_error
                 (PDict [("message", PStr "No schema provided for validation.")])
                 (set_status "FAIL" validation_report)))
    | Some schema =>
        let data_to_validate := convert_dataframe_to_json_serializable data_df in
        let validation_report :=
          check_records schema 0 data_to_validate validation_report in
        validation_report <- coverage_pass data_df schema validation_report ;;
        Ok (to_json_serializable (report_dict validation_report))
    end.

End Checker.

(** ** Reading a report *)

(** [v[key]] when [v] is a dict that has the key. *)
Definition py_field (key : string) (v : pyval) : option pyval :=
  match v with
  | PDict d => dict_get key d
  | _ => None
  end.

Fixpoint py_path (keys : list string) (v : pyval) : option pyval :=
  match keys with
  | [] => Some v
  | k :: rest =>
      match py_field k v with
      | Some x => py_path rest x
      | None => None
      end
  end.

(** The same on the outcome of a call; nothing when the call raised. *)
Definition report_path (keys : list string) (r : result pyval) : option pyval :=
  match r with
  | Ok v => py_path keys v
  | Raise _ => None
  end.

(** The error entries the validation loop records for one record. *)
Definition record_errors (validate : pyval -> pydict -> validation_outcome)
    (schema : pydict) (i : nat) (record : pyval) : list pyval :=
  errors (check_record validate schema i record initial_report).

(** An error entry is about row [i]. *)
Definition at_row (i : nat) (e : pyval) : bool :=
  match py_field "row_index" e with
  | Some (PInt z) => Z.eqb z (Z.of_nat i)
  | _ => false
  end.

(** ** Vocabulary of the coverage statements *)

Definition has_name (x : string) (u : list string) : bool :=
  existsb (String.eqb x) u.

Definition add_name (u : list string) (x : string) : list string :=
  if has_name x u then u else u ++ [x].


(** A column with this label holds a value that is not null. *)
Definition has_value (df : DataFrame) (name : string) : bool :=
  match dict_get name df with
  | Some c => negb (all_null c)
  | None => false
  end.


(** A warning about a field that satisfies [P]. *)
Definition field_warning (P : string -> Prop) (w : pyval) : Prop :=
  exists field message, w = warning field message /\ P field.




(** [details.get(key)]. *)
Definition declared (key : string) (details : pydict) : pyval :=
  match dict_get key details with
  | Some x => x
  | None => PNone
  end.



(** The status a report ends with, from its findings: a warning decides
    before an error does. *)
Definition status_of_findings (errs warns : list pyval) : string :=
  if nonempty warns then "WARNINGS"
  else if nonempty errs then "FAIL"
  else "PASS".

(** The status is WARNINGS once a warning is there, and [s0] before. *)
Definition status_tracks_warnings (s0 : string) (r : report) : Prop :=
  overall_status r = if nonempty (warnings r) then "WARNINGS" else s0.

(** The distinct non-null normalized values observed for a field; none
    when no column carries the field. *)
Definition observed_values (df : DataFrame) (field : string) : result pyset :=
  match dict_get field df with
  | Some series =>
      values <- dropna_unique series ;;
      set_update [] (map to_json_serializable values)
  | None => Ok []
  end.

(** The entry and the warning of one enum field. *)
Definition enum_entry (set_iter : pyset -> list pyval)
    (declared_set observed : pyset) : pyval :=
  PDict [("total", len declared_set);
         ("covered", len observed);
         ("missing", PList (set_iter (set_difference declared_set observed)))].

Definition enum_warning (py_str : pyval -> string) (field : string)
    (missing : list pyval) : pyval :=
  warning field
    ("Enum values in schema not present in data for '" ++ field ++ "': "
       ++ String.concat ", " (map py_str missing) ++ ".")%string.

(** All columns have the length of the frame. *)
Definition rectangular (df : DataFrame) : Prop :=
  forall name c, In (name, c) df -> List.length (tolist c) = n_rows df.

Definition zero_coverage : pyval :=
  PDict [("required_fields_coverage",
          PDict [("total", PInt 0); ("covered", PInt 0); ("missing", PList [])]);
         ("enum_coverage", PDict []);
         ("min_max_coverage", PDict [])].

(** The report of a call without data. *)
Definition no_data_report : pyval :=
  PDict [("overall_status", PStr "WARNINGS");
         ("errors", PList []);
         ("warnings", PList [PDict [("message", PStr "No data provided for validation.")]]);
         ("coverage", zero_coverage)].

(** The report of a call with data and without a schema. *)
Definition no_schema_report : pyval :=
  PDict [("overall_status", PStr "FAIL");
         ("errors", PList [PDict [("message", PStr "No schema provided for validation.")]]);
         ("warnings", PList []);
         ("coverage", zero_coverage)].

(** ** Vocabulary of the further statements *)

(** The values [json.dumps] accepts: None, bool, int, float (NaN and the
    infinities included), str, and lists and dicts of such. *)
Fixpoint json_native (v : pyval) : bool :=
  match v with
  | PNone | PBool _ | PInt _ | PFloat _ | PStr _ => true
  | PList l => forallb json_native l
  | PDict d => forallb (fun kv => json_native (snd kv)) d
  | _ => false
  end.

(** The row an error entry is about, when it names one. *)
Definition row_index_of (e : pyval) : option Z :=
  match py_field "row_index" e with
  | Some (PInt z) => Some z
  | _ => None
  end.

(** The validator returned. *)
Definition is_valid (o : validation_outcome) : bool :=
  match o with Valid => true | _ => false end.

(** The positions of the records that do not validate, in increasing
    order. *)
Definition invalid_rows (validate : pyval -> pydict -> validation_outcome)
    (schema : pydict) (records : list pyval) : list nat :=
  map fst
    (filter (fun ir => negb (is_valid (validate (snd ir) schema)))
       (combine (seq 0 (List.length records)) records)).

(** Two reports agree outside [errors] and [overall_status]. *)
Definition same_coverage (r1 r2 : report) : Prop :=
  warnings r1 = warnings r2 /\
  required_fields_coverage r1 = required_fields_coverage r2 /\
  enum_coverage r1 = enum_coverage r2 /\
  min_max_coverage r1 = min_max_coverage r2.

(** The warning of a field whose bounds no numeric data could test. *)
Definition no_numeric_data_warning (field : string) : pyval :=
  warning field
    ("Min/Max constraints for '" ++ field
       ++ "' defined in schema but no numeric data found to test them.")%string.

(** Two outcomes agree: both return, with results related by [R], or both
    raise the same exception. *)
Definition agree {A : Type} (R : A -> A -> Prop) (x y : result A) : Prop :=
  match x, y with
  | Ok a, Ok b => R a b
  | Raise e1, Raise e2 => e1 = e2
  | _, _ => False
  end.

(** Two returned reports have the same warnings and the same coverage. *)
Definition same_findings (rep1 rep2 : pyval) : Prop :=
  py_field "warnings" rep1 = py_field "warnings" rep2 /\
  py_field "coverage" rep1 = py_field "coverage" rep2.

(** A column that gives the min/max analysis nothing: it holds objects,
    or NaN only, or no cell. *)
Definition no_numeric_data (c : column) : bool :=
  match c with
  | ObjectCol _ => true
  | FloatCol xs => forallb is_nan xs
  | IntCol xs => negb (nonempty xs)
  | BoolCol xs => negb (nonempty xs)
  end.

(** The outcome is the exception KeyError. *)
Definition raises_key_error {A : Type} (r : result A) : bool :=
  match r with
  | Raise KeyError => true
  | _ => false
  end.

(** Every field with declared enum values or bounds has its slot for the
    values of the data. *)
Definition linked (cv : coverage_vars) : Prop :=
  (forall k, dict_mem k (enum_values_in_schema cv) = true ->
             dict_mem k (enum_values_in_data cv) = true) /\
  (forall k, dict_mem k (min_max_constraints cv) = true ->
             dict_mem k (min_max_data_values cv) = true).


(** ** The flattened properties of a schema (validator/schema_parser.py) *)

(** [v.get(key, default)]. *)
Definition py_get_default (v : pyval) (key : string) (default : pyval)
    : result pyval :=
  match v with
  | PDict d => Ok (match dict_get key d with Some x => x | None => default end)
  | _ => Raise AttributeError
  end.

(** [{k: v for k, v in details.items() if v is not None}]. *)
Definition without_none (details : pydict) : pydict :=
  filter (fun kv => negb (is_None (snd kv))) details.

(** The entry of one property: the body of the loop over
    [schema['properties'].items()]. *)
Definition property_entry (required_fields : pyset) (prop : string * pyval)
    : result pydict :=
  let '(prop_name, prop_details) := prop in
  type_ <- py_get prop_details "type" ;;
  format <- py_get prop_details "format" ;;
  enum <- py_get prop_details "enum" ;;
  description <- py_get prop_details "description" ;;
  minimum <- py_get prop_details "minimum" ;;
  maximum <- py_get prop_details "maximum" ;;
  minLength <- py_get prop_details "minLength" ;;
  maxLength <- py_get prop_details "maxLength" ;;
  pattern <- py_get prop_details "pattern" ;;
  nullable <- py_get_default prop_details "nullable" (PBool false) ;;
  Ok (without_none
        [("type", type_);
         ("format", format);
         ("enum", enum);
         ("required", PBool (set_mem (PStr prop_name) required_fields));
         ("description", description);
         ("minimum", minimum);
         ("maximum", maximum);
         ("minLength", minLength);
         ("maxLength", maxLength);
         ("pattern", pattern);
         ("nullable", nullable)]).

Fixpoint extract_properties (required_fields : pyset) (props : pydict)
    (extracted_properties : pydict) : result pydict :=
  match props with
  | [] => Ok extracted_properties
  | prop :: rest =>
      details <- property_entry required_fields prop ;;
      extract_properties required_fields rest
        (dict_set (fst prop) (PDict details) extracted_properties)
  end.

(** [extract_schema_properties]. *)
Definition extract_schema_properties (schema : pydict) : result pydict :=
  match schema, dict_get "properties" schema with
  | _ :: _, Some (PDict props) =>
      required_fields <- py_set (schema_required schema) ;;
      extract_properties required_fields props []
  | _, _ => Ok []
  end.

(** The keywords an entry keeps. *)
Definition kept_keywords : list string :=
  ["type"; "format"; "enum"; "description"; "minimum"; "maximum";
   "minLength"; "maxLength"; "pattern"].

(** What an entry holds under a key other than [required]: the declared
    value of a kept keyword unless it is null, [False] for an undeclared
    [nullable], nothing otherwise. *)
Definition kept (details : pydict) (key : string) : option pyval :=
  if has_name key kept_keywords || String.eqb key "nullable" then
    match dict_get key details with
    | Some v => if is_None v then None else Some v
    | None => if String.eqb key "nullable" then Some (PBool false) else None
    end
  else None.

Definition is_dict (v : pyval) : bool :=
  match v with PDict _ => true | _ => false end.

(** ** The export of the failed rows (reports/export_utils.py) *)

(** What [df.to_csv(index=False).encode('utf-8')] gives: the bytes, or the
    UnicodeEncodeError of a text that UTF-8 cannot encode (a cell with a
    lone surrogate). *)
Inductive encoded :=
| Encoded (bytes : string)
| RaisesUnicodeEncodeError.

(** What a call of the export gives: the bytes of a CSV, [None], or an
    exception, IndexError being the one of [iloc] and UnicodeEncodeError
    the one of [encode]. *)
Inductive exported :=
| Bytes (csv : string)
| NoneReturned
| Raised (e : exn)
| RaisedIndexError
| RaisedUnicodeEncodeError.

(** The last line of the export: the bytes are returned, the exception
    leaves the function. *)
Definition after_encode (o : encoded) : exported :=
  match o with
  | Encoded bytes => Bytes bytes
  | RaisesUnicodeEncodeError => RaisedUnicodeEncodeError
  end.

(** [[err['row_index'] for err in validation_errors if 'row_index' in err]]. *)
Fixpoint row_indices (validation_errors : list pyval) : result (list pyval) :=
  match validation_errors with
  | [] => Ok []
  | err :: rest =>
      has_index <- py_contains "row_index" err ;;
      if has_index : bool then
        index <- py_getitem err "row_index" ;;
        indices <- row_indices rest ;;
        Ok (index :: indices)
      else row_indices rest
  end.

(** The items of a list when each is an int. *)
Fixpoint all_int (l : list pyval) : option (list Z) :=
  match l with
  | [] => Some []
  | PInt z :: rest =>
      match all_int rest with Some zs => Some (z :: zs) | None => None end
  | _ => None
  end.

(** [sorted] on ints. *)
Fixpoint insert_sorted (z : Z) (l : list Z) : list Z :=
  match l with
  | [] => [z]
  | x :: rest => if (z <=? x)%Z then z :: l else x :: insert_sorted z rest
  end.

Definition sorted (l : list Z) : list Z := fold_right insert_sorted [] l.

(** The row a positional indexer selects in a frame of [n] rows: negative
    positions count from the end; none when it is out of bounds. *)
Definition position (n : nat) (z : Z) : option nat :=
  if ((0 <=? z) && (z <? Z.of_nat n))%Z then Some (Z.to_nat z)
  else if ((z <? 0) && (- Z.of_nat n <=? z))%Z then Some (Z.to_nat (Z.of_nat n + z))
  else None.

Fixpoint positions (n : nat) (indexers : list Z) : option (list nat) :=
  match indexers with
  | [] => Some []
  | z :: rest =>
      match position n z, positions n rest with
      | Some i, Some rows => Some (i :: rows)
      | _, _ => None
      end
  end.

Definition take {A : Type} (xs : list A) (rows : list nat) : list A :=
  flat_map (fun i => match nth_error xs i with Some x => [x] | None => [] end) rows.

Definition take_rows (c : column) (rows : list nat) : column :=
  match c with
  | IntCol xs => IntCol (take xs rows)
  | FloatCol xs => FloatCol (take xs rows)
  | BoolCol xs => BoolCol (take xs rows)
  | ObjectCol xs => ObjectCol (take xs rows)
  end.

(** The frame of the given rows, in the given order. *)
Definition select_rows (df : DataFrame) (rows : list nat) : DataFrame :=
  map (fun nc => (fst nc, take_rows (snd nc) rows)) df.

(** [df.iloc[indexers]] for a list of ints; none stands for IndexError. *)
Definition iloc (df : DataFrame) (indexers : list Z) : option DataFrame :=
  match positions (n_rows df) indexers with
  | Some rows => Some (select_rows df rows)
  | None => None
  end.

Section FailedCases.

(** [list(s)] of a set, as in the checker. *)
Variable set_iter : pyset -> list pyval.

(** [df.to_csv(index=False).encode('utf-8')], by its outcome on a frame. *)
Variable to_csv : DataFrame -> encoded.

(** What [sorted] and [iloc] do with row indices that are not all ints. *)
Variable other_indexers : DataFrame -> list pyval -> exported.

(** [export_failed_cases_csv]. *)
Definition export_failed_cases_csv (data_df : DataFrame)
    (validation_errors : list pyval) : exported :=
  if df_empty data_df || negb (nonempty validation_errors) then NoneReturned
  else
    match (indices <- row_indices validation_errors ;; set_update [] indices) with
    | Raise e => Raised e
    | Ok index_set =>
        match all_int (set_iter index_set) with
        | Some indices =>
            let error_indices := sorted indices in
            if negb (nonempty error_indices) then NoneReturned
            else
              match iloc data_df error_indices with
              | Some failed_df => after_encode (to_csv failed_df)
              | None => RaisedIndexError
              end
        | None => other_indexers data_df (set_iter index_set)
        end
    end.

End FailedCases.

(** ** Calls of the model with retries
    (validator/ai_suggester.py and validator/test_case_generator.py) *)

Definition MAX_RETRIES : nat := 5.
Definition INITIAL_RETRY_DELAY : Z := 2.

(** The exceptions the helper tells apart, with their text:
    ResourceExhausted, another GoogleAPIError (InternalServerError is
    one), and any other Exception. *)
Inductive api_exn :=
| ResourceExhausted (message : string)
| GoogleAPIError (message : string)
| OtherException (message : string).

(** What [model_instance.generate_content(prompt)] followed by
    [response.text] does. *)
Inductive api_outcome :=
| Responds (text : string)
| Fails (e : api_exn).

(** A model, by the outcome of its calls: the first, the second, ... *)
Definition model := nat -> api_outcome.

(** What the helper does to the outside: a call of the model, or
    [time.sleep(base + u)] with [u] the [draw]-th value of
    [random.uniform(0, RETRY_JITTER_MAX)]. *)
Inductive event :=
| Call
| Sleep (base : Z) (draw : nat).

Record world := {
  calls : nat;
  draws : nat;
  trace : list event
}.

Definition untouched : world := {| calls := 0; draws := 0; trace := [] |}.

Definition called (w : world) : world :=
  {| calls := S (calls w); draws := draws w; trace := trace w ++ [Call] |}.

Definition slept (base : Z) (w : world) : world :=
  {| calls := calls w;
     draws := S (draws w);
     trace := trace w ++ [Sleep base (draws w)] |}.

Inductive retry_result :=
| Returned (text : string)
| Reraised (e : api_exn)
| RaisedValueError
| RaisedUnknownReason.

(** The while loop; [None] when the fuel does not suffice. *)
Fixpoint retry_loop (generate_content : model) (fuel retry_count : nat) (w : world)
    : option (retry_result * world) :=
  match fuel with
  | O => None
  | S fuel =>
      if (retry_count <? MAX_RETRIES)%nat then
        match generate_content (calls w) with
        | Responds text => Some (Returned text, called w)
        | Fails (ResourceExhausted message) =>
            let w := called w in
            let retry_count := S retry_count in
            if (retry_count =? MAX_RETRIES)%nat
            then Some (Reraised (ResourceExhausted message), w)
            else
              let base := INITIAL_RETRY_DELAY * 2 ^ (Z.of_nat retry_count - 1) in
              retry_loop generate_content fuel retry_count (slept base w)
        | Fails (GoogleAPIError message) =>
            let w := called w in
            let retry_count := S retry_count in
            if (retry_count =? MAX_RETRIES)%nat
            then Some (Reraised (GoogleAPIError message), w)
            else
              let base := INITIAL_RETRY_DELAY * 2 ^ (Z.of_nat retry_count - 1) in
              retry_loop generate_content fuel retry_count (slept base w)
        | Fails (OtherException message) =>
            Some (Reraised (OtherException message), called w)
        end
      else Some (RaisedUnknownReason, w)
  end.

(** [_call_gemini_with_retry]; a model that is not initialized is none. *)
Definition call_gemini_with_retry (fuel : nat) (model_instance : option model)
    : option (retry_result * world) :=
  match model_instance with
  | None => Some (RaisedValueError, untouched)
  | Some generate_content => retry_loop generate_content fuel 0 untouched
  end.

(** An exception after which the helper tries again. *)
Definition retried (o : api_outcome) : bool :=
  match o with
  | Fails (ResourceExhausted _) | Fails (GoogleAPIError _) => true
  | _ => false
  end.

(** What an outcome that ends the helper makes it do. *)
Definition final (o : api_outcome) : retry_result :=
  match o with
  | Responds text => Returned text
  | Fails e => Reraised e
  end.

(** The events of [c] failed calls, each followed by its wait: the waits
    double from [INITIAL_RETRY_DELAY]. *)
Definition retries (c : nat) : list event :=
  flat_map (fun k => [Call; Sleep (INITIAL_RETRY_DELAY * 2 ^ Z.of_nat k) k])
    (seq 0 c).

(** The world when the loop is entered for call [c], and after that call
    has ended the helper. *)
Definition entering (c : nat) : world :=
  {| calls := c; draws := c; trace := retries c |}.

Definition ended_at (c : nat) : world :=
  {| calls := S c; draws := c; trace := retries c ++ [Call] |}.

(** The first call from [c] on whose outcome is not retried, among [n]
    calls; the call after them otherwise. *)
Fixpoint first_decisive (generate_content : model) (c n : nat) : nat :=
  match n with
  | O => c
  | S n' =>
      if retried (generate_content c)
      then first_decisive generate_content (S c) n'
      else c
  end.

Definition waits (w : world) : list Z :=
  flat_map (fun e => match e with Sleep base _ => [base] | Call => [] end) (trace w).

(** ** Parsing the answer of the model
    (validator/ai_suggester.py and validator/test_case_generator.py) *)

(** A Python str: the list of its code points. *)
Definition text := list N.

(** The code points of an ASCII literal. *)
Definition codes (s : string) : text := map N_of_ascii (list_ascii_of_string s).

(** [c.isspace()], the characters [str.strip()] removes. *)
Definition is_space (c : N) : bool :=
  ((9 <=? c) && (c <=? 13) || (28 <=? c) && (c <=? 32)
   || (c =? 133) || (c =? 160) || (c =? 5760)
   || (8192 <=? c) && (c <=? 8202)
   || (c =? 8232) || (c =? 8233) || (c =? 8239) || (c =? 8287) || (c =? 12288))%N.

Fixpoint lstrip (s : text) : text :=
  match s with
  | c :: rest => if is_space c then lstrip rest else s
  | [] => []
  end.

Definition rstrip (s : text) : text := rev (lstrip (rev s)).

(** [s.strip()]. *)
Definition strip (s : text) : text := rstrip (lstrip s).

(** [s.startswith(prefix)] and [s.endswith(suffix)]. *)
Fixpoint startswith (s prefix : text) {struct prefix} : bool :=
  match prefix, s with
  | [], _ => true
  | p :: prefix', c :: rest => N.eqb p c && startswith rest prefix'
  | _ :: _, [] => false
  end.

Definition endswith (s suffix : text) : bool := startswith (rev s) (rev suffix).

(** [s[start:-back]] for [back > 0]. *)
Definition slice (s : text) (start back : nat) : text :=
  skipn start (firstn (List.length s - back) s).

(** The text handed to [json.loads]. *)
Definition cleaned (response_text : text) : text :=
  let cleaned_text := strip response_text in
  if startswith cleaned_text (codes "```json") && endswith cleaned_text (codes "```")
  then strip (slice cleaned_text 7 3)
  else if startswith cleaned_text (codes "```") && endswith cleaned_text (codes "```")
  then strip (slice cleaned_text 3 3)
  else cleaned_text.

(** What [json.loads] does with a text. *)
Inductive loads_outcome :=
| Loaded (v : pyval)
| RaisesJSONDecodeError (e : string)
| RaisesAnother (e : string).

(** The parsed value, or the message of the ValueError. *)
Inductive parsed :=
| Parsed (v : pyval)
| RaisesValueError (message : string).

(** The [try] around [json.loads]: both handlers raise ValueError. *)
Definition after_loads (o : loads_outcome) : parsed :=
  match o with
  | Loaded v => Parsed v
  | RaisesJSONDecodeError e =>
      RaisesValueError ("Failed to parse JSON response from AI: " ++ e)%string
  | RaisesAnother e =>
      RaisesValueError ("Unexpected error parsing AI response: " ++ e)%string
  end.

(** [_parse_gemini_json_response], with [json.loads] by its outcome on a
    text. *)
Definition parse_gemini_json_response (json_loads : text -> loads_outcome)
    (response_text : text) : parsed :=
  after_loads (json_loads (cleaned response_text)).

(** ** Sample collaborators and inputs *)

Module Samples.

(** Set iteration orders: as inserted, and reversed. *)
Definition insertion_order : pyset -> list pyval := fun s => s.

(** [str] and [format(_, '.2f')], enough for the values of the samples:
    strings and small non-negative ints. *)
Definition digit (n : nat) : string :=
  String (ascii_of_nat (48 + n)) EmptyString.

Fixpoint decimal (fuel n : nat) : string :=
  match fuel with
  | O => digit n
  | S fuel' =>
      if Nat.ltb n 10 then digit n
      else (decimal fuel' (Nat.div n 10) ++ digit (Nat.modulo n 10))%string
  end.

Definition str (v : pyval) : string :=
  match v with
  | PStr s => s
  | PInt z => decimal 20 (Z.to_nat z)
  | PNone => "None"
  | PBool true => "True"
  | PBool false => "False"
  | _ => "<object>"
  end.

Definition two_decimals (v : pyval) : string :=
  match v with
  | PInt z => (decimal 20 (Z.to_nat z) ++ ".00")%string
  | _ => "<number>"
  end.

(** A validator that accepts every record. *)
Definition accept_all : pyval -> pydict -> validation_outcome :=
  fun _ _ => Valid.

(** What jsonschema does with a schema whose only rule is
    [required: ["b"]]. *)
Definition require_b : pyval -> pydict -> validation_outcome :=
  fun record _ =>
    match py_field "b" record with
    | Some _ => Valid
    | None =>
        RaisesValidationError
          {| ve_path := "deque([])";
             ve_message := "'b' is a required property";
             ve_validator := "required";
             ve_validator_value := PList [PStr "b"];
             ve_instance := record |}
    end.

(** The rendering of a value inside a jsonschema message: its [repr]. *)
Definition repr (v : pyval) : string :=
  match v with
  | PStr s => ("'" ++ s ++ "'")%string
  | _ => str v
  end.

(** What jsonschema does with a schema whose only rule is
    [properties: {age: {type: integer}}]. *)
Definition age_is_integer : pyval -> pydict -> validation_outcome :=
  fun record _ =>
    match py_field "age" record with
    | Some (PInt _) | None => Valid
    | Some v =>
        RaisesValidationError
          {| ve_path := "deque(['age'])";
             ve_message := (repr v ++ " is not of type 'integer'")%string;
             ve_validator := "type";
             ve_validator_value := PStr "integer";
             ve_instance := v |}
    end.

(** What jsonschema does with a malformed schema: every call raises a
    SchemaError, which is not a ValidationError. *)
Definition schema_error (message : string)
    : pyval -> pydict -> validation_outcome :=
  fun _ _ => RaisesException message.

(** One column [a], two rows. *)
Definition df_a : DataFrame := [("a", IntCol [1; 2])].

Definition schema_requires_b : pydict :=
  [("type", PStr "object"); ("required", PList [PStr "b"])].




Definition df_age : DataFrame :=
  [("age", ObjectCol [PInt 30; PStr "old"; PInt 41])].

Definition schema_age : pydict :=
  [("type", PStr "object");
   ("properties", PDict [("age", PDict [("type", PStr "integer")])])].

Definition schema_malformed : pydict := [("type", PInt 12)].

Definition df_status : DataFrame :=
  [("status", ObjectCol [PStr "x"; PStr "z"])].

Definition schema_status : pydict :=
  [("type", PStr "object");
   ("properties",
    PDict [("status", PDict [("type", PStr "string");
                             ("enum", PList [PStr "x"; PStr "y"])])])].

(** What jsonschema does with [schema_status]. *)
Definition status_in_x_y : pyval -> pydict -> validation_outcome :=
  fun record _ =>
    match py_field "status" record with
    | None | Some (PStr "x") | Some (PStr "y") => Valid
    | Some v =>
        RaisesValidationError
          {| ve_path := "deque(['status'])";
             ve_message := (repr v ++ " is not one of ['x', 'y']")%string;
             ve_validator := "enum";
             ve_validator_value := PList [PStr "x"; PStr "y"];
             ve_instance := v |}
    end.

Definition schema_score : pydict :=
  [("type", PStr "object");
   ("properties",
    PDict [("score", PDict [("type", PStr "integer");
                            ("minimum", PInt 0);
                            ("maximum", PInt 100)])])].

Definition df_score_at_bounds : DataFrame := [("score", IntCol [0; 50; 100])].

Definition schema_score_text_bounds : pydict :=
  [("type", PStr "object");
   ("properties",
    PDict [("score", PDict [("minimum", PStr "low"); ("maximum", PStr "high")])])].

Definition df_score_all_nan : DataFrame :=
  [("score", FloatCol [S754_nan; S754_nan])].



(** A schema that states the rule on [a] before it requires [b]. *)
Definition schema_a_integer_b_required : pydict :=
  [("type", PStr "object");
   ("properties", PDict [("a", PDict [("type", PStr "integer")])]);
   ("required", PList [PStr "b"])].

(** The violations of a record against [schema_a_integer_b_required], in
    the order in which jsonschema finds them (the keywords of the schema
    in their order, depth first), each with the length of its path. *)
Definition violations_a_b (record : pyval) : list (nat * ValidationError) :=
  (match py_field "a" record with
   | Some (PInt _) | None => []
   | Some v =>
       [(1%nat,
         {| ve_path := "deque(['a'])";
            ve_message := (repr v ++ " is not of type 'integer'")%string;
            ve_validator := "type";
            ve_validator_value := PStr "integer";
            ve_instance := v |})]
   end)
  ++
  (match py_field "b" record with
   | Some _ => []
   | None =>
       [(0%nat,
         {| ve_path := "deque([])";
            ve_message := "'b' is a required property";
            ve_validator := "required";
            ve_validator_value := PList [PStr "b"];
            ve_instance := record |})]
   end).

(** [jsonschema.exceptions.best_match] on violations of these kinds: one
    with the shortest path, the first of them. *)
Fixpoint best_match (errors : list (nat * ValidationError))
    : option (nat * ValidationError) :=
  match errors with
  | [] => None
  | e :: rest =>
      match best_match rest with
      | Some b => if Nat.ltb (fst b) (fst e) then Some b else Some e
      | None => Some e
      end
  end.

(** What [jsonschema.validate] does with [schema_a_integer_b_required]:
    it raises [best_match(validator.iter_errors(instance))]. *)
Definition validate_a_b : pyval -> pydict -> validation_outcome :=
  fun record _ =>
    match best_match (violations_a_b record) with
    | Some (_, e) => RaisesValidationError e
    | None => Valid
    end.

(** One record, [{'a': 'x'}]. *)
Definition df_a_text : DataFrame := [("a", ObjectCol [PStr "x"])].

(** A column [score] of text. *)
Definition df_score_text : DataFrame :=
  [("score", ObjectCol [PStr "high"; PStr "low"])].

(** A schema with a required [id] and a nullable [note]; [title] is a
    keyword the flattening does not keep. *)
Definition properties_id_note : pydict :=
  [("id", PDict [("type", PStr "integer"); ("minimum", PInt 1);
                 ("title", PStr "Identifier")]);
   ("note", PDict [("type", PStr "string"); ("nullable", PBool true);
                   ("description", PNone)])].

Definition schema_id_note : pydict :=
  [("type", PStr "object");
   ("properties", PDict properties_id_note);
   ("required", PList [PStr "id"])].

(** A schema whose property is described by a string. *)
Definition schema_id_text : pydict :=
  [("properties", PDict [("id", PStr "integer")]);
   ("required", PList [PStr "id"])].

Definition newline : string := String (ascii_of_nat 10) EmptyString.

(** A plain rendering of a frame as CSV: the labels, then one line per
    row. *)
Definition csv (df : DataFrame) : string :=
  String.concat newline
    (String.concat "," (map fst df)
     :: map (fun i =>
               String.concat ","
                 (map (fun nc => str (nth i (tolist (snd nc)) PNone)) df))
          (seq 0 (n_rows df))).

(** Its bytes: the samples hold ASCII text only. *)
Definition csv_bytes (df : DataFrame) : encoded := Encoded (csv df).

Definition unsupported : DataFrame -> list pyval -> exported :=
  fun _ _ => Raised TypeError.

(** A model that answers at its third call, after two quota errors. *)
Definition third_time : model :=
  fun k =>
    match k with
    | 0%nat | 1%nat => Fails (ResourceExhausted "429 quota exceeded")
    | _ => Responds "[]"
    end.

(** A model whose quota is exhausted for good. *)
Definition exhausted : model :=
  fun k => Fails (ResourceExhausted ("429 at call " ++ digit k)%string).

(** A loader that knows the empty list. *)
Definition loads : text -> loads_outcome :=
  fun s =>
    if startswith s (codes "[]") && Nat.eqb (List.length s) 2
    then Loaded (PList [])
    else RaisesJSONDecodeError "Expecting value: line 1 column 1 (char 0)".

(** The checker with the sample [str] and [format]. *)
Definition run (validate : pyval -> pydict -> validation_outcome)
    (set_iter : pyset -> list pyval) :=
  validate_data_against_schema validate set_iter str two_decimals.

End Samples.

(** * Properties *)

(** ** The normalizer *)

Lemma normalize_fixes_json_primitive (v : pyval) :
  json_primitive v = true -> to_json_serializable v = v.
Proof.
  induction v using pyval_nested_ind; simpl; intros Hp;
    try reflexivity; try discriminate.
  - destruct (is_nan f); [discriminate | reflexivity].
  - f_equal. induction H as [|x xs Hx _ IH]; simpl in *; [reflexivity|].
    apply andb_true_iff in Hp as [Hp1 Hp2].
    rewrite Hx, IH by assumption. reflexivity.
  - f_equal. induction H as [|[k x] xs Hx _ IH]; simpl in *; [reflexivity|].
    apply andb_true_iff in Hp as [Hp1 Hp2].
    rewrite Hx, IH by assumption. reflexivity.
Qed.

Lemma normalize_json_primitive (v : pyval) :
  has_np_nan v = false -> json_primitive (to_json_serializable v) = true.
Proof.
  induction v using pyval_nested_ind; simpl; intros Hn; try reflexivity.
  - destruct (is_nan f) eqn:E; simpl; [reflexivity | now rewrite E].
  - induction H as [|x xs Hx _ IH]; simpl in *; [reflexivity|].
    apply orb_false_iff in Hn as [Hn1 Hn2]. now rewrite Hx, IH.
  - induction H as [|[k x] xs Hx _ IH]; simpl in *; [reflexivity|].
    apply orb_false_iff in Hn as [Hn1 Hn2]. now rewrite Hx, IH.
  - now rewrite Hn.
  - induction H as [|x xs Hx _ IH]; simpl in *; [reflexivity|].
    apply orb_false_iff in Hn as [Hn1 Hn2]. now rewrite Hx, IH.
  - induction H as [|x xs Hx _ IH]; simpl in *; [reflexivity|].
    apply orb_false_iff in Hn as [Hn1 Hn2]. now rewrite Hx, IH.
Qed.

(** X3.  Away from NumPy floating NaN the normalizer is idempotent: a
    second pass returns what the first returned. *)
Lemma normalize_idempotent_without_np_nan (v : pyval) :
  has_np_nan v = false ->
  to_json_serializable (to_json_serializable v) = to_json_serializable v.
Proof.
  intros Hn. apply normalize_fixes_json_primitive, normalize_json_primitive, Hn.
Qed.

(** C8.  The normalizer is not idempotent at a NumPy floating NaN such as
    [np.float64('nan')]: the np.floating branch is tried before [pd.isna]
    and returns the Python float NaN, which a second pass turns into None. *)
Theorem normalize_np_nan_not_idempotent :
  to_json_serializable (NpFloat S754_nan) = PFloat S754_nan /\
  to_json_serializable (to_json_serializable (NpFloat S754_nan)) = PNone /\
  to_json_serializable (to_json_serializable (NpFloat S754_nan))
    <> to_json_serializable (NpFloat S754_nan).
Proof.
  repeat split; simpl; discriminate.
Qed.

(** ** Fatal preconditions *)

Section ShortCircuits.

Variable validate : pyval -> pydict -> validation_outcome.
Variable set_iter : pyset -> list pyval.
Variable py_str : pyval -> string.
Variable format_2f : pyval -> string.

Local Abbreviation run :=
  (validate_data_against_schema validate set_iter py_str format_2f).

Lemma run_without_data (df : DataFrame) (schema : option pydict) :
  df_empty df = true -> run df schema = Ok no_data_report.
Proof.
  intros He. unfold validate_data_against_schema. rewrite He. reflexivity.
Qed.

Lemma run_without_schema (df : DataFrame) (schema : option pydict) :
  df_empty df = false -> schema = None \/ schema = Some [] ->
  run df schema = Ok no_schema_report.
Proof.
  intros He Hs. unfold validate_data_against_schema. rewrite He.
  destruct Hs as [-> | ->]; reflexivity.
Qed.

(** C6.  An empty dataset returns at once the report with status
    WARNINGS, the single warning that no data was provided and zeroed
    coverage; a non-empty dataset with a missing or empty schema returns
    at once the report with status FAIL, the single error that no schema
    was provided and zeroed coverage.  Neither report depends on the
    validator, so no pass has run. *)
Theorem fatal_preconditions_short_circuit :
  forall (df : DataFrame) (schema : option pydict),
    (df_empty df = true -> run df schema = Ok no_data_report) /\
    (df_empty df = false -> schema = None \/ schema = Some [] ->
     run df schema = Ok no_schema_report).
Proof.
  intros df schema. split.
  - apply run_without_data.
  - apply run_without_schema.
Qed.

(** C10.  With an empty dataset and a missing or empty schema at once,
    the call returns the no-data report (WARNINGS), not the no-schema
    report (FAIL): the dataset is looked at first. *)
Theorem empty_data_precedes_missing_schema :
  forall (df : DataFrame) (schema : option pydict),
    df_empty df = true ->
    schema = None \/ schema = Some [] ->
    run df schema = Ok no_data_report /\
    report_path ["overall_status"] (run df schema) = Some (PStr "WARNINGS") /\
    run df schema <> Ok no_schema_report.
Proof.
  intros df schema He _. rewrite (run_without_data df schema He).
  repeat split. discriminate.
Qed.

End ShortCircuits.

Lemma fatal_preconditions_short_circuit_witness :
  validate_data_against_schema Samples.accept_all Samples.insertion_order
    Samples.str Samples.two_decimals [] (Some Samples.schema_age)
  = Ok no_data_report /\
  validate_data_against_schema Samples.accept_all Samples.insertion_order
    Samples.str Samples.two_decimals Samples.df_a None
  = Ok no_schema_report.
Proof.
  split.
  - apply (proj1 (fatal_preconditions_short_circuit Samples.accept_all
                    Samples.insertion_order Samples.str Samples.two_decimals
                    [] (Some Samples.schema_age))).
    reflexivity.
  - apply (proj2 (fatal_preconditions_short_circuit Samples.accept_all
                    Samples.insertion_order Samples.str Samples.two_decimals
                    Samples.df_a None)).
    + reflexivity.
    + left. reflexivity.
Defined.

Lemma empty_data_precedes_missing_schema_witness :
  report_path ["overall_status"]
    (validate_data_against_schema Samples.accept_all Samples.insertion_order
       Samples.str Samples.two_decimals [("a", IntCol [])] (Some []))
  = Some (PStr "WARNINGS").
Proof.
  apply (empty_data_precedes_missing_schema Samples.accept_all
           Samples.insertion_order Samples.str Samples.two_decimals
           [("a", IntCol [])] (Some [])).
  - reflexivity.
  - right. reflexivity.
Defined.

(** ** Dict lookups *)

Lemma dict_get_map_values {A B : Type} (g : A -> B) (k : string) (d : list (string * A)) :
  dict_get k (map (fun kv => (fst kv, g (snd kv))) d) = option_map g (dict_get k d).
Proof.
  induction d as [|[k' v] d IH]; simpl; [reflexivity|].
  destruct (String.eqb k k'); [reflexivity | exact IH].
Qed.

Lemma dict_get_after_set {A : Type} (k : string) (v : A) (d : list (string * A)) :
  dict_get k (dict_set k v d) = Some v.
Proof.
  induction d as [|[k' v'] d IH]; simpl.
  - now rewrite String.eqb_refl.
  - destruct (String.eqb k k') eqn:E; simpl.
    + now rewrite String.eqb_refl.
    + now rewrite E.
Qed.

Lemma dict_get_after_set_other {A : Type} (k k0 : string) (v : A) (d : list (string * A)) :
  k0 <> k -> dict_get k0 (dict_set k v d) = dict_get k0 d.
Proof.
  intros Hne. induction d as [|[k' v'] d IH]; simpl.
  - destruct (String.eqb k0 k) eqn:E; [|reflexivity].
    apply String.eqb_eq in E. contradiction.
  - destruct (String.eqb k k') eqn:E; simpl.
    + apply String.eqb_eq in E. subst k'.
      destruct (String.eqb k0 k) eqn:E'; [|reflexivity].
      apply String.eqb_eq in E'. contradiction.
    + destruct (String.eqb k0 k'); [reflexivity | exact IH].
Qed.

(** ** The validation loop *)

Ltac bind_ok H :=
  match type of H with
  | bind ?r _ = Ok _ =>
      let E := fresh "E" in
      destruct r eqn:E; simpl in H; [|discriminate H]
  end.

Section Errors.

Variable validate : pyval -> pydict -> validation_outcome.
Variable set_iter : pyset -> list pyval.
Variable py_str : pyval -> string.
Variable format_2f : pyval -> string.

Local Abbreviation run :=
  (validate_data_against_schema validate set_iter py_str format_2f).

Lemma check_record_fields (schema : pydict) (i : nat) (record : pyval) (r : report) :
  let r' := check_record validate schema i record r in
  errors r' = errors r ++ record_errors validate schema i record /\
  warnings r' = warnings r /\
  required_fields_coverage r' = required_fields_coverage r /\
  enum_coverage r' = enum_coverage r /\
  min_max_coverage r' = min_max_coverage r.
Proof.
  unfold record_errors, check_record.
  destruct (validate record schema); simpl; repeat split.
  now rewrite app_nil_r.
Qed.


Lemma check_records_fields (schema : pydict) (records : list pyval) :
  forall (i : nat) (r : report),
    let r' := check_records validate schema i records r in
    errors r' = errors r ++
      flat_map (fun ir => record_errors validate schema (fst ir) (snd ir))
        (combine (seq i (List.length records)) records) /\
    warnings r' = warnings r /\
    required_fields_coverage r' = required_fields_coverage r /\
    enum_coverage r' = enum_coverage r /\
    min_max_coverage r' = min_max_coverage r.
Proof.
  induction records as [|record rest IH]; intros i r; simpl.
  - now rewrite app_nil_r.
  - destruct (IH (S i) (check_record validate schema i record r))
      as (He & Hw & Hq & Hn & Hm).
    destruct (check_record_fields schema i record r) as (He' & Hw' & Hq' & Hn' & Hm').
    rewrite He, Hw, Hq, Hn, Hm, He', Hw', Hq', Hn', Hm'.
    rewrite <- app_assoc. repeat split.
Qed.

Lemma consolidate_required_frame (required present : pyset) (r r' : report) :
  consolidate_required set_iter required present r = Ok r' ->
  errors r' = errors r /\
  enum_coverage r' = enum_coverage r /\
  min_max_coverage r' = min_max_coverage r.
Proof.
  unfold consolidate_required. intros H.
  destruct (nonempty _).
  - bind_ok H. injection H as <-. repeat split.
  - injection H as <-. repeat split.
Qed.

Lemma consolidate_enum_frame (cv : coverage_vars) (r : report) (item : string * pyset) :
  let r' := consolidate_enum set_iter py_str cv r item in
  errors r' = errors r /\
  required_fields_coverage r' = required_fields_coverage r /\
  min_max_coverage r' = min_max_coverage r.
Proof.
  unfold consolidate_enum. destruct item as [field schema_enums].
  destruct (nonempty _); repeat split.
Qed.

Lemma consolidate_enums_frame (cv : coverage_vars) (items : list (string * pyset)) :
  forall r : report,
    let r' := fold_left (consolidate_enum set_iter py_str cv) items r in
    errors r' = errors r /\
    required_fields_coverage r' = required_fields_coverage r /\
    min_max_coverage r' = min_max_coverage r.
Proof.
  induction items as [|item rest IH]; intros r; simpl; [repeat split|].
  destruct (IH (consolidate_enum set_iter py_str cv r item)) as (He & Hq & Hm).
  destruct (consolidate_enum_frame cv r item) as (He' & Hq' & Hm').
  rewrite He, Hq, Hm, He', Hq', Hm'. repeat split.
Qed.

Ltac split_ifs H :=
  repeat match type of H with
         | context [if ?c then _ else _] => destruct c eqn:?
         | bind ?x _ = Ok _ => bind_ok H
         end.

Lemma consolidate_min_max_frame (cv : coverage_vars) (r r' : report)
    (item : string * (pyval * pyval)) :
  consolidate_min_max py_str format_2f cv r item = Ok r' ->
  errors r' = errors r /\
  required_fields_coverage r' = required_fields_coverage r /\
  enum_coverage r' = enum_coverage r.
Proof.
  unfold consolidate_min_max. destruct item as [field [mn mx]].
  destruct (dict_get field (min_max_data_values cv)) as [[dmin dmax]|]; intros H.
  - destruct (py_ne dmin (PFloat float_inf) && py_ne dmax (PFloat float_neg_inf)).
    + do 3 bind_ok H. injection H as <-.
      destruct (negb (is_None mn) && negb a0), (negb (is_None mx) && negb a1);
        repeat split.
    + destruct (_ && _); injection H as <-; repeat split.
  - destruct (_ || _); [discriminate|]. injection H as <-. repeat split.
Qed.

Lemma consolidate_min_max_all_frame (cv : coverage_vars)
    (items : list (string * (pyval * pyval))) :
  forall r r' : report,
    consolidate_min_max_all py_str format_2f cv r items = Ok r' ->
    errors r' = errors r /\
    required_fields_coverage r' = required_fields_coverage r /\
    enum_coverage r' = enum_coverage r.
Proof.
  induction items as [|item rest IH]; intros r r' H; simpl in H.
  - injection H as <-. repeat split.
  - bind_ok H. destruct (IH _ _ H) as (He & Hq & Hn).
    destruct (consolidate_min_max_frame _ _ _ _ E) as (He' & Hq' & Hn').
    rewrite He, Hq, Hn, He', Hq', Hn'. repeat split.
Qed.


Lemma run_inversion (df : DataFrame) (schema : pydict) (rep : pyval) :
  df_empty df = false -> schema <> [] -> run df (Some schema) = Ok rep ->
  exists required cv present cv' r1 r3,
    py_set (schema_required schema) = Ok required /\
    schema_constraints schema = Ok cv /\
    scan_columns required ([], cv) df = Ok (present, cv') /\
    consolidate_required set_iter required present
      (check_records validate schema 0
         (convert_dataframe_to_json_serializable df) initial_report) = Ok r1 /\
    consolidate_min_max_all py_str format_2f cv'
      (fold_left (consolidate_enum set_iter py_str cv') (enum_values_in_schema cv') r1)
      (min_max_constraints cv') = Ok r3 /\
    rep = to_json_serializable (report_dict r3).
Proof.
  intros He Hs H. unfold validate_data_against_schema in H. rewrite He in H.
  destruct schema as [|p schema]; [contradiction|].
  bind_ok H. injection H as <-.
  unfold coverage_pass in E.
  bind_ok E. rename a0 into required.
  bind_ok E. rename a0 into cv.
  bind_ok E. destruct a0 as [present cv'].
  bind_ok E. rename a0 into r1.
  exists required, cv, present, cv', r1, a. repeat split; assumption.
Qed.

(** The errors of a report that was returned: the entries of the records,
    in row order, normalized once more. *)
Lemma run_errors (df : DataFrame) (schema : pydict) (rep : pyval) :
  df_empty df = false -> schema <> [] -> run df (Some schema) = Ok rep ->
  let records := convert_dataframe_to_json_serializable df in
  py_field "errors" rep
  = Some (PList (map to_json_serializable
                   (flat_map (fun ir => record_errors validate schema (fst ir) (snd ir))
                      (combine (seq 0 (List.length records)) records)))).
Proof.
  intros He Hs H records.
  destruct (run_inversion df schema rep He Hs H)
    as (required & cv & present & cv' & r1 & r3 & _ & _ & _ & H1 & H3 & ->).
  apply consolidate_min_max_all_frame in H3 as (E3 & _).
  destruct (consolidate_enums_frame cv' (enum_values_in_schema cv') r1) as (E2 & _).
  apply consolidate_required_frame in H1 as (E1 & _).
  destruct (check_records_fields schema records 0 initial_report) as (E0 & _).
  simpl. rewrite E3, E2, E1. fold records. rewrite E0. reflexivity.
Qed.

Lemma at_row_iff (k i : nat) (d : pydict) :
  dict_get "row_index" d = Some (PInt (Z.of_nat i)) ->
  at_row k (PDict d) = Nat.eqb i k.
Proof.
  intros H. unfold at_row. simpl. rewrite H.
  destruct (Nat.eqb_spec i k) as [->|Hne].
  - apply Z.eqb_refl.
  - apply Z.eqb_neq. intros Hz. apply Nat2Z.inj in Hz. contradiction.
Qed.

(** A record leaves at most one entry, and the entry carries its index. *)
Lemma record_errors_at_row (schema : pydict) (i k : nat) (record : pyval) :
  filter (at_row k) (map to_json_serializable (record_errors validate schema i record))
  = if Nat.eqb i k
    then map to_json_serializable (record_errors validate schema i record)
    else [].
Proof.
  unfold record_errors, check_record.
  destruct (validate record schema) as [|e|message]; cbn -[at_row Nat.eqb].
  - now destruct (Nat.eqb i k).
  - rewrite (at_row_iff k i) by reflexivity. now destruct (Nat.eqb i k).
  - rewrite (at_row_iff k i) by reflexivity. now destruct (Nat.eqb i k).
Qed.

Lemma record_errors_length (schema : pydict) (i : nat) (record : pyval) :
  (List.length (record_errors validate schema i record) <= 1)%nat.
Proof.
  unfold record_errors, check_record.
  destruct (validate record schema); simpl; lia.
Qed.

Lemma errors_at_row (schema : pydict) (records : list pyval) :
  forall (i0 k : nat),
    filter (at_row k)
      (map to_json_serializable
         (flat_map (fun ir => record_errors validate schema (fst ir) (snd ir))
            (combine (seq i0 (List.length records)) records)))
    = if Nat.ltb k i0 then []
      else match nth_error records (k - i0) with
           | Some record =>
               map to_json_serializable (record_errors validate schema k record)
           | None => []
           end.
Proof.
  induction records as [|record rest IH]; intros i0 k; simpl.
  - destruct (Nat.ltb k i0); [reflexivity|]. now destruct (k - i0)%nat.
  - rewrite map_app, filter_app, record_errors_at_row, IH.
    destruct (Nat.eqb_spec i0 k) as [->|Hne].
    + rewrite Nat.ltb_irrefl, Nat.sub_diag. simpl.
      replace (Nat.ltb k (S k)) with true by (symmetry; apply Nat.ltb_lt; lia).
      apply app_nil_r.
    + simpl. destruct (Nat.ltb_spec k i0) as [Hlt|Hge].
      * replace (Nat.ltb k (S i0)) with true by (symmetry; apply Nat.ltb_lt; lia).
        reflexivity.
      * replace (Nat.ltb k (S i0)) with false by (symmetry; apply Nat.ltb_ge; lia).
        replace (k - i0)%nat with (S (k - S i0)) by lia. reflexivity.
Qed.

(** The entries of a returned report about row [i] are those of record
    [i], and of no other record. *)
Lemma run_errors_at_row (df : DataFrame) (schema : pydict) (rep : pyval) :
  df_empty df = false -> schema <> [] -> run df (Some schema) = Ok rep ->
  exists errs,
    py_field "errors" rep = Some (PList errs) /\
    forall i : nat,
      filter (at_row i) errs
      = match nth_error (convert_dataframe_to_json_serializable df) i with
        | Some record =>
            map to_json_serializable (record_errors validate schema i record)
        | None => []
        end.
Proof.
  intros He Hs H. eexists. split.
  - exact (run_errors df schema rep He Hs H).
  - intros i. rewrite errors_at_row. simpl. now rewrite Nat.sub_0_r.
Qed.


(** C5, amended.  In a returned report every record has at most one error
    entry; a record that validates has none; a record for which
    [jsonschema.validate] raises a ValidationError has exactly the entry
    with its row index and the path, message, validator and validator
    value of that violation and the offending instance, the last two
    normalized; this holds for each record whatever happened to the
    records before it.  Which of a record's violations is raised is the
    library's choice. *)
Theorem one_error_per_failing_record :
  forall (df : DataFrame) (schema : pydict) (rep : pyval),
    df_empty df = false -> schema <> [] -> run df (Some schema) = Ok rep ->
    exists errs,
      py_field "errors" rep = Some (PList errs) /\
      (forall i : nat, (List.length (filter (at_row i) errs) <= 1)%nat) /\
      (forall (i : nat) (record : pyval),
          nth_error (convert_dataframe_to_json_serializable df) i = Some record ->
          validate record schema = Valid ->
          filter (at_row i) errs = []) /\
      (forall (i : nat) (record : pyval) (e : ValidationError),
          nth_error (convert_dataframe_to_json_serializable df) i = Some record ->
          validate record schema = RaisesValidationError e ->
          filter (at_row i) errs
          = [PDict [("row_index", PInt (Z.of_nat i));
                    ("path", PStr (ve_path e));
                    ("message", PStr (ve_message e));
                    ("validator", PStr (ve_validator e));
                    ("validator_value",
                     to_json_serializable (to_json_serializable (ve_validator_value e)));
                    ("instance",
                     to_json_serializable (to_json_serializable (ve_instance e)))]]).
Proof.
  intros df schema rep He Hs H.
  destruct (run_errors_at_row df schema rep He Hs H) as (errs & Herrs & Hrow).
  exists errs. split; [exact Herrs|]. split; [|split].
  - intros i. rewrite Hrow.
    destruct (nth_error _ i) as [record|]; simpl; [|lia].
    rewrite length_map. apply record_errors_length.
  - intros i record Hi Hv. rewrite Hrow, Hi.
    unfold record_errors, check_record. now rewrite Hv.
  - intros i record e Hi Hv. rewrite Hrow, Hi.
    unfold record_errors, check_record. now rewrite Hv.
Qed.

(** C4, amended.  In a returned report a record whose validation raised
    an unexpected exception has exactly one entry: its row index, the path
    "N/A", the message "Unexpected error during validation: " followed by
    the text of the exception, and that text again as detail; and every
    record that did not validate, before or after it, has its entry. *)
Theorem unexpected_exception_is_recorded :
  forall (df : DataFrame) (schema : pydict) (rep : pyval),
    df_empty df = false -> schema <> [] -> run df (Some schema) = Ok rep ->
    exists errs,
      py_field "errors" rep = Some (PList errs) /\
      (forall (i : nat) (record : pyval) (message : string),
          nth_error (convert_dataframe_to_json_serializable df) i = Some record ->
          validate record schema = RaisesException message ->
          filter (at_row i) errs
          = [PDict [("row_index", PInt (Z.of_nat i));
                    ("path", PStr "N/A");
                    ("message",
                     PStr ("Unexpected error during validation: " ++ message)%string);
                    ("detail", PStr message)]]) /\
      (forall (j : nat) (record : pyval),
          nth_error (convert_dataframe_to_json_serializable df) j = Some record ->
          validate record schema <> Valid ->
          exists e, In e errs /\ at_row j e = true).
Proof.
  intros df schema rep He Hs H.
  destruct (run_errors_at_row df schema rep He Hs H) as (errs & Herrs & Hrow).
  exists errs. split; [exact Herrs|]. split.
  - intros i record message Hi Hv. rewrite Hrow, Hi.
    unfold record_errors, check_record. now rewrite Hv.
  - intros j record Hj Hv.
    assert (Hne : filter (at_row j) errs <> []).
    { rewrite Hrow, Hj. unfold record_errors, check_record.
      destruct (validate record schema); [contradiction | discriminate | discriminate]. }
    destruct (filter (at_row j) errs) as [|e rest] eqn:Ef; [contradiction|].
    exists e. apply filter_In. rewrite Ef. now left.
Qed.

End Errors.

Lemma one_error_per_failing_record_witness :
  exists rep,
    validate_data_against_schema Samples.age_is_integer Samples.insertion_order
      Samples.str Samples.two_decimals Samples.df_age (Some Samples.schema_age)
    = Ok rep /\
    exists errs,
      py_field "errors" rep = Some (PList errs) /\
      filter (at_row 0) errs = [] /\
      filter (at_row 1) errs
      = [PDict [("row_index", PInt 1);
                ("path", PStr "deque(['age'])");
                ("message", PStr "'old' is not of type 'integer'");
                ("validator", PStr "type");
                ("validator_value", PStr "integer");
                ("instance", PStr "old")]].
Proof.
  eexists. split; [vm_compute; reflexivity|].
  destruct (one_error_per_failing_record Samples.age_is_integer
              Samples.insertion_order Samples.str Samples.two_decimals
              Samples.df_age Samples.schema_age _
              eq_refl ltac:(discriminate) eq_refl)
    as (errs & Herrs & _ & Hvalid & Hviolation).
  exists errs. split; [exact Herrs|]. split.
  - apply (Hvalid 0%nat (PDict [("age", PInt 30)])); reflexivity.
  - apply (Hviolation 1%nat (PDict [("age", PStr "old")])
             {| ve_path := "deque(['age'])";
                ve_message := "'old' is not of type 'integer'";
                ve_validator := "type";
                ve_validator_value := PStr "integer";
                ve_instance := PStr "old" |});
      reflexivity.
Defined.

Lemma unexpected_exception_is_recorded_witness :
  exists rep,
    validate_data_against_schema
      (Samples.schema_error "12 is not valid under any of the given schemas")
      Samples.insertion_order
      Samples.str Samples.two_decimals Samples.df_a (Some Samples.schema_malformed)
    = Ok rep /\
    exists errs,
      py_field "errors" rep = Some (PList errs) /\
      filter (at_row 1) errs
      = [PDict [("row_index", PInt 1);
                ("path", PStr "N/A");
                ("message",
                 PStr "Unexpected error during validation: 12 is not valid under any of the given schemas");
                ("detail", PStr "12 is not valid under any of the given schemas")]].
Proof.
  eexists. split; [vm_compute; reflexivity|].
  destruct (unexpected_exception_is_recorded
              (Samples.schema_error "12 is not valid under any of the given schemas")
              Samples.insertion_order Samples.str Samples.two_decimals
              Samples.df_a Samples.schema_malformed _
              eq_refl ltac:(discriminate) eq_refl)
    as (errs & Herrs & Hexn & _).
  exists errs. split; [exact Herrs|].
  apply (Hexn 1%nat (PDict [("a", PInt 2)])); reflexivity.
Defined.

(** ** Sets of strings *)

Lemma has_name_In (x : string) (u : list string) :
  has_name x u = true <-> In x u.
Proof.
  unfold has_name. rewrite existsb_exists. split.
  - intros (y & Hy & E). apply String.eqb_eq in E. now subst.
  - intros H. exists x. split; [exact H | apply String.eqb_refl].
Qed.

Lemma set_mem_names (x : string) (u : list string) :
  set_mem (PStr x) (map PStr u) = has_name x u.
Proof.
  unfold set_mem, has_name. induction u as [|y u IH]; simpl; [reflexivity|].
  now rewrite IH.
Qed.

Lemma set_add_names (x : string) (u : list string) :
  set_add (PStr x) (map PStr u) = map PStr (add_name u x).
Proof.
  unfold set_add, add_name. rewrite set_mem_names.
  destruct (has_name x u); [reflexivity|].
  now rewrite map_app.
Qed.

Lemma set_update_names (names : list string) :
  forall u : list string,
    set_update (map PStr u) (map PStr names)
    = Ok (map PStr (fold_left add_name names u)).
Proof.
  induction names as [|x names IH]; intros u; simpl; [reflexivity|].
  rewrite set_add_names. apply IH.
Qed.

Lemma add_name_In (u : list string) (x y : string) :
  In y (add_name u x) <-> In y u \/ y = x.
Proof.
  unfold add_name. destruct (has_name x u) eqn:E.
  - apply has_name_In in E. split; [tauto|]. intros [H | ->]; assumption.
  - rewrite in_app_iff. simpl. split; [intros [H | [H | []]] | intros [H | H]]; auto.
Qed.

Lemma add_name_NoDup (u : list string) (x : string) :
  NoDup u -> NoDup (add_name u x).
Proof.
  intros Hu. unfold add_name. destruct (has_name x u) eqn:E; [exact Hu|].
  apply NoDup_app; [exact Hu | repeat constructor; intros [] |].
  intros y Hy [<- | []].
  apply has_name_In in Hy. congruence.
Qed.

Lemma add_names_In (names : list string) :
  forall (u : list string) (y : string),
    In y (fold_left add_name names u) <-> In y u \/ In y names.
Proof.
  induction names as [|x names IH]; intros u y; simpl; [tauto|].
  rewrite IH, add_name_In. split; [intros [[H | H] | H] | intros [H | [H | H]]]; auto.
Qed.

Lemma add_names_NoDup (names : list string) :
  forall u : list string, NoDup u -> NoDup (fold_left add_name names u).
Proof.
  induction names as [|x names IH]; intros u Hu; simpl; [exact Hu|].
  apply IH, add_name_NoDup, Hu.
Qed.

(** [set(...)] of a list of names: the distinct names. *)
Lemma py_set_names (names : list string) :
  exists u,
    py_set (PList (map PStr names)) = Ok (map PStr u) /\
    Permutation u (nodup string_dec names).
Proof.
  exists (fold_left add_name names []). split.
  - unfold py_set. simpl. exact (set_update_names names []).
  - apply NoDup_Permutation.
    + apply add_names_NoDup. constructor.
    + apply NoDup_nodup.
    + intros y. rewrite add_names_In, nodup_In. simpl. tauto.
Qed.

(** ** The loop over the columns *)

Lemma scan_column_keeps_schema_side (required : pyset) (present present' : pyset)
    (cv cv' : coverage_vars) (col : string * column) :
  scan_column required (present, cv) col = Ok (present', cv') ->
  enum_values_in_schema cv' = enum_values_in_schema cv /\
  min_max_constraints cv' = min_max_constraints cv.
Proof.
  unfold scan_column. destruct col as [name series]. intros H.
  bind_ok H. bind_ok H. injection H as _ <-.
  assert (Ha : enum_values_in_schema a = enum_values_in_schema cv /\
               min_max_constraints a = min_max_constraints cv).
  { destruct (dict_mem name (enum_values_in_schema cv)).
    - destruct (dict_get name (enum_values_in_data cv)); [|discriminate].
      do 2 bind_ok E. injection E as <-. split; reflexivity.
    - injection E as <-. split; reflexivity. }
  destruct Ha as [Ha1 Ha2]. rewrite <- Ha1, <- Ha2.
  destruct (dict_mem name (min_max_constraints a) && is_numeric_dtype series).
  - destruct (negb (series_empty series)).
    + destruct (dict_get name (min_max_data_values a)) as [[mn mx]|]; [|discriminate].
      do 2 bind_ok E0. injection E0 as <-. split; reflexivity.
    + injection E0 as <-. split; reflexivity.
  - injection E0 as <-. split; reflexivity.
Qed.


Lemma scan_columns_schema_side (required : pyset) (df : DataFrame) :
  forall (present present' : pyset) (cv cv' : coverage_vars),
    scan_columns required (present, cv) df = Ok (present', cv') ->
    enum_values_in_schema cv' = enum_values_in_schema cv /\
    min_max_constraints cv' = min_max_constraints cv.
Proof.
  induction df as [|col df IH]; intros present present' cv cv' H; simpl in H.
  - injection H as _ <-. split; reflexivity.
  - bind_ok H. destruct a as [present1 cv1].
    apply scan_column_keeps_schema_side in E as [E1 E2].
    apply IH in H as [H1 H2]. rewrite H1, H2. split; assumption.
Qed.









Lemma nonempty_map {A B : Type} (f : A -> B) (l : list A) :
  nonempty (map f l) = nonempty l.
Proof. now destruct l. Qed.

Section Required.

Variable set_iter : pyset -> list pyval.
Hypothesis set_iter_perm : forall s : pyset, Permutation (set_iter s) s.


End Required.

(** ** Warnings of the enum and min/max analyses *)

Lemma field_warning_weaken (P Q : string -> Prop) (ws : list pyval) :
  (forall f, P f -> Q f) ->
  Forall (field_warning P) ws -> Forall (field_warning Q) ws.
Proof.
  intros HPQ H. eapply Forall_impl; [|exact H].
  intros w (f & m & -> & Hf). exists f, m. auto.
Qed.

Section FieldWarnings.

Variable set_iter : pyset -> list pyval.
Variable py_str : pyval -> string.
Variable format_2f : pyval -> string.

Lemma consolidate_enum_warnings (cv : coverage_vars) (r : report)
    (item : string * pyset) :
  exists ws,
    warnings (consolidate_enum set_iter py_str cv r item) = warnings r ++ ws /\
    Forall (field_warning (eq (fst item))) ws.
Proof.
  unfold consolidate_enum. destruct item as [field schema_enums].
  destruct (nonempty _); simpl.
  - eexists. split; [reflexivity|].
    constructor; [|constructor]. do 2 eexists. split; reflexivity.
  - exists []. split; [now rewrite app_nil_r | constructor].
Qed.

Lemma consolidate_enums_warnings (cv : coverage_vars) (items : list (string * pyset)) :
  forall r : report,
  exists ws,
    warnings (fold_left (consolidate_enum set_iter py_str cv) items r)
    = warnings r ++ ws /\
    Forall (field_warning (fun f => In f (map fst items))) ws.
Proof.
  induction items as [|item rest IH]; intros r; simpl.
  - exists []. split; [now rewrite app_nil_r | constructor].
  - destruct (IH (consolidate_enum set_iter py_str cv r item)) as (ws2 & E2 & F2).
    destruct (consolidate_enum_warnings cv r item) as (ws1 & E1 & F1).
    exists (ws1 ++ ws2). split.
    + now rewrite E2, E1, app_assoc.
    + apply Forall_app. split.
      * eapply field_warning_weaken; [|exact F1]. intros f <-. now left.
      * eapply field_warning_weaken; [|exact F2]. intros f Hf. now right.
Qed.

Lemma consolidate_min_max_warnings (cv : coverage_vars) (r r' : report)
    (item : string * (pyval * pyval)) :
  consolidate_min_max py_str format_2f cv r item = Ok r' ->
  exists ws,
    warnings r' = warnings r ++ ws /\
    Forall (field_warning (eq (fst item))) ws.
Proof.
  assert (Hone : forall f m, Forall (field_warning (eq f)) [warning f m]).
  { intros f m. constructor; [|constructor]. exists f, m. split; reflexivity. }
  unfold consolidate_min_max. destruct item as [field [mn mx]].
  destruct (dict_get field (min_max_data_values cv)) as [[dmin dmax]|]; intros H.
  - destruct (py_ne dmin (PFloat float_inf) && py_ne dmax (PFloat float_neg_inf)).
    + do 3 bind_ok H. injection H as <-.
      destruct (negb (is_None mn) && negb a0), (negb (is_None mx) && negb a1);
        simpl.
      * eexists. split; [rewrite <- app_assoc; reflexivity|].
        apply Forall_app. split; apply Hone.
      * eexists. split; [reflexivity | apply Hone].
      * eexists. split; [reflexivity | apply Hone].
      * exists []. split; [now rewrite app_nil_r | constructor].
    + destruct (_ && _); injection H as <-; simpl.
      * eexists. split; [reflexivity | apply Hone].
      * exists []. split; [now rewrite app_nil_r | constructor].
  - destruct (_ || _); [discriminate|]. injection H as <-.
    exists []. split; [now rewrite app_nil_r | constructor].
Qed.

Lemma consolidate_min_max_all_warnings (cv : coverage_vars)
    (items : list (string * (pyval * pyval))) :
  forall r r' : report,
    consolidate_min_max_all py_str format_2f cv r items = Ok r' ->
    exists ws,
      warnings r' = warnings r ++ ws /\
      Forall (field_warning (fun f => In f (map fst items))) ws.
Proof.
  induction items as [|item rest IH]; intros r r' H; simpl in H.
  - injection H as <-. exists []. split; [now rewrite app_nil_r | constructor].
  - bind_ok H. destruct (IH _ _ H) as (ws2 & E2 & F2).
    destruct (consolidate_min_max_warnings _ _ _ _ E) as (ws1 & E1 & F1).
    exists (ws1 ++ ws2). split.
    + now rewrite E2, E1, app_assoc.
    + apply Forall_app. split.
      * eapply field_warning_weaken; [|exact F1]. intros f <-. now left.
      * eapply field_warning_weaken; [|exact F2]. intros f Hf. now right.
Qed.

End FieldWarnings.

(** ** The constraints come from the schema's properties *)

Lemma dict_set_keys {A : Type} (k k0 : string) (v : A) (d : list (string * A)) :
  In k0 (map fst (dict_set k v d)) -> k0 = k \/ In k0 (map fst d).
Proof.
  induction d as [|[k' v'] d IH]; simpl.
  - intros [<- | []]. now left.
  - destruct (String.eqb_spec k k') as [->|Hne]; simpl.
    + intros [<- | H]; auto.
    + intros [<- | H]; [auto|]. destruct (IH H); auto.
Qed.




(** ** Required-field coverage *)



Lemma bool_eq_iff (a b : bool) : (a = true <-> b = true) -> a = b.
Proof. destruct a, b; intuition congruence. Qed.

Section RequiredCoverage.

Variable validate : pyval -> pydict -> validation_outcome.
Variable set_iter : pyset -> list pyval.
Variable py_str : pyval -> string.
Variable format_2f : pyval -> string.
Hypothesis set_iter_perm : forall s : pyset, Permutation (set_iter s) s.

Local Abbreviation run :=
  (validate_data_against_schema validate set_iter py_str format_2f).


End RequiredCoverage.


(** ** Extremes of a numeric column *)










(** ** Bounds collected from the schema *)

Lemma scan_property_enum_step (cv cv1 : coverage_vars) (name : string)
    (details : pyval) (has_enum : bool) :
  (if has_enum then
     declared_values <- py_getitem details "enum" ;;
     values <- py_set (to_json_serializable declared_values) ;;
     Ok {| enum_values_in_schema :=
             dict_set name values (enum_values_in_schema cv);
           enum_values_in_data := dict_set name [] (enum_values_in_data cv);
           min_max_constraints := min_max_constraints cv;
           min_max_data_values := min_max_data_values cv |}
   else Ok cv) = Ok cv1 ->
  min_max_constraints cv1 = min_max_constraints cv /\
  min_max_data_values cv1 = min_max_data_values cv.
Proof.
  destruct has_enum; intros H.
  - do 2 bind_ok H. injection H as <-. split; reflexivity.
  - injection H as <-. split; reflexivity.
Qed.

Lemma scan_property_bounds_other (cv cv' : coverage_vars) (prop : string * pyval)
    (f : string) :
  scan_property cv prop = Ok cv' -> f <> fst prop ->
  dict_get f (min_max_constraints cv') = dict_get f (min_max_constraints cv) /\
  dict_get f (min_max_data_values cv') = dict_get f (min_max_data_values cv).
Proof.
  unfold scan_property. destruct prop as [name details]. simpl. intros H Hne.
  bind_ok H. bind_ok H.
  apply scan_property_enum_step in E0 as [E1 E2]. rewrite <- E1, <- E2.
  do 2 bind_ok H. destruct a2.
  - do 2 bind_ok H. injection H as <-. simpl.
    rewrite !dict_get_after_set_other by exact Hne. split; reflexivity.
  - injection H as <-. split; reflexivity.
Qed.

Lemma scan_property_bounds_self (cv cv' : coverage_vars) (f : string)
    (details : pydict) :
  scan_property cv (f, PDict details) = Ok cv' ->
  dict_mem "minimum" details || dict_mem "maximum" details = true ->
  dict_get f (min_max_constraints cv')
  = Some (to_json_serializable (declared "minimum" details),
          to_json_serializable (declared "maximum" details)) /\
  dict_get f (min_max_data_values cv')
  = Some (PFloat float_inf, PFloat float_neg_inf).
Proof.
  unfold scan_property. intros H Hb.
  bind_ok H. bind_ok H. clear E0.
  simpl in H. destruct (dict_mem "minimum" details); simpl in H, Hb.
  - injection H as <-. simpl. rewrite !dict_get_after_set. split; reflexivity.
  - rewrite Hb in H. injection H as <-. simpl.
    rewrite !dict_get_after_set. split; reflexivity.
Qed.

Lemma dict_set_NoDup {A : Type} (k : string) (v : A) (d : list (string * A)) :
  NoDup (map fst d) -> NoDup (map fst (dict_set k v d)).
Proof.
  induction d as [|[k' v'] d IH]; simpl; intros Hd.
  - repeat constructor. intros [].
  - inversion Hd as [|? ? Hnotin Hd']; subst.
    destruct (String.eqb_spec k k') as [->|Hne]; simpl.
    + constructor; assumption.
    + constructor; [|apply IH, Hd'].
      intros Hin. apply dict_set_keys in Hin as [-> | Hin]; [now apply Hne|].
      contradiction.
Qed.

Lemma scan_property_NoDup (cv cv' : coverage_vars) (prop : string * pyval) :
  scan_property cv prop = Ok cv' ->
  NoDup (map fst (min_max_constraints cv)) ->
  NoDup (map fst (min_max_constraints cv')).
Proof.
  unfold scan_property. destruct prop as [name details]. intros H Hd.
  bind_ok H. bind_ok H.
  apply scan_property_enum_step in E0 as [E1 _]. rewrite <- E1 in Hd.
  do 2 bind_ok H. destruct a2.
  - do 2 bind_ok H. injection H as <-. simpl. apply dict_set_NoDup, Hd.
  - injection H as <-. exact Hd.
Qed.

Lemma scan_properties_NoDup (props : pydict) :
  forall cv cv' : coverage_vars,
    scan_properties cv props = Ok cv' ->
    NoDup (map fst (min_max_constraints cv)) ->
    NoDup (map fst (min_max_constraints cv')).
Proof.
  induction props as [|prop props IH]; intros cv cv' H Hd; simpl in H.
  - now injection H as <-.
  - bind_ok H. eapply IH; [exact H|]. eapply scan_property_NoDup; eassumption.
Qed.

Lemma scan_properties_bounds_absent (props : pydict) (f : string) :
  forall cv cv' : coverage_vars,
    scan_properties cv props = Ok cv' -> ~ In f (map fst props) ->
    dict_get f (min_max_constraints cv') = dict_get f (min_max_constraints cv) /\
    dict_get f (min_max_data_values cv') = dict_get f (min_max_data_values cv).
Proof.
  induction props as [|prop props IH]; intros cv cv' H Hf; simpl in H.
  - injection H as <-. split; reflexivity.
  - bind_ok H. simpl in Hf.
    destruct (IH _ _ H) as [I1 I2]; [tauto|].
    destruct (scan_property_bounds_other _ _ _ f E) as [S1 S2];
      [intros ->; tauto|].
    rewrite I1, I2. split; assumption.
Qed.

Lemma scan_properties_bounds (props : pydict) (f : string) (details : pydict) :
  forall cv cv' : coverage_vars,
    NoDup (map fst props) ->
    dict_get f props = Some (PDict details) ->
    dict_mem "minimum" details || dict_mem "maximum" details = true ->
    scan_properties cv props = Ok cv' ->
    dict_get f (min_max_constraints cv')
    = Some (to_json_serializable (declared "minimum" details),
            to_json_serializable (declared "maximum" details)) /\
    dict_get f (min_max_data_values cv')
    = Some (PFloat float_inf, PFloat float_neg_inf).
Proof.
  induction props as [|[name d] props IH]; intros cv cv' Hnd Hget Hb H;
    simpl in Hget, H; [discriminate|].
  inversion Hnd as [|? ? Hnotin Hnd']; subst.
  bind_ok H. destruct (String.eqb_spec f name) as [->|Hne].
  - injection Hget as ->.
    destruct (scan_properties_bounds_absent _ name _ _ H Hnotin) as [A1 A2].
    destruct (scan_property_bounds_self _ _ _ _ E Hb) as [S1 S2].
    rewrite A1, A2. split; assumption.
  - eapply IH; eassumption.
Qed.

(** ** Extremes collected from the columns *)

Lemma scan_column_enum_step (cv cv1 : coverage_vars) (name : string)
    (series : column) :
  (if dict_mem name (enum_values_in_schema cv) then
     match dict_get name (enum_values_in_data cv) with
     | Some seen =>
         values <- dropna_unique series ;;
         seen' <- set_update seen (map to_json_serializable values) ;;
         Ok {| enum_values_in_schema := enum_values_in_schema cv;
               enum_values_in_data := dict_set name seen' (enum_values_in_data cv);
               min_max_constraints := min_max_constraints cv;
               min_max_data_values := min_max_data_values cv |}
     | None => Raise KeyError
     end
   else Ok cv) = Ok cv1 ->
  min_max_constraints cv1 = min_max_constraints cv /\
  min_max_data_values cv1 = min_max_data_values cv.
Proof.
  destruct (dict_mem name (enum_values_in_schema cv)); intros H.
  - destruct (dict_get name (enum_values_in_data cv)); [|discriminate].
    do 2 bind_ok H. injection H as <-. split; reflexivity.
  - injection H as <-. split; reflexivity.
Qed.

Lemma scan_column_data_other (required present present' : pyset)
    (cv cv' : coverage_vars) (col : string * column) (f : string) :
  scan_column required (present, cv) col = Ok (present', cv') ->
  f <> fst col ->
  dict_get f (min_max_data_values cv') = dict_get f (min_max_data_values cv).
Proof.
  unfold scan_column. destruct col as [name series]. simpl. intros H Hne.
  bind_ok H. bind_ok H. injection H as _ <-.
  apply scan_column_enum_step in E as [_ E2]. rewrite <- E2.
  destruct (dict_mem name (min_max_constraints a) && is_numeric_dtype series).
  - destruct (negb (series_empty series)).
    + destruct (dict_get name (min_max_data_values a)) as [[mn mx]|]; [|discriminate].
      do 2 bind_ok E0. injection E0 as <-. simpl.
      now rewrite dict_get_after_set_other.
    + now injection E0 as <-.
  - now injection E0 as <-.
Qed.




(** ** Boundary coverage *)


Section Boundaries.

Variable py_str : pyval -> string.
Variable format_2f : pyval -> string.

Lemma consolidate_min_max_other (cv : coverage_vars) (r r' : report)
    (item : string * (pyval * pyval)) (f : string) :
  consolidate_min_max py_str format_2f cv r item = Ok r' ->
  f <> fst item ->
  dict_get f (min_max_coverage r') = dict_get f (min_max_coverage r).
Proof.
  unfold consolidate_min_max. destruct item as [field [mn mx]]. simpl.
  intros H Hne.
  destruct (dict_get field (min_max_data_values cv)) as [[dmin dmax]|].
  - destruct (py_ne dmin (PFloat float_inf) && py_ne dmax (PFloat float_neg_inf)).
    + do 3 bind_ok H. injection H as <-.
      destruct (negb (is_None mn) && negb a0), (negb (is_None mx) && negb a1);
        simpl; now rewrite dict_get_after_set_other.
    + destruct (_ && _); now injection H as <-.
  - destruct (_ || _); [discriminate|]. now injection H as <-.
Qed.


Lemma consolidate_min_max_all_absent (cv : coverage_vars)
    (items : list (string * (pyval * pyval))) (f : string) :
  forall r r' : report,
    consolidate_min_max_all py_str format_2f cv r items = Ok r' ->
    ~ In f (map fst items) ->
    dict_get f (min_max_coverage r') = dict_get f (min_max_coverage r).
Proof.
  induction items as [|item rest IH]; intros r r' H Hf; simpl in H.
  - now injection H as <-.
  - bind_ok H. simpl in Hf. rewrite (IH _ _ H) by tauto.
    eapply consolidate_min_max_other; [exact E|]. intros ->. tauto.
Qed.


End Boundaries.

Section BoundaryCoverage.

Variable validate : pyval -> pydict -> validation_outcome.
Variable set_iter : pyset -> list pyval.
Variable py_str : pyval -> string.
Variable format_2f : pyval -> string.

Local Abbreviation run :=
  (validate_data_against_schema validate set_iter py_str format_2f).


End BoundaryCoverage.


(** ** The status the code derives *)

Lemma nonempty_app_r {A : Type} (l : list A) (x : A) : nonempty (l ++ [x]) = true.
Proof. now destruct l. Qed.

Section Status.

Variable validate : pyval -> pydict -> validation_outcome.
Variable set_iter : pyset -> list pyval.
Variable py_str : pyval -> string.
Variable format_2f : pyval -> string.

Local Abbreviation run :=
  (validate_data_against_schema validate set_iter py_str format_2f).

Lemma check_records_status (schema : pydict) (records : list pyval) :
  forall (i : nat) (r : report),
    overall_status r = (if nonempty (errors r) then "FAIL" else "PASS") ->
    let r' := check_records validate schema i records r in
    overall_status r' = (if nonempty (errors r') then "FAIL" else "PASS").
Proof.
  induction records as [|record rest IH]; intros i r Hr; simpl; [exact Hr|].
  apply IH. unfold check_record.
  destruct (validate record schema); simpl;
    [exact Hr | now rewrite nonempty_app_r | now rewrite nonempty_app_r].
Qed.

Lemma append_warning_tracks (s0 : string) (w : pyval) (r : report) :
  status_tracks_warnings s0 (append_warning w (set_status "WARNINGS" r)).
Proof. unfold status_tracks_warnings. simpl. now rewrite nonempty_app_r. Qed.

Lemma consolidate_required_status (s0 : string) (required present : pyset)
    (r r' : report) :
  consolidate_required set_iter required present r = Ok r' ->
  status_tracks_warnings s0 r -> status_tracks_warnings s0 r'.
Proof.
  unfold consolidate_required. intros H Hr. destruct (nonempty _).
  - bind_ok H. injection H as <-. apply append_warning_tracks.
  - injection H as <-. exact Hr.
Qed.

Lemma consolidate_enums_status (s0 : string) (cv : coverage_vars)
    (items : list (string * pyset)) :
  forall r : report,
    status_tracks_warnings s0 r ->
    status_tracks_warnings s0 (fold_left (consolidate_enum set_iter py_str cv) items r).
Proof.
  induction items as [|[field schema_enums] rest IH]; intros r Hr; simpl;
    [exact Hr|].
  apply IH. destruct (nonempty _); [apply append_warning_tracks | exact Hr].
Qed.

Lemma consolidate_min_max_status (s0 : string) (cv : coverage_vars)
    (r r' : report) (item : string * (pyval * pyval)) :
  consolidate_min_max py_str format_2f cv r item = Ok r' ->
  status_tracks_warnings s0 r -> status_tracks_warnings s0 r'.
Proof.
  unfold consolidate_min_max. destruct item as [field [mn mx]].
  destruct (dict_get field (min_max_data_values cv)) as [[dmin dmax]|];
    intros H Hr.
  - destruct (py_ne dmin (PFloat float_inf) && py_ne dmax (PFloat float_neg_inf)).
    + do 3 bind_ok H. injection H as <-.
      destruct (negb (is_None mn) && negb a0), (negb (is_None mx) && negb a1);
        try apply append_warning_tracks.
      exact Hr.
    + destruct (_ && _); injection H as <-;
        [apply append_warning_tracks | exact Hr].
  - destruct (_ || _); [discriminate|]. now injection H as <-.
Qed.

Lemma consolidate_min_max_all_status (s0 : string) (cv : coverage_vars)
    (items : list (string * (pyval * pyval))) :
  forall r r' : report,
    consolidate_min_max_all py_str format_2f cv r items = Ok r' ->
    status_tracks_warnings s0 r -> status_tracks_warnings s0 r'.
Proof.
  induction items as [|item rest IH]; intros r r' H Hr; simpl in H.
  - now injection H as <-.
  - bind_ok H. eapply IH; [exact H|].
    eapply consolidate_min_max_status; eassumption.
Qed.

(** X9.  What the code returns as status, on every report it returns: WARNINGS
    when there is a warning, else FAIL when there is an error, else PASS.
    It agrees with the precedence FAIL over WARNINGS over PASS unless the
    report holds both errors and warnings. *)
Lemma status_follows_warnings_first :
  forall (df : DataFrame) (schema : option pydict) (rep : pyval),
    run df schema = Ok rep ->
    exists errs warns,
      py_field "errors" rep = Some (PList errs) /\
      py_field "warnings" rep = Some (PList warns) /\
      py_field "overall_status" rep = Some (PStr (status_of_findings errs warns)).
Proof.
  intros df schema rep H.
  destruct (df_empty df) eqn:He.
  { rewrite (run_without_data _ _ _ _ df schema He) in H. injection H as <-.
    do 2 eexists. repeat split. }
  assert (Hnone : schema = None \/ schema = Some [] ->
                  exists errs warns,
                    py_field "errors" rep = Some (PList errs) /\
                    py_field "warnings" rep = Some (PList warns) /\
                    py_field "overall_status" rep
                    = Some (PStr (status_of_findings errs warns))).
  { intros Hs. rewrite (run_without_schema _ _ _ _ df schema He Hs) in H.
    injection H as <-. do 2 eexists. repeat split. }
  destruct schema as [[|p schema]|]; [auto | | auto].
  destruct (run_inversion _ _ _ _ df (p :: schema) rep He ltac:(discriminate) H)
    as (reqset & cv & present & cv' & r1 & r3 & _ & _ & _ & H1 & H3 & ->).
  set (r0 := check_records validate (p :: schema) 0
               (convert_dataframe_to_json_serializable df) initial_report) in *.
  assert (S0 : overall_status r0 = (if nonempty (errors r0) then "FAIL" else "PASS")).
  { apply check_records_status. reflexivity. }
  assert (W0 : warnings r0 = []).
  { unfold r0.
    now destruct (check_records_fields validate (p :: schema)
                    (convert_dataframe_to_json_serializable df) 0 initial_report)
      as (_ & -> & _). }
  assert (T0 : status_tracks_warnings (overall_status r0) r0).
  { unfold status_tracks_warnings. now rewrite W0. }
  pose proof (consolidate_required_status _ _ _ _ _ H1 T0) as T1.
  pose proof (consolidate_enums_status _ cv' (enum_values_in_schema cv') _ T1) as T2.
  pose proof (consolidate_min_max_all_status _ _ _ _ _ H3 T2) as T3.
  destruct (consolidate_min_max_all_frame py_str format_2f _ _ _ _ H3) as (E3 & _).
  destruct (consolidate_enums_frame set_iter py_str cv' (enum_values_in_schema cv') r1)
    as (E2 & _).
  destruct (consolidate_required_frame set_iter _ _ _ _ H1) as (E1 & _).
  exists (map to_json_serializable (errors r3)),
         (map to_json_serializable (warnings r3)).
  split; [reflexivity|]. split; [reflexivity|].
  simpl. unfold status_of_findings. rewrite !nonempty_map.
  unfold status_tracks_warnings in T3. rewrite T3.
  destruct (nonempty (warnings r3)); [reflexivity|].
  now rewrite S0, E3, E2, E1.
Qed.

End Status.

(** ** Enum coverage *)

Ltac bind_as H x Ex :=
  match type of H with
  | bind ?r _ = Ok _ =>
      destruct r as [x|] eqn:Ex; simpl in H; [|discriminate H]
  end.

Lemma scan_property_enum_other (cv cv' : coverage_vars) (prop : string * pyval)
    (f : string) :
  scan_property cv prop = Ok cv' -> f <> fst prop ->
  dict_get f (enum_values_in_schema cv') = dict_get f (enum_values_in_schema cv) /\
  dict_get f (enum_values_in_data cv') = dict_get f (enum_values_in_data cv).
Proof.
  unfold scan_property. destruct prop as [name details]. simpl. intros H Hne.
  bind_ok H. bind_ok H. rename a0 into cv1.
  assert (H1 : dict_get f (enum_values_in_schema cv1)
               = dict_get f (enum_values_in_schema cv) /\
               dict_get f (enum_values_in_data cv1)
               = dict_get f (enum_values_in_data cv)).
  { destruct a.
    - do 2 bind_ok E0. injection E0 as <-. simpl.
      rewrite !dict_get_after_set_other by exact Hne. split; reflexivity.
    - injection E0 as <-. split; reflexivity. }
  destruct H1 as [<- <-].
  do 2 bind_ok H. destruct a1.
  - do 2 bind_ok H. injection H as <-. split; reflexivity.
  - injection H as <-. split; reflexivity.
Qed.

Lemma scan_property_enum_self (cv cv' : coverage_vars) (f : string)
    (details : pydict) :
  scan_property cv (f, PDict details) = Ok cv' ->
  dict_mem "enum" details = true ->
  exists declared_set,
    py_set (to_json_serializable (declared "enum" details)) = Ok declared_set /\
    dict_get f (enum_values_in_schema cv') = Some declared_set /\
    dict_get f (enum_values_in_data cv') = Some [].
Proof.
  unfold scan_property, declared. intros H Hm.
  cbn [bind py_contains] in H. rewrite Hm in H. cbn [bind py_getitem] in H.
  destruct (dict_get "enum" details) as [x|]; [|discriminate H].
  cbn [bind] in H.
  destruct (py_set (to_json_serializable x)) as [declared_set|] eqn:Es;
    [|discriminate H].
  cbn [bind] in H. exists declared_set. split; [reflexivity|].
  destruct (dict_mem "minimum" details); cbn [bind] in H.
  - injection H as <-. simpl. rewrite !dict_get_after_set. split; reflexivity.
  - destruct (dict_mem "maximum" details); cbn [bind py_get] in H;
      injection H as <-; simpl; rewrite !dict_get_after_set; split; reflexivity.
Qed.

Lemma scan_property_enum_NoDup (cv cv' : coverage_vars) (prop : string * pyval) :
  scan_property cv prop = Ok cv' ->
  NoDup (map fst (enum_values_in_schema cv)) ->
  NoDup (map fst (enum_values_in_schema cv')).
Proof.
  unfold scan_property. destruct prop as [name details]. intros H Hd.
  bind_ok H. bind_ok H. rename a0 into cv1.
  assert (H1 : NoDup (map fst (enum_values_in_schema cv1))).
  { destruct a.
    - do 2 bind_ok E0. injection E0 as <-. simpl. apply dict_set_NoDup, Hd.
    - now injection E0 as <-. }
  do 2 bind_ok H. destruct a1.
  - do 2 bind_ok H. now injection H as <-.
  - now injection H as <-.
Qed.

Lemma scan_properties_enum_NoDup (props : pydict) :
  forall cv cv' : coverage_vars,
    scan_properties cv props = Ok cv' ->
    NoDup (map fst (enum_values_in_schema cv)) ->
    NoDup (map fst (enum_values_in_schema cv')).
Proof.
  induction props as [|prop props IH]; intros cv cv' H Hd; simpl in H.
  - now injection H as <-.
  - bind_ok H. eapply IH; [exact H|]. eapply scan_property_enum_NoDup; eassumption.
Qed.

Lemma scan_properties_enum_absent (props : pydict) (f : string) :
  forall cv cv' : coverage_vars,
    scan_properties cv props = Ok cv' -> ~ In f (map fst props) ->
    dict_get f (enum_values_in_schema cv') = dict_get f (enum_values_in_schema cv) /\
    dict_get f (enum_values_in_data cv') = dict_get f (enum_values_in_data cv).
Proof.
  induction props as [|prop props IH]; intros cv cv' H Hf; simpl in H.
  - injection H as <-. split; reflexivity.
  - bind_ok H. simpl in Hf.
    destruct (IH _ _ H) as [I1 I2]; [tauto|].
    destruct (scan_property_enum_other _ _ _ f E) as [S1 S2];
      [intros ->; tauto|].
    rewrite I1, I2. split; assumption.
Qed.

Lemma scan_properties_enum (props : pydict) (f : string) (details : pydict) :
  forall cv cv' : coverage_vars,
    NoDup (map fst props) ->
    dict_get f props = Some (PDict details) ->
    dict_mem "enum" details = true ->
    scan_properties cv props = Ok cv' ->
    exists declared_set,
      py_set (to_json_serializable (declared "enum" details)) = Ok declared_set /\
      dict_get f (enum_values_in_schema cv') = Some declared_set /\
      dict_get f (enum_values_in_data cv') = Some [].
Proof.
  induction props as [|[name d] props IH]; intros cv cv' Hnd Hget Hm H;
    simpl in Hget, H; [discriminate|].
  inversion Hnd as [|? ? Hnotin Hnd']; subst.
  bind_ok H.
  change (scan_property cv (name, d) = Ok a) in E.
  destruct (String.eqb_spec f name) as [->|Hne].
  - injection Hget as ->.
    destruct (scan_properties_enum_absent _ name _ _ H Hnotin) as [A1 A2].
    destruct (scan_property_enum_self _ _ _ _ E Hm) as (S & HS & S1 & S2).
    exists S. rewrite A1, A2. repeat split; assumption.
  - eapply IH; eassumption.
Qed.

Lemma scan_column_enum_other (required present present' : pyset)
    (cv cv' : coverage_vars) (col : string * column) (f : string) :
  scan_column required (present, cv) col = Ok (present', cv') ->
  f <> fst col ->
  dict_get f (enum_values_in_data cv') = dict_get f (enum_values_in_data cv).
Proof.
  unfold scan_column. destruct col as [name series]. simpl. intros H Hne.
  bind_ok H. bind_ok H. injection H as _ <-.
  assert (H1 : dict_get f (enum_values_in_data a)
               = dict_get f (enum_values_in_data cv)).
  { destruct (dict_mem name (enum_values_in_schema cv)).
    - destruct (dict_get name (enum_values_in_data cv)); [|discriminate].
      do 2 bind_ok E. injection E as <-. simpl.
      now rewrite dict_get_after_set_other.
    - now injection E as <-. }
  rewrite <- H1.
  destruct (dict_mem name (min_max_constraints a) && is_numeric_dtype series).
  - destruct (negb (series_empty series)).
    + destruct (dict_get name (min_max_data_values a)) as [[mn mx]|]; [|discriminate].
      do 2 bind_ok E0. now injection E0 as <-.
    + now injection E0 as <-.
  - now injection E0 as <-.
Qed.

Lemma scan_column_enum_self (required present present' : pyset)
    (cv cv' : coverage_vars) (f : string) (series : column) (seen : pyset) :
  scan_column required (present, cv) (f, series) = Ok (present', cv') ->
  dict_mem f (enum_values_in_schema cv) = true ->
  dict_get f (enum_values_in_data cv) = Some seen ->
  exists values seen',
    dropna_unique series = Ok values /\
    set_update seen (map to_json_serializable values) = Ok seen' /\
    dict_get f (enum_values_in_data cv') = Some seen'.
Proof.
  unfold scan_column. intros H Hmem Hget.
  bind_as H cv1 E. bind_as H cv2 E0. injection H as _ <-.
  rewrite Hmem, Hget in E.
  bind_as E values Ev. bind_as E seen' Es. injection E as <-.
  exists values, seen'. split; [reflexivity|]. split; [exact Es|].
  simpl in E0.
  destruct (dict_mem f (min_max_constraints cv) && is_numeric_dtype series).
  - destruct (negb (series_empty series)).
    + destruct (dict_get f (min_max_data_values cv)) as [[mn mx]|]; [|discriminate].
      do 2 bind_ok E0. injection E0 as <-. simpl. apply dict_get_after_set.
    + injection E0 as <-. simpl. apply dict_get_after_set.
  - injection E0 as <-. simpl. apply dict_get_after_set.
Qed.

Lemma scan_columns_enum_absent (required : pyset) (df : DataFrame) (f : string) :
  forall (present present' : pyset) (cv cv' : coverage_vars),
    scan_columns required (present, cv) df = Ok (present', cv') ->
    ~ In f (map fst df) ->
    dict_get f (enum_values_in_data cv') = dict_get f (enum_values_in_data cv).
Proof.
  induction df as [|col df IH]; intros present present' cv cv' H Hf; simpl in H.
  - now injection H as _ <-.
  - bind_ok H. destruct a as [present1 cv1]. simpl in Hf.
    rewrite (IH _ _ _ _ H) by tauto.
    eapply scan_column_enum_other; [exact E|]. intros ->. tauto.
Qed.

Lemma scan_columns_enum (required : pyset) (df : DataFrame) (f : string) :
  forall (present present' : pyset) (cv cv' : coverage_vars),
    NoDup (map fst df) ->
    dict_mem f (enum_values_in_schema cv) = true ->
    dict_get f (enum_values_in_data cv) = Some [] ->
    scan_columns required (present, cv) df = Ok (present', cv') ->
    exists observed,
      observed_values df f = Ok observed /\
      dict_get f (enum_values_in_data cv') = Some observed.
Proof.
  unfold observed_values.
  induction df as [|[name c] df IH];
    intros present present' cv cv' Hnd Hmem Hdata H; simpl in H.
  - injection H as _ <-. exists []. split; [reflexivity | exact Hdata].
  - inversion Hnd as [|? ? Hnotin Hnd']; subst.
    bind_ok H. destruct a as [present1 cv1].
    change (scan_column required (present, cv) (name, c) = Ok (present1, cv1)) in E.
    simpl. destruct (String.eqb_spec f name) as [->|Hne].
    + destruct (scan_column_enum_self _ _ _ _ _ _ _ _ E Hmem Hdata)
        as (values & seen' & Hv & Hs & Hd).
      exists seen'. rewrite Hv. simpl. split; [exact Hs|].
      now rewrite (scan_columns_enum_absent _ _ name _ _ _ _ H Hnotin).
    + destruct (scan_column_keeps_schema_side _ _ _ _ _ _ E) as [Ke _].
      apply (IH present1 present' cv1 cv' Hnd'); try assumption.
      * now rewrite Ke.
      * now rewrite (scan_column_enum_other _ _ _ _ _ _ f E Hne).
Qed.

Section EnumCoverage.

Variable validate : pyval -> pydict -> validation_outcome.
Variable set_iter : pyset -> list pyval.
Variable py_str : pyval -> string.
Variable format_2f : pyval -> string.

Local Abbreviation run :=
  (validate_data_against_schema validate set_iter py_str format_2f).

Lemma consolidate_enum_other (cv : coverage_vars) (r : report)
    (item : string * pyset) (f : string) :
  f <> fst item ->
  dict_get f (enum_coverage (consolidate_enum set_iter py_str cv r item))
  = dict_get f (enum_coverage r).
Proof.
  unfold consolidate_enum. destruct item as [field schema_enums]. simpl.
  intros Hne. destruct (nonempty _); simpl; now rewrite dict_get_after_set_other.
Qed.

Lemma consolidate_enum_self (cv : coverage_vars) (r : report) (f : string)
    (declared_set observed : pyset) :
  dict_get f (enum_values_in_data cv) = Some observed ->
  let r' := consolidate_enum set_iter py_str cv r (f, declared_set) in
  let missing := set_iter (set_difference declared_set observed) in
  dict_get f (enum_coverage r') = Some (enum_entry set_iter declared_set observed) /\
  (nonempty missing = true -> In (enum_warning py_str f missing) (warnings r')).
Proof.
  intros Hd. unfold consolidate_enum. rewrite Hd. cbv zeta.
  destruct (nonempty _); simpl; rewrite dict_get_after_set.
  - split; [reflexivity|]. intros _. apply in_or_app. right. now left.
  - split; [reflexivity | discriminate].
Qed.

Lemma consolidate_enums_absent (cv : coverage_vars) (items : list (string * pyset))
    (f : string) :
  forall r : report,
    ~ In f (map fst items) ->
    dict_get f (enum_coverage (fold_left (consolidate_enum set_iter py_str cv) items r))
    = dict_get f (enum_coverage r).
Proof.
  induction items as [|item rest IH]; intros r Hf; simpl; [reflexivity|].
  simpl in Hf. rewrite IH by tauto.
  apply consolidate_enum_other. intros ->. tauto.
Qed.

Lemma consolidate_enums_entry (cv : coverage_vars) (items : list (string * pyset))
    (f : string) (declared_set observed : pyset) :
  forall r : report,
    NoDup (map fst items) ->
    dict_get f items = Some declared_set ->
    dict_get f (enum_values_in_data cv) = Some observed ->
    let r' := fold_left (consolidate_enum set_iter py_str cv) items r in
    let missing := set_iter (set_difference declared_set observed) in
    dict_get f (enum_coverage r') = Some (enum_entry set_iter declared_set observed) /\
    (nonempty missing = true -> In (enum_warning py_str f missing) (warnings r')).
Proof.
  induction items as [|[name s] rest IH]; intros r Hnd Hget Hd;
    simpl in Hget; [discriminate|].
  inversion Hnd as [|? ? Hnotin Hnd']; subst.
  cbv zeta. cbn [fold_left].
  destruct (String.eqb_spec f name) as [->|Hne].
  - injection Hget as ->.
    destruct (consolidate_enum_self cv r name declared_set observed Hd) as [He Hw].
    rewrite (consolidate_enums_absent cv rest name _ Hnotin).
    split; [exact He|]. intros Hm.
    destruct (consolidate_enums_warnings set_iter py_str cv rest
                (consolidate_enum set_iter py_str cv r (name, declared_set)))
      as (ws & -> & _).
    apply in_or_app. left. exact (Hw Hm).
  - apply IH; assumption.
Qed.

(** X10.  What the code records for an enum field [f], on a returned report:
    total counts the declared values, missing lists the declared values
    that were not observed, one warning names them when there are any, and
    covered counts the observed values, declared or not. *)
Lemma enum_coverage_entry :
  forall (df : DataFrame) (schema props details : pydict) (f : string)
         (rep : pyval),
    df_empty df = false -> schema <> [] ->
    dict_get "properties" schema = Some (PDict props) ->
    NoDup (map fst props) ->
    dict_get f props = Some (PDict details) ->
    dict_mem "enum" details = true ->
    NoDup (map fst df) ->
    run df (Some schema) = Ok rep ->
    exists declared_set observed,
      py_set (to_json_serializable (declared "enum" details)) = Ok declared_set /\
      observed_values df f = Ok observed /\
      py_path ["coverage"; "enum_coverage"; f] rep
      = Some (to_json_serializable (enum_entry set_iter declared_set observed)) /\
      (nonempty (set_iter (set_difference declared_set observed)) = true ->
       exists warns,
         py_field "warnings" rep = Some (PList warns) /\
         In (enum_warning py_str f (set_iter (set_difference declared_set observed))) warns).
Proof.
  intros df schema props details f rep He Hs Hprops NDp Hf Hm NDdf H.
  destruct (run_inversion _ _ _ _ df schema rep He Hs H)
    as (reqset & cv & present & cv' & r1 & r3 & _ & Hcv & Hcols & _ & H3 & ->).
  unfold schema_constraints in Hcv. rewrite Hprops in Hcv.
  destruct (scan_properties_enum props f details _ _ NDp Hf Hm Hcv)
    as (declared_set & Hset & Hschema & Hdata0).
  assert (NDe : NoDup (map fst (enum_values_in_schema cv))).
  { eapply scan_properties_enum_NoDup; [exact Hcv | constructor]. }
  assert (Hmem : dict_mem f (enum_values_in_schema cv) = true).
  { unfold dict_mem. now rewrite Hschema. }
  destruct (scan_columns_enum _ _ f _ _ _ _ NDdf Hmem Hdata0 Hcols)
    as (observed & Hobs & Hdata).
  destruct (scan_columns_schema_side _ _ _ _ _ _ Hcols) as (Ke & _).
  rewrite <- Ke in Hschema, NDe.
  destruct (consolidate_enums_entry cv' _ f declared_set observed r1
              NDe Hschema Hdata) as (Hentry & Hwarn).
  destruct (consolidate_min_max_all_frame py_str format_2f _ _ _ _ H3)
    as (_ & _ & En).
  destruct (consolidate_min_max_all_warnings py_str format_2f _ _ _ _ H3)
    as (ws3 & Hw3 & _).
  exists declared_set, observed. split; [exact Hset|]. split; [exact Hobs|]. split.
  - cbn [py_path py_field report_dict to_json_serializable map fst snd dict_get
         String.eqb Ascii.eqb Bool.eqb].
    rewrite dict_get_map_values, En, Hentry. reflexivity.
  - intros Hne. eexists. split; [reflexivity|].
    rewrite Hw3, map_app. apply in_or_app. left.
    apply (in_map to_json_serializable) in Hwarn; [|exact Hne]. exact Hwarn.
Qed.

End EnumCoverage.

(** ** Columns and records *)

Lemma dict_get_Some_In {A : Type} (k : string) (v : A) (d : list (string * A)) :
  dict_get k d = Some v -> In (k, v) d.
Proof.
  induction d as [|[k' v'] d IH]; simpl; [discriminate|].
  destruct (String.eqb_spec k k') as [->|Hne].
  - intros H. injection H as ->. now left.
  - intros H. right. now apply IH.
Qed.

(** A column that is not entirely null is a field with a non-null value
    in some record of [to_dict(orient='records')]. *)
Lemma has_value_in_some_record (df : DataFrame) (name : string) :
  rectangular df ->
  (has_value df name = true <->
   exists record v,
     In record (to_dict_records df) /\
     py_field name record = Some v /\
     py_isna v = false).
Proof.
  intros Hrect. unfold has_value, to_dict_records. split.
  - destruct (dict_get name df) as [c|] eqn:Ec; [|discriminate].
    intros Hn. apply negb_true_iff in Hn. unfold all_null in Hn.
    assert (Hex : exists v, In v (tolist c) /\ py_isna v = false).
    { clear -Hn. induction (tolist c) as [|x l IH]; simpl in Hn; [discriminate|].
      destruct (py_isna x) eqn:Ex.
      - destruct (IH Hn) as (v & Hv & Hv'). exists v. split; [now right | exact Hv'].
      - exists x. split; [now left | exact Ex]. }
    destruct Hex as (v & Hv & Nv).
    destruct (In_nth _ _ PNone Hv) as (i & Hi & Ei).
    exists (PDict (map (fun nc => (fst nc, nth i (tolist (snd nc)) PNone)) df)), v.
    split; [|split; [|exact Nv]].
    + apply in_map_iff. exists i. split; [reflexivity|].
      apply in_seq. rewrite <- (Hrect name c (dict_get_Some_In _ _ _ Ec)). lia.
    + simpl.
      rewrite (dict_get_map_values (fun c0 => nth i (tolist c0) PNone)), Ec.
      simpl. now rewrite Ei.
  - intros (record & v & Hr & Hv & Nv).
    apply in_map_iff in Hr as (i & <- & _). simpl in Hv.
    rewrite (dict_get_map_values (fun c0 => nth i (tolist c0) PNone)) in Hv.
    destruct (dict_get name df) as [c|]; [|discriminate].
    simpl in Hv. injection Hv as <-.
    apply negb_true_iff. unfold all_null.
    destruct (forallb py_isna (tolist c)) eqn:Ef; [|reflexivity].
    rewrite forallb_forall in Ef.
    destruct (Nat.lt_ge_cases i (List.length (tolist c))) as [Hlt|Hge].
    + rewrite (Ef _ (nth_In _ PNone Hlt)) in Nv. discriminate.
    + rewrite nth_overflow in Nv by exact Hge. discriminate.
Qed.

(** ** The code at the inputs where it leaves the specification *)

Module AtSamples.
Import Samples.

(** C1.  Rows that fail validation and a required field that no column
    carries: the report holds two errors and one warning, and its status
    is WARNINGS, the coverage pass having overwritten FAIL. *)
Theorem status_warnings_despite_errors :
  (exists e1 e2,
      report_path ["errors"]
        (run require_b insertion_order df_a (Some schema_requires_b))
      = Some (PList [e1; e2])) /\
  (exists w,
      report_path ["warnings"]
        (run require_b insertion_order df_a (Some schema_requires_b))
      = Some (PList [w])) /\
  report_path ["overall_status"]
    (run require_b insertion_order df_a (Some schema_requires_b))
  = Some (PStr "WARNINGS") /\
  report_path ["overall_status"]
    (run require_b insertion_order df_a (Some schema_requires_b))
  <> Some (PStr "FAIL").
Proof.
  repeat split.
  - do 2 eexists. vm_compute. reflexivity.
  - eexists. vm_compute. reflexivity.
  - vm_compute. discriminate.
Qed.

(** C2.  Enum [x, y] and data [x, z]: the observed values meet the
    declared ones in [x] alone, and the entry reports 2 covered. *)
Theorem enum_covered_counts_undeclared_values :
  report_path ["coverage"; "enum_coverage"; "status"]
    (run status_in_x_y insertion_order df_status (Some schema_status))
  = Some (PDict [("total", PInt 2);
                 ("covered", PInt 2);
                 ("missing", PList [PStr "y"])]).
Proof. vm_compute. reflexivity. Qed.

(** C3.  Bounds that are not numbers on a numeric column: the TypeError
    of [max_constraint_val - min_constraint_val] leaves the call. *)
Theorem text_bounds_raise_type_error :
  run (schema_error "'low' is not of type 'number'") insertion_order
    df_score_at_bounds
    (Some schema_score_text_bounds)
  = Raise TypeError.
Proof. vm_compute. reflexivity. Qed.

(** The other case C3 names is handled: a numeric column of NaN only
    under declared bounds gives a report with one warning. *)
Lemma all_nan_column_is_reported :
  report_path ["overall_status"]
    (run accept_all insertion_order df_score_all_nan (Some schema_score))
  = Some (PStr "WARNINGS") /\
  report_path ["coverage"; "min_max_coverage"]
    (run accept_all insertion_order df_score_all_nan (Some schema_score))
  = Some (PDict []) /\
  report_path ["warnings"]
    (run accept_all insertion_order df_score_all_nan (Some schema_score))
  = Some (PList [warning "score"
                   "Min/Max constraints for 'score' defined in schema but no numeric data found to test them."]).
Proof. vm_compute. repeat split. Qed.

(** C4, as stated, fails: the error recorded for an unexpected exception
    has the keys row_index, path, message and detail, and none of its
    values is the validator kind "exception". *)
Lemma generic_error_has_no_validator_kind :
  exists e1 e2,
    report_path ["errors"]
      (run (schema_error "12 is not valid under any of the given schemas")
         insertion_order df_a (Some schema_malformed))
    = Some (PList [PDict e1; PDict e2]) /\
    dict_get "row_index" e1 = Some (PInt 0) /\
    map fst e1 = ["row_index"; "path"; "message"; "detail"] /\
    Forall (fun kv => snd kv <> PStr "exception") e1.
Proof.
  do 2 eexists. split; [vm_compute; reflexivity|].
  split; [reflexivity|]. split; [reflexivity|].
  repeat constructor; simpl; discriminate.
Qed.

(** C5, as stated, fails: jsonschema does not stop at the first rule a
    record violates.  The record [{'a': 'x'}] violates the type of [a]
    first and the required [b] next; the one error recorded for it is the
    violation jsonschema selects, here the second. *)
Lemma recorded_violation_is_not_the_first :
  exists first later entry,
    to_dict_records df_a_text = [PDict [("a", PStr "x")]] /\
    violations_a_b (PDict [("a", PStr "x")]) = [first; later] /\
    ve_validator (snd first) = "type" /\
    report_path ["errors"]
      (run validate_a_b insertion_order df_a_text (Some schema_a_integer_b_required))
    = Some (PList [entry]) /\
    py_field "row_index" entry = Some (PInt 0) /\
    py_field "validator" entry = Some (PStr "required") /\
    py_field "message" entry = Some (PStr "'b' is a required property").
Proof. do 3 eexists. vm_compute. repeat split. Qed.



End AtSamples.

(** * Further properties of the checker *)

(** ** The normalizer, on every input *)

(** X1.  On every value of the kinds [pyval] carries (None, bool, int,
    float, str, lists and dicts with string keys, NumPy scalars,
    Timestamp and Timedelta, NaT, Series, DataFrame, and the scalar
    objects [json.dumps] rejects, nested to any depth), the value
    [_to_json_serializable] returns is JSON-native: it holds no NumPy or
    pandas wrapper, no tabular container and no other object, at any
    depth.  An object [json.dumps] accepts as it is, such as a tuple, is
    returned unchanged, and an array-like raises at [pd.isna]: they are
    none of these kinds. *)
Theorem normalize_output_is_json_native :
  forall v : pyval, json_native (to_json_serializable v) = true.
Proof.
  induction v using pyval_nested_ind; simpl; try reflexivity.
  - now destruct (is_nan f).
  - induction H as [|x xs Hx _ IH]; simpl; [reflexivity | now rewrite Hx, IH].
  - induction H as [|[k x] xs Hx _ IH]; simpl in *; [reflexivity | now rewrite Hx, IH].
  - induction H as [|x xs Hx _ IH]; simpl; [reflexivity | now rewrite Hx, IH].
  - induction H as [|x xs Hx _ IH]; simpl; [reflexivity | now rewrite Hx, IH].
Qed.

Lemma normalize_drops_np_nan (v : pyval) :
  has_np_nan (to_json_serializable v) = false.
Proof.
  induction v using pyval_nested_ind; simpl; try reflexivity.
  - now destruct (is_nan f).
  - induction H as [|x xs Hx _ IH]; simpl; [reflexivity | now rewrite Hx, IH].
  - induction H as [|[k x] xs Hx _ IH]; simpl in *; [reflexivity | now rewrite Hx, IH].
  - induction H as [|x xs Hx _ IH]; simpl; [reflexivity | now rewrite Hx, IH].
  - induction H as [|x xs Hx _ IH]; simpl; [reflexivity | now rewrite Hx, IH].
Qed.

(** X2.  Two passes of the normalizer always reach a fixed point: a third
    pass changes nothing, for every input, a NumPy NaN included. *)
Theorem normalize_stable_after_two_passes :
  forall v : pyval,
    to_json_serializable (to_json_serializable (to_json_serializable v))
    = to_json_serializable (to_json_serializable v).
Proof.
  intros v. apply normalize_fixes_json_primitive.
  apply normalize_json_primitive, normalize_drops_np_nan.
Qed.

(** ** The records of a frame *)

Lemma nth_error_map_seq {A : Type} (f : nat -> A) (n i : nat) :
  (i < n)%nat -> nth_error (map f (seq 0 n)) i = Some (f i).
Proof.
  intros Hi. rewrite nth_error_map, nth_error_seq.
  destruct (Nat.ltb_spec i n); [reflexivity | lia].
Qed.

(** X4.  [_convert_dataframe_to_json_serializable] returns one record per
    row; record [i] is a dict whose keys are the column labels in column
    order, and its value under a label is the normalized cell [i] of that
    column. *)
Theorem converted_records_follow_the_frame :
  forall df : DataFrame,
    List.length (convert_dataframe_to_json_serializable df) = n_rows df /\
    forall i : nat, (i < n_rows df)%nat ->
      exists d,
        nth_error (convert_dataframe_to_json_serializable df) i = Some (PDict d) /\
        map fst d = map fst df /\
        forall (name : string) (c : column),
          dict_get name df = Some c ->
          dict_get name d = Some (to_json_serializable (nth i (tolist c) PNone)).
Proof.
  intros df. unfold convert_dataframe_to_json_serializable, to_dict_records. split.
  - now rewrite !length_map, length_seq.
  - intros i Hi. rewrite map_map, nth_error_map_seq by exact Hi.
    eexists. split; [reflexivity|]. split.
    + rewrite !map_map. reflexivity.
    + intros name c Hc.
      rewrite dict_get_map_values,
        (dict_get_map_values (fun c0 => nth i (tolist c0) PNone)), Hc.
      reflexivity.
Qed.

(** ** The errors, in row order *)

Lemma invalid_positions_sorted {A : Type} (p : nat * A -> bool) (l : list A) :
  forall i0 : nat,
    StronglySorted lt (map fst (filter p (combine (seq i0 (List.length l)) l))) /\
    Forall (fun k => (i0 <= k < i0 + List.length l)%nat)
      (map fst (filter p (combine (seq i0 (List.length l)) l))).
Proof.
  induction l as [|x l IH]; intros i0; simpl; [split; constructor|].
  destruct (IH (S i0)) as [Hs Hf].
  assert (Hf' : Forall (fun k => (i0 <= k < i0 + S (List.length l))%nat)
                  (map fst (filter p (combine (seq (S i0) (List.length l)) l)))).
  { eapply Forall_impl; [|exact Hf]. simpl. intros k Hk. lia. }
  destruct (p (i0, x)); simpl; [|split; assumption].
  split.
  - constructor; [exact Hs|]. eapply Forall_impl; [|exact Hf]. simpl. intros k Hk. lia.
  - constructor; [lia | exact Hf'].
Qed.

Section ErrorRows.

Variable validate : pyval -> pydict -> validation_outcome.
Variable set_iter : pyset -> list pyval.
Variable py_str : pyval -> string.
Variable format_2f : pyval -> string.

Local Abbreviation run :=
  (validate_data_against_schema validate set_iter py_str format_2f).

Lemma record_errors_rows (schema : pydict) (records : list pyval) :
  forall i0 : nat,
    map row_index_of
      (map to_json_serializable
         (flat_map (fun ir => record_errors validate schema (fst ir) (snd ir))
            (combine (seq i0 (List.length records)) records)))
    = map (fun i => Some (Z.of_nat i))
        (map fst
           (filter (fun ir => negb (is_valid (validate (snd ir) schema)))
              (combine (seq i0 (List.length records)) records))).
Proof.
  induction records as [|record rest IH]; intros i0; simpl; [reflexivity|].
  rewrite !map_app, IH. unfold record_errors, check_record.
  destruct (validate record schema); reflexivity.
Qed.

Lemma invalid_rows_sorted (schema : pydict) (records : list pyval) :
  StronglySorted lt (invalid_rows validate schema records).
Proof. apply invalid_positions_sorted. Qed.

Lemma invalid_rows_in_frame (schema : pydict) (df : DataFrame) :
  Forall (fun i => (i < n_rows df)%nat)
    (invalid_rows validate schema (convert_dataframe_to_json_serializable df)).
Proof.
  unfold invalid_rows.
  eapply Forall_impl;
    [|apply (invalid_positions_sorted
               (fun ir => negb (is_valid (validate (snd ir) schema))))].
  simpl. intros k Hk.
  unfold convert_dataframe_to_json_serializable, to_dict_records in Hk.
  rewrite !length_map, length_seq in Hk. lia.
Qed.

(** X5.  The errors of a returned report are about the records that did
    not validate, one entry each, in increasing row order, and every row
    index lies inside the frame. *)
Theorem error_rows_are_the_invalid_rows :
  forall (df : DataFrame) (schema : pydict) (rep : pyval),
    df_empty df = false -> schema <> [] -> run df (Some schema) = Ok rep ->
    exists errs,
      py_field "errors" rep = Some (PList errs) /\
      map row_index_of errs
      = map (fun i => Some (Z.of_nat i))
          (invalid_rows validate schema (convert_dataframe_to_json_serializable df)) /\
      StronglySorted lt
        (invalid_rows validate schema (convert_dataframe_to_json_serializable df)) /\
      Forall (fun i => (i < n_rows df)%nat)
        (invalid_rows validate schema (convert_dataframe_to_json_serializable df)).
Proof.
  intros df schema rep He Hs H. eexists. split; [|split; [|split]].
  - exact (run_errors validate set_iter py_str format_2f df schema rep He Hs H).
  - apply record_errors_rows.
  - apply invalid_rows_sorted.
  - apply invalid_rows_in_frame.
Qed.

End ErrorRows.

Lemma error_rows_are_the_invalid_rows_witness :
  exists rep errs,
    Samples.run Samples.age_is_integer Samples.insertion_order
      Samples.df_age (Some Samples.schema_age) = Ok rep /\
    py_field "errors" rep = Some (PList errs) /\
    map row_index_of errs = [Some 1].
Proof.
  eexists.
  destruct (error_rows_are_the_invalid_rows Samples.age_is_integer
              Samples.insertion_order Samples.str Samples.two_decimals
              Samples.df_age Samples.schema_age _
              eq_refl ltac:(discriminate) eq_refl)
    as (errs & Herrs & Hrows & _).
  exists errs. split; [reflexivity|]. split; [exact Herrs | exact Hrows].
Defined.

(** ** The coverage pass does not look at the validator *)

Section Independence.

Variable set_iter : pyset -> list pyval.
Variable py_str : pyval -> string.
Variable format_2f : pyval -> string.

Lemma same_coverage_refl (r : report) : same_coverage r r.
Proof. repeat split. Qed.

Lemma consolidate_required_agrees (required present : pyset) (r1 r2 : report) :
  same_coverage r1 r2 ->
  agree same_coverage
    (consolidate_required set_iter required present r1)
    (consolidate_required set_iter required present r2).
Proof.
  intros (Hw & Hq & Hn & Hm). unfold consolidate_required.
  destruct (nonempty _).
  - destruct (py_join ", " _); simpl; [|reflexivity].
    unfold same_coverage. simpl. now rewrite Hw, Hn, Hm.
  - unfold same_coverage. simpl. now rewrite Hw, Hn, Hm.
Qed.

Lemma consolidate_enums_agree (cv : coverage_vars) (items : list (string * pyset)) :
  forall r1 r2 : report,
    same_coverage r1 r2 ->
    same_coverage (fold_left (consolidate_enum set_iter py_str cv) items r1)
                  (fold_left (consolidate_enum set_iter py_str cv) items r2).
Proof.
  induction items as [|[field schema_enums] rest IH]; intros r1 r2 H; simpl;
    [exact H|].
  apply IH. destruct H as (Hw & Hq & Hn & Hm).
  destruct (nonempty _); unfold same_coverage; simpl; now rewrite Hw, Hq, Hn, Hm.
Qed.

Lemma consolidate_min_max_agrees (cv : coverage_vars) (r1 r2 : report)
    (item : string * (pyval * pyval)) :
  same_coverage r1 r2 ->
  agree same_coverage
    (consolidate_min_max py_str format_2f cv r1 item)
    (consolidate_min_max py_str format_2f cv r2 item).
Proof.
  intros (Hw & Hq & Hn & Hm). unfold consolidate_min_max.
  destruct item as [field [mn mx]].
  destruct (dict_get field (min_max_data_values cv)) as [[dmin dmax]|].
  - destruct (py_ne dmin (PFloat float_inf) && py_ne dmax (PFloat float_neg_inf)).
    + destruct (if negb (is_None mn) && negb (is_None mx)
                then d <- py_sub mx mn ;; py_mul (PFloat float_0_01) d
                else Ok (PFloat float_0_01)) as [tolerance|]; simpl; [|reflexivity].
      match goal with
      | |- agree _ (bind ?x _) (bind ?x _) => destruct x as [min_tested|]
      end; simpl; [|reflexivity].
      match goal with
      | |- agree _ (bind ?x _) (bind ?x _) => destruct x as [max_tested|]
      end; simpl; [|reflexivity].
      destruct (negb (is_None mn) && negb min_tested),
               (negb (is_None mx) && negb max_tested);
        unfold same_coverage; simpl; now rewrite Hw, Hq, Hn, Hm.
    + destruct (_ && _); unfold same_coverage; simpl; now rewrite ?Hw, ?Hq, ?Hn, ?Hm.
  - destruct (_ || _); simpl; [reflexivity|]. repeat split; assumption.
Qed.

Lemma consolidate_min_max_all_agrees (cv : coverage_vars)
    (items : list (string * (pyval * pyval))) :
  forall r1 r2 : report,
    same_coverage r1 r2 ->
    agree same_coverage
      (consolidate_min_max_all py_str format_2f cv r1 items)
      (consolidate_min_max_all py_str format_2f cv r2 items).
Proof.
  induction items as [|item rest IH]; intros r1 r2 H; simpl; [exact H|].
  pose proof (consolidate_min_max_agrees cv r1 r2 item H) as Hstep.
  destruct (consolidate_min_max py_str format_2f cv r1 item) as [a1|e1],
           (consolidate_min_max py_str format_2f cv r2 item) as [a2|e2];
    simpl in *; try contradiction; [apply IH, Hstep | exact Hstep].
Qed.

Lemma coverage_pass_agrees (df : DataFrame) (schema : pydict) (r1 r2 : report) :
  same_coverage r1 r2 ->
  agree same_coverage
    (coverage_pass set_iter py_str format_2f df schema r1)
    (coverage_pass set_iter py_str format_2f df schema r2).
Proof.
  intros H. unfold coverage_pass.
  destruct (py_set (schema_required schema)) as [required|]; simpl; [|reflexivity].
  destruct (schema_constraints schema) as [cv|]; simpl; [|reflexivity].
  destruct (scan_columns required ([], cv) df) as [[present cv']|]; simpl;
    [|reflexivity].
  pose proof (consolidate_required_agrees required present r1 r2 H) as H1.
  destruct (consolidate_required set_iter required present r1) as [a1|e1],
           (consolidate_required set_iter required present r2) as [a2|e2];
    simpl in *; try contradiction; [|exact H1].
  apply consolidate_min_max_all_agrees, consolidate_enums_agree, H1.
Qed.

(** X6.  Whether the call returns or raises, its warnings and its whole
    coverage section do not depend on what the validator says about the
    records: two validators give reports that differ at most in their
    errors and status, or the same exception. *)
Theorem findings_do_not_depend_on_validator :
  forall (validate1 validate2 : pyval -> pydict -> validation_outcome)
         (df : DataFrame) (schema : option pydict),
    agree same_findings
      (validate_data_against_schema validate1 set_iter py_str format_2f df schema)
      (validate_data_against_schema validate2 set_iter py_str format_2f df schema).
Proof.
  intros validate1 validate2 df schema. unfold validate_data_against_schema.
  destruct (df_empty df); [split; reflexivity|].
  destruct schema as [[|p schema]|]; try (split; reflexivity).
  set (records := convert_dataframe_to_json_serializable df).
  assert (H0 : same_coverage
                 (check_records validate1 (p :: schema) 0 records initial_report)
                 (check_records validate2 (p :: schema) 0 records initial_report)).
  { destruct (check_records_fields validate1 (p :: schema) records 0 initial_report)
      as (_ & W1 & Q1 & N1 & M1).
    destruct (check_records_fields validate2 (p :: schema) records 0 initial_report)
      as (_ & W2 & Q2 & N2 & M2).
    unfold same_coverage. now rewrite W1, Q1, N1, M1, W2, Q2, N2, M2. }
  pose proof (coverage_pass_agrees df (p :: schema) _ _ H0) as H.
  destruct (coverage_pass set_iter py_str format_2f df (p :: schema)
              (check_records validate1 (p :: schema) 0 records initial_report))
    as [a1|e1],
           (coverage_pass set_iter py_str format_2f df (p :: schema)
              (check_records validate2 (p :: schema) 0 records initial_report))
    as [a2|e2]; simpl in *; try contradiction; [|exact H].
  destruct H as (Hw & Hq & Hn & Hm). unfold same_findings. simpl.
  now rewrite Hw, Hq, Hn, Hm.
Qed.

End Independence.

(** ** Bounds without numeric data *)

Lemma nanmin_all_nan (xs : list spec_float) :
  forallb is_nan xs = true -> nanmin xs = S754_nan.
Proof.
  induction xs as [|x xs IH]; simpl; [reflexivity|].
  intros H. apply andb_true_iff in H as [-> H]. now apply IH.
Qed.

Lemma nanmax_all_nan (xs : list spec_float) :
  forallb is_nan xs = true -> nanmax xs = S754_nan.
Proof.
  induction xs as [|x xs IH]; simpl; [reflexivity|].
  intros H. apply andb_true_iff in H as [-> H]. now apply IH.
Qed.

Lemma py_min_nan (lo lo' : pyval) :
  py_min lo (PFloat S754_nan) = Ok lo' -> lo' = lo.
Proof.
  unfold py_min, py_lt, py_cmp. simpl.
  destruct (as_num lo); [|discriminate]. simpl. intros H. now injection H.
Qed.

Lemma py_max_nan (hi hi' : pyval) :
  py_max hi (PFloat S754_nan) = Ok hi' -> hi' = hi.
Proof.
  unfold py_max, py_gt, py_cmp. simpl.
  destruct (as_num hi) as [y|]; [|discriminate]. simpl.
  replace (num_ltb y (NFloat S754_nan)) with false.
  - intros H. now injection H.
  - unfold num_ltb, num_compare. simpl. now destruct (xreal_of_num y).
Qed.

Lemma dict_set_same {A : Type} (k : string) (v : A) (d : list (string * A)) :
  dict_get k d = Some v -> dict_set k v d = d.
Proof.
  induction d as [|[k' v'] d IH]; simpl; [discriminate|].
  destruct (String.eqb_spec k k') as [->|Hne].
  - intros H. now injection H as ->.
  - intros H. now rewrite IH.
Qed.

Lemma scan_column_data_no_numeric (required present present' : pyset)
    (cv cv' : coverage_vars) (name : string) (series : column) :
  scan_column required (present, cv) (name, series) = Ok (present', cv') ->
  no_numeric_data series = true ->
  min_max_data_values cv' = min_max_data_values cv.
Proof.
  unfold scan_column. intros H Hnn.
  bind_ok H. bind_ok H. injection H as _ <-.
  apply scan_column_enum_step in E as [_ E2]. rewrite <- E2.
  destruct (dict_mem name (min_max_constraints a) && is_numeric_dtype series)
    eqn:Enum; [|now injection E0 as <-].
  destruct (negb (series_empty series)) eqn:Eemp; [|now injection E0 as <-].
  destruct (dict_get name (min_max_data_values a)) as [[lo hi]|] eqn:Eget;
    [|discriminate].
  destruct series as [xs|xs|xs|xs]; simpl in Hnn.
  - destruct xs; discriminate.
  - simpl in E0. rewrite (nanmin_all_nan _ Hnn), (nanmax_all_nan _ Hnn) in E0.
    do 2 bind_ok E0. injection E0 as <-. simpl.
    apply py_min_nan in E. apply py_max_nan in E1. subst.
    now apply dict_set_same.
  - destruct xs; discriminate.
  - simpl in Enum. now rewrite andb_false_r in Enum.
Qed.

Lemma scan_columns_data_untouched (required : pyset) (df : DataFrame) (f : string) :
  forall (present present' : pyset) (cv cv' : coverage_vars),
    scan_columns required (present, cv) df = Ok (present', cv') ->
    (forall series, In (f, series) df -> no_numeric_data series = true) ->
    dict_get f (min_max_data_values cv') = dict_get f (min_max_data_values cv).
Proof.
  induction df as [|[name series] df IH]; intros present present' cv cv' H Hf;
    simpl in H.
  - now injection H as _ <-.
  - bind_ok H. destruct a as [present1 cv1].
    change (scan_column required (present, cv) (name, series) = Ok (present1, cv1))
      in E.
    rewrite (IH _ _ _ _ H) by (intros s Hs; apply Hf; now right).
    destruct (String.eqb_spec f name) as [->|Hne].
    + now rewrite (scan_column_data_no_numeric _ _ _ _ _ _ _ E
                     (Hf series (or_introl eq_refl))).
    + exact (scan_column_data_other _ _ _ _ _ _ f E Hne).
Qed.

Section NoNumericData.

Variable validate : pyval -> pydict -> validation_outcome.
Variable set_iter : pyset -> list pyval.
Variable py_str : pyval -> string.
Variable format_2f : pyval -> string.

Local Abbreviation run :=
  (validate_data_against_schema validate set_iter py_str format_2f).

Lemma consolidate_min_max_no_data (cv : coverage_vars) (r r' : report)
    (f : string) (minimum maximum : pyval) :
  consolidate_min_max py_str format_2f cv r (f, (minimum, maximum)) = Ok r' ->
  dict_get f (min_max_data_values cv) = Some (PFloat float_inf, PFloat float_neg_inf) ->
  is_None minimum && is_None maximum = false ->
  min_max_coverage r' = min_max_coverage r /\
  warnings r' = warnings r ++ [no_numeric_data_warning f].
Proof.
  unfold consolidate_min_max. intros H Hget Hb. rewrite Hget in H.
  change (py_ne (PFloat float_inf) (PFloat float_inf)) with false in H.
  change (py_eqb (PFloat float_inf) (PFloat float_inf)) with true in H.
  cbn [andb orb] in H.
  replace (negb (is_None minimum) || negb (is_None maximum)) with true in H
    by (destruct (is_None minimum), (is_None maximum); try reflexivity; discriminate).
  cbn [andb] in H. injection H as <-. split; reflexivity.
Qed.

Lemma consolidate_min_max_all_no_data (cv : coverage_vars)
    (items : list (string * (pyval * pyval))) (f : string) (minimum maximum : pyval) :
  forall r r' : report,
    NoDup (map fst items) ->
    dict_get f items = Some (minimum, maximum) ->
    dict_get f (min_max_data_values cv)
    = Some (PFloat float_inf, PFloat float_neg_inf) ->
    is_None minimum && is_None maximum = false ->
    consolidate_min_max_all py_str format_2f cv r items = Ok r' ->
    dict_get f (min_max_coverage r') = dict_get f (min_max_coverage r) /\
    In (no_numeric_data_warning f) (warnings r').
Proof.
  induction items as [|[name bounds] rest IH];
    intros r r' Hnd Hget Hdata Hb H; simpl in Hget, H; [discriminate|].
  inversion Hnd as [|? ? Hnotin Hnd']; subst.
  bind_ok H.
  change (consolidate_min_max py_str format_2f cv r (name, bounds) = Ok a) in E.
  destruct (String.eqb_spec f name) as [->|Hne].
  - injection Hget as ->.
    destruct (consolidate_min_max_no_data _ _ _ _ _ _ E Hdata Hb) as (Hm & Hw).
    rewrite (consolidate_min_max_all_absent _ _ _ _ name _ _ H Hnotin), Hm.
    split; [reflexivity|].
    destruct (consolidate_min_max_all_warnings py_str format_2f _ _ _ _ H)
      as (ws & -> & _).
    rewrite Hw. apply in_or_app. left. apply in_or_app. right. now left.
  - destruct (IH a r' Hnd' Hget Hdata Hb H) as (Hm & Hw).
    split; [|exact Hw]. rewrite Hm.
    exact (consolidate_min_max_other _ _ _ _ _ _ f E Hne).
Qed.

(** X7.  A property [f] that declares a minimum or a maximum that is not
    null, over a frame in which no column labelled [f] holds a number
    (there is none, or it holds objects, or NaN only): a returned report
    has no [min_max_coverage] entry for [f], and its warnings hold the
    one that says no numeric data was found to test the bounds of [f]. *)
Theorem untested_bounds_are_warned :
  forall (df : DataFrame) (schema props details : pydict) (f : string)
         (rep : pyval),
    df_empty df = false -> schema <> [] ->
    dict_get "properties" schema = Some (PDict props) ->
    NoDup (map fst props) ->
    dict_get f props = Some (PDict details) ->
    dict_mem "minimum" details || dict_mem "maximum" details = true ->
    is_None (to_json_serializable (declared "minimum" details))
    && is_None (to_json_serializable (declared "maximum" details)) = false ->
    (forall series, In (f, series) df -> no_numeric_data series = true) ->
    run df (Some schema) = Ok rep ->
    py_path ["coverage"; "min_max_coverage"; f] rep = None /\
    exists warns,
      py_field "warnings" rep = Some (PList warns) /\
      In (no_numeric_data_warning f) warns.
Proof.
  intros df schema props details f rep He Hs Hprops NDp Hf Hb Hnn Hcol H.
  destruct (run_inversion _ _ _ _ df schema rep He Hs H)
    as (reqset & cv & present & cv' & r1 & r3 & _ & Hcv & Hcols & H1 & H3 & ->).
  unfold schema_constraints in Hcv. rewrite Hprops in Hcv.
  destruct (scan_properties_bounds props f details _ _ NDp Hf Hb Hcv)
    as (Hbounds & Hsent).
  assert (NDc : NoDup (map fst (min_max_constraints cv))).
  { eapply scan_properties_NoDup; [exact Hcv | constructor]. }
  rewrite <- (scan_columns_data_untouched _ _ f _ _ _ _ Hcols Hcol) in Hsent.
  destruct (scan_columns_schema_side _ _ _ _ _ _ Hcols) as (_ & Km).
  rewrite <- Km in Hbounds, NDc.
  destruct (consolidate_min_max_all_no_data _ _ _ _ _ _ _ NDc Hbounds Hsent Hnn H3)
    as (Hm & Hw).
  destruct (consolidate_enums_frame set_iter py_str cv' (enum_values_in_schema cv') r1)
    as (_ & _ & M2).
  destruct (consolidate_required_frame set_iter _ _ _ _ H1) as (_ & _ & M1).
  destruct (check_records_fields validate schema
              (convert_dataframe_to_json_serializable df) 0 initial_report)
    as (_ & _ & _ & _ & M0).
  rewrite M2, M1, M0 in Hm. simpl in Hm.
  split.
  - cbn [py_path py_field report_dict to_json_serializable map fst snd dict_get
         String.eqb Ascii.eqb Bool.eqb].
    now rewrite dict_get_map_values, Hm.
  - eexists. split; [reflexivity|].
    exact (in_map to_json_serializable _ _ Hw).
Qed.

End NoNumericData.

Lemma untested_bounds_are_warned_witness :
  exists rep warns,
    Samples.run Samples.accept_all Samples.insertion_order
      Samples.df_score_text (Some Samples.schema_score) = Ok rep /\
    py_path ["coverage"; "min_max_coverage"; "score"] rep = None /\
    py_field "warnings" rep = Some (PList warns) /\
    In (no_numeric_data_warning "score") warns.
Proof.
  unfold Samples.run.
  destruct (validate_data_against_schema Samples.accept_all
              Samples.insertion_order Samples.str Samples.two_decimals
              Samples.df_score_text (Some Samples.schema_score))
    as [rep|e] eqn:E; [|vm_compute in E; discriminate E].
  assert (NDp : NoDup (map fst [("score", PDict [("type", PStr "integer");
                                                 ("minimum", PInt 0);
                                                 ("maximum", PInt 100)])])).
  { repeat constructor. simpl. tauto. }
  destruct (untested_bounds_are_warned Samples.accept_all Samples.insertion_order
              Samples.str Samples.two_decimals
              Samples.df_score_text Samples.schema_score _ _ "score" rep
              eq_refl ltac:(discriminate) eq_refl NDp eq_refl eq_refl eq_refl)
    as (Hnone & warns & Hw & Hin).
  - intros series [Hs | []]. injection Hs as <-. reflexivity.
  - exact E.
  - exists rep, warns. repeat split; assumption.
Defined.

(** ** Schemas without properties *)


Section WithoutProperties.

Variable validate : pyval -> pydict -> validation_outcome.
Variable set_iter : pyset -> list pyval.
Variable py_str : pyval -> string.
Variable format_2f : pyval -> string.
Hypothesis set_iter_perm : forall s : pyset, Permutation (set_iter s) s.

Local Abbreviation run :=
  (validate_data_against_schema validate set_iter py_str format_2f).



End WithoutProperties.


(** ** No KeyError *)

Lemma bind_no_key_error {A B : Type} (x : result A) (k : A -> result B) :
  raises_key_error x = false ->
  (forall a, x = Ok a -> raises_key_error (k a) = false) ->
  raises_key_error (bind x k) = false.
Proof.
  intros Hx Hk. destruct x as [a|e]; simpl; [now apply Hk | exact Hx].
Qed.

Lemma set_update_no_key_error (xs : list pyval) :
  forall s : pyset, raises_key_error (set_update s xs) = false.
Proof.
  induction xs as [|x xs IH]; intros s; simpl; [reflexivity|].
  destruct (hashable x); [apply IH | reflexivity].
Qed.

Lemma py_set_no_key_error (v : pyval) : raises_key_error (py_set v) = false.
Proof.
  unfold py_set. apply bind_no_key_error.
  - now destruct v.
  - intros l _. apply set_update_no_key_error.
Qed.

Lemma py_contains_no_key_error (key : string) (v : pyval) :
  raises_key_error (py_contains key v) = false.
Proof. now destruct v. Qed.

Lemma py_get_no_key_error (v : pyval) (key : string) :
  raises_key_error (py_get v key) = false.
Proof. now destruct v. Qed.

(** [v[key]] after [key in v] held does not raise KeyError. *)
Lemma py_getitem_after_contains (v : pyval) (key : string) :
  py_contains key v = Ok true -> raises_key_error (py_getitem v key) = false.
Proof.
  destruct v; try reflexivity. simpl. unfold dict_mem.
  destruct (dict_get key d); [reflexivity | discriminate].
Qed.

Lemma py_cmp_no_key_error (test : pynum -> pynum -> bool) (a b : pyval) :
  raises_key_error (py_cmp test a b) = false.
Proof. unfold py_cmp. now destruct (as_num a), (as_num b). Qed.

Lemma py_min_no_key_error (a b : pyval) : raises_key_error (py_min a b) = false.
Proof.
  unfold py_min. apply bind_no_key_error; [apply py_cmp_no_key_error | reflexivity].
Qed.

Lemma py_max_no_key_error (a b : pyval) : raises_key_error (py_max a b) = false.
Proof.
  unfold py_max. apply bind_no_key_error; [apply py_cmp_no_key_error | reflexivity].
Qed.

Lemma to_float_no_key_error (n : pynum) : raises_key_error (to_float n) = false.
Proof.
  destruct n as [z|f]; [|reflexivity]. unfold to_float, float_of_int.
  now destruct (binary_normalize prec emax z 0 false).
Qed.

Lemma py_arith_no_key_error (int_op : Z -> Z -> Z)
    (float_op : spec_float -> spec_float -> spec_float) (a b : pyval) :
  raises_key_error (py_arith int_op float_op a b) = false.
Proof.
  assert (Hf : forall x y,
             raises_key_error (fx <- to_float x ;; fy <- to_float y ;;
                               Ok (PFloat (float_op fx fy))) = false).
  { intros x y. apply bind_no_key_error; [apply to_float_no_key_error|].
    intros fx _. apply bind_no_key_error; [apply to_float_no_key_error|].
    reflexivity. }
  unfold py_arith.
  destruct (as_num a) as [[x|x]|], (as_num b) as [[y|y]|];
    try reflexivity; apply Hf.
Qed.

Lemma dict_mem_after_set {A : Type} (k k0 : string) (v : A) (d : list (string * A)) :
  dict_mem k0 (dict_set k v d) = String.eqb k0 k || dict_mem k0 d.
Proof.
  unfold dict_mem. destruct (String.eqb_spec k0 k) as [->|Hne].
  - now rewrite dict_get_after_set.
  - now rewrite dict_get_after_set_other.
Qed.

Lemma scan_property_no_key_error (cv : coverage_vars) (prop : string * pyval) :
  raises_key_error (scan_property cv prop) = false.
Proof.
  unfold scan_property. destruct prop as [name details].
  apply bind_no_key_error; [apply py_contains_no_key_error|].
  intros has_enum Henum. apply bind_no_key_error.
  - destruct has_enum; [|reflexivity].
    apply bind_no_key_error; [now apply py_getitem_after_contains|].
    intros declared_values _.
    apply bind_no_key_error; [apply py_set_no_key_error | reflexivity].
  - intros cv1 _. apply bind_no_key_error; [apply py_contains_no_key_error|].
    intros has_minimum _. apply bind_no_key_error.
    + destruct has_minimum; [reflexivity | apply py_contains_no_key_error].
    + intros [|] _; [|reflexivity].
      apply bind_no_key_error; [apply py_get_no_key_error|]. intros minimum _.
      apply bind_no_key_error; [apply py_get_no_key_error|]. reflexivity.
Qed.

Lemma scan_property_linked (cv cv' : coverage_vars) (prop : string * pyval) :
  scan_property cv prop = Ok cv' -> linked cv -> linked cv'.
Proof.
  unfold scan_property. destruct prop as [name details]. intros H [Le Lm].
  bind_ok H. bind_ok H.
  assert (L1 : linked a0).
  { destruct a.
    - do 2 bind_ok E0. injection E0 as <-. split; simpl; [|exact Lm].
      intros k. rewrite !dict_mem_after_set.
      destruct (String.eqb k name); [reflexivity | apply Le].
    - injection E0 as <-. now split. }
  destruct L1 as [Le1 Lm1].
  do 2 bind_ok H. destruct a2.
  - do 2 bind_ok H. injection H as <-. split; simpl; [exact Le1|].
    intros k. rewrite !dict_mem_after_set.
    destruct (String.eqb k name); [reflexivity | apply Lm1].
  - injection H as <-. now split.
Qed.

Lemma scan_properties_no_key_error (props : pydict) :
  forall cv : coverage_vars, raises_key_error (scan_properties cv props) = false.
Proof.
  induction props as [|prop props IH]; intros cv; simpl; [reflexivity|].
  apply bind_no_key_error; [apply scan_property_no_key_error|].
  intros cv' _. apply IH.
Qed.

Lemma scan_properties_linked (props : pydict) :
  forall cv cv' : coverage_vars,
    scan_properties cv props = Ok cv' -> linked cv -> linked cv'.
Proof.
  induction props as [|prop props IH]; intros cv cv' H L; simpl in H.
  - now injection H as <-.
  - bind_ok H. eapply IH; [exact H|]. eapply scan_property_linked; eassumption.
Qed.

Lemma schema_constraints_linked (schema : pydict) (cv : coverage_vars) :
  schema_constraints schema = Ok cv -> linked cv.
Proof.
  assert (L0 : linked no_constraints) by (split; intros k H; exact H).
  unfold schema_constraints.
  destruct (dict_get "properties" schema) as [[]|];
    try (intros H; now injection H as <-).
  intros H. eapply scan_properties_linked; eassumption.
Qed.

Lemma schema_constraints_no_key_error (schema : pydict) :
  raises_key_error (schema_constraints schema) = false.
Proof.
  unfold schema_constraints.
  destruct (dict_get "properties" schema) as [[]|]; try reflexivity.
  apply scan_properties_no_key_error.
Qed.

Lemma scan_column_no_key_error (required present : pyset) (cv : coverage_vars)
    (col : string * column) :
  linked cv -> raises_key_error (scan_column required (present, cv) col) = false.
Proof.
  intros [Le Lm]. unfold scan_column. destruct col as [name series].
  apply bind_no_key_error.
  - destruct (dict_mem name (enum_values_in_schema cv)) eqn:Em; [|reflexivity].
    apply Le in Em. unfold dict_mem in Em.
    destruct (dict_get name (enum_values_in_data cv)); [|discriminate].
    apply bind_no_key_error; [apply set_update_no_key_error|]. intros values _.
    apply bind_no_key_error; [apply set_update_no_key_error | reflexivity].
  - intros cv1 H1. apply bind_no_key_error; [|reflexivity].
    apply scan_column_enum_step in H1 as [K1 K2]. rewrite K1, K2.
    destruct (dict_mem name (min_max_constraints cv)) eqn:Em; [|reflexivity].
    destruct (is_numeric_dtype series); [|reflexivity]. cbn [andb].
    destruct (negb (series_empty series)); [|reflexivity].
    apply Lm in Em. unfold dict_mem in Em.
    destruct (dict_get name (min_max_data_values cv)) as [[lo hi]|]; [|discriminate].
    apply bind_no_key_error; [apply py_min_no_key_error|]. intros lo' _.
    apply bind_no_key_error; [apply py_max_no_key_error | reflexivity].
Qed.

Lemma scan_column_linked (required present present' : pyset)
    (cv cv' : coverage_vars) (col : string * column) :
  scan_column required (present, cv) col = Ok (present', cv') ->
  linked cv -> linked cv'.
Proof.
  unfold scan_column. destruct col as [name series]. intros H [Le Lm].
  bind_ok H. bind_ok H. injection H as _ <-.
  assert (L1 : linked a).
  { destruct (dict_mem name (enum_values_in_schema cv)).
    - destruct (dict_get name (enum_values_in_data cv)); [|discriminate].
      do 2 bind_ok E. injection E as <-. split; simpl; [|exact Lm].
      intros k Hk. rewrite dict_mem_after_set. apply Le in Hk. rewrite Hk.
      apply orb_true_r.
    - injection E as <-. now split. }
  destruct L1 as [Le1 Lm1].
  destruct (dict_mem name (min_max_constraints a) && is_numeric_dtype series).
  - destruct (negb (series_empty series)).
    + destruct (dict_get name (min_max_data_values a)) as [[lo hi]|]; [|discriminate].
      do 2 bind_ok E0. injection E0 as <-. split; simpl; [exact Le1|].
      intros k Hk. rewrite dict_mem_after_set. apply Lm1 in Hk. rewrite Hk.
      apply orb_true_r.
    + injection E0 as <-. now split.
  - injection E0 as <-. now split.
Qed.

Lemma scan_columns_no_key_error (required : pyset) (df : DataFrame) :
  forall (present : pyset) (cv : coverage_vars),
    linked cv ->
    raises_key_error (scan_columns required (present, cv) df) = false.
Proof.
  induction df as [|col df IH]; intros present cv L; simpl; [reflexivity|].
  apply bind_no_key_error; [now apply scan_column_no_key_error|].
  intros [present1 cv1] H1. apply IH. eapply scan_column_linked; eassumption.
Qed.

Lemma scan_columns_linked (required : pyset) (df : DataFrame) :
  forall (present present' : pyset) (cv cv' : coverage_vars),
    scan_columns required (present, cv) df = Ok (present', cv') ->
    linked cv -> linked cv'.
Proof.
  induction df as [|col df IH]; intros present present' cv cv' H L; simpl in H.
  - now injection H as _ <-.
  - bind_ok H. destruct a as [present1 cv1].
    eapply IH; [exact H|]. eapply scan_column_linked; eassumption.
Qed.

Section NoKeyError.

Variable validate : pyval -> pydict -> validation_outcome.
Variable set_iter : pyset -> list pyval.
Variable py_str : pyval -> string.
Variable format_2f : pyval -> string.

Lemma consolidate_required_no_key_error (required present : pyset) (r : report) :
  raises_key_error (consolidate_required set_iter required present r) = false.
Proof.
  unfold consolidate_required. destruct (nonempty _); [|reflexivity].
  apply bind_no_key_error; [|reflexivity].
  unfold py_join. apply bind_no_key_error; [|reflexivity].
  generalize (set_iter (set_difference required present)). intros l.
  induction l as [|x l IH]; simpl; [reflexivity|].
  destruct x; try reflexivity.
  apply bind_no_key_error; [exact IH | reflexivity].
Qed.

Lemma consolidate_min_max_no_key_error (cv : coverage_vars) (r : report)
    (item : string * (pyval * pyval)) :
  raises_key_error (consolidate_min_max py_str format_2f cv r item) = false.
Proof.
  unfold consolidate_min_max. destruct item as [field [mn mx]].
  destruct (dict_get field (min_max_data_values cv)) as [[dmin dmax]|].
  - destruct (py_ne dmin (PFloat float_inf) && py_ne dmax (PFloat float_neg_inf)).
    + apply bind_no_key_error.
      { destruct (negb (is_None mn) && negb (is_None mx)); [|reflexivity].
        apply bind_no_key_error; [apply py_arith_no_key_error|].
        intros d _. apply py_arith_no_key_error. }
      intros tolerance _. apply bind_no_key_error.
      { destruct (is_None mn); [reflexivity|].
        apply bind_no_key_error; [apply py_arith_no_key_error|]. intros hi _.
        apply bind_no_key_error; [apply py_cmp_no_key_error|]. intros [|] _;
          [|reflexivity].
        apply bind_no_key_error; [apply py_arith_no_key_error|]. intros lo _.
        apply py_cmp_no_key_error. }
      intros min_tested _. apply bind_no_key_error; [|reflexivity].
      destruct (is_None mx); [reflexivity|].
      apply bind_no_key_error; [apply py_arith_no_key_error|]. intros lo _.
      apply bind_no_key_error; [apply py_cmp_no_key_error|]. intros [|] _;
        [|reflexivity].
      apply bind_no_key_error; [apply py_arith_no_key_error|]. intros hi _.
      apply py_cmp_no_key_error.
    + now destruct (_ && _).
  - now destruct (_ || _).
Qed.

Lemma consolidate_min_max_all_no_key_error (cv : coverage_vars)
    (items : list (string * (pyval * pyval))) :
  forall r : report,
    raises_key_error (consolidate_min_max_all py_str format_2f cv r items) = false.
Proof.
  induction items as [|item rest IH]; intros r; simpl; [reflexivity|].
  apply bind_no_key_error; [apply consolidate_min_max_no_key_error|].
  intros r' _. apply IH.
Qed.

(** X18.  No KeyError leaves [validate_data_against_schema], whatever the
    frame, the schema and the validator: [prop_details['enum']] is read
    only after ['enum' in prop_details] held, and every field that has
    declared enum values or bounds has its slot for the values of the
    data when the columns and the consolidation look it up. *)
Theorem never_raises_key_error :
  forall (df : DataFrame) (schema : option pydict),
    raises_key_error
      (validate_data_against_schema validate set_iter py_str format_2f df schema)
    = false.
Proof.
  intros df schema. unfold validate_data_against_schema.
  destruct (df_empty df); [reflexivity|].
  destruct schema as [[|p schema]|]; try reflexivity.
  apply bind_no_key_error; [|reflexivity].
  unfold coverage_pass.
  apply bind_no_key_error; [apply py_set_no_key_error|]. intros required _.
  apply bind_no_key_error; [apply schema_constraints_no_key_error|].
  intros cv Hcv. apply schema_constraints_linked in Hcv.
  apply bind_no_key_error; [now apply scan_columns_no_key_error|].
  intros [present cv'] _.
  apply bind_no_key_error; [apply consolidate_required_no_key_error|].
  intros r1 _. apply consolidate_min_max_all_no_key_error.
Qed.

End NoKeyError.

Lemma normalize_idempotent_without_np_nan_witness :
  to_json_serializable
    (to_json_serializable
       (PDict [("n", NpInt 3); ("x", PFloat S754_nan); ("t", PList [PdNaT; NpBool true])]))
  = to_json_serializable
      (PDict [("n", NpInt 3); ("x", PFloat S754_nan); ("t", PList [PdNaT; NpBool true])]).
Proof.
  exact (normalize_idempotent_without_np_nan
           (PDict [("n", NpInt 3); ("x", PFloat S754_nan);
                   ("t", PList [PdNaT; NpBool true])]) eq_refl).
Defined.

Lemma status_follows_warnings_first_witness :
  exists rep errs warns,
    Samples.run Samples.require_b Samples.insertion_order Samples.df_a
      (Some Samples.schema_requires_b) = Ok rep /\
    py_field "errors" rep = Some (PList errs) /\
    py_field "warnings" rep = Some (PList warns) /\
    py_field "overall_status" rep = Some (PStr (status_of_findings errs warns)).
Proof.
  unfold Samples.run.
  destruct (validate_data_against_schema Samples.require_b
              Samples.insertion_order Samples.str Samples.two_decimals
              Samples.df_a (Some Samples.schema_requires_b))
    as [rep|e] eqn:E; [|vm_compute in E; discriminate E].
  destruct (status_follows_warnings_first Samples.require_b
              Samples.insertion_order Samples.str Samples.two_decimals
              Samples.df_a (Some Samples.schema_requires_b) rep E)
    as (errs & warns & He & Hw & Hs).
  exists rep, errs, warns. repeat split; assumption.
Defined.

Lemma enum_coverage_entry_witness :
  exists rep declared_set observed,
    Samples.run Samples.status_in_x_y Samples.insertion_order Samples.df_status
      (Some Samples.schema_status) = Ok rep /\
    py_set (PList [PStr "x"; PStr "y"]) = Ok declared_set /\
    observed_values Samples.df_status "status" = Ok observed /\
    py_path ["coverage"; "enum_coverage"; "status"] rep
    = Some (to_json_serializable
              (enum_entry Samples.insertion_order declared_set observed)).
Proof.
  unfold Samples.run.
  destruct (validate_data_against_schema Samples.status_in_x_y
              Samples.insertion_order Samples.str Samples.two_decimals
              Samples.df_status (Some Samples.schema_status))
    as [rep|e] eqn:E; [|vm_compute in E; discriminate E].
  assert (NDp : NoDup (map fst [("status",
                                 PDict [("type", PStr "string");
                                        ("enum", PList [PStr "x"; PStr "y"])])])).
  { repeat constructor. simpl. tauto. }
  assert (NDdf : NoDup (map fst Samples.df_status)).
  { repeat constructor. simpl. tauto. }
  destruct (enum_coverage_entry Samples.status_in_x_y Samples.insertion_order
              Samples.str Samples.two_decimals
              Samples.df_status Samples.schema_status _ _ "status" rep
              eq_refl ltac:(discriminate) eq_refl NDp eq_refl eq_refl NDdf E)
    as (declared_set & observed & Hset & Hobs & Hentry & _).
  exists rep, declared_set, observed. repeat split; assumption.
Defined.

(** ** The flattened properties of a schema *)

Lemma dict_set_fresh {A : Type} (k : string) (v : A) (d : list (string * A)) :
  ~ In k (map fst d) -> dict_set k v d = d ++ [(k, v)].
Proof.
  induction d as [|[k' v'] d IH]; simpl; intros Hk; [reflexivity|].
  destruct (String.eqb_spec k k') as [->|Hne]; [tauto|].
  rewrite IH by tauto. reflexivity.
Qed.

Lemma dict_get_without_none (k : string) (d : pydict) :
  NoDup (map fst d) ->
  dict_get k (without_none d)
  = match dict_get k d with
    | Some v => if is_None v then None else Some v
    | None => None
    end.
Proof.
  unfold without_none.
  induction d as [|[k' v] d IH]; intros Hnd; [reflexivity|].
  inversion Hnd as [|? ? Hnotin Hnd']; subst.
  cbn [filter snd dict_get].
  destruct (String.eqb_spec k k') as [->|Hne].
  - destruct (is_None v); cbn [negb dict_get]; [|now rewrite String.eqb_refl].
    rewrite (IH Hnd').
    destruct (dict_get k' d) as [x|] eqn:E; [|reflexivity].
    exfalso. apply Hnotin. apply in_map_iff. exists (k', x). split; [reflexivity|].
    clear -E. induction d as [|[k0 v0] d IH]; [discriminate|]. simpl in E.
    destruct (String.eqb_spec k' k0) as [->|Hne].
    + injection E as ->. now left.
    + right. now apply IH.
  - destruct (is_None v); cbn [negb dict_get]; [now apply IH|].
    destruct (String.eqb_spec k k') as [->|_]; [contradiction | now apply IH].
Qed.

Lemma property_entry_of_dict (required_fields : pyset) (f : string)
    (details : pydict) :
  exists entry,
    property_entry required_fields (f, PDict details) = Ok entry /\
    dict_get "required" entry = Some (PBool (set_mem (PStr f) required_fields)) /\
    (forall key, key <> "required" -> dict_get key entry = kept details key) /\
    Forall (fun kv => is_None (snd kv) = false) entry.
Proof.
  eexists. split; [reflexivity|].
  assert (Hnd : forall t fo en rq de mi ma ml xl pa nu : pyval,
             NoDup (map fst [("type", t); ("format", fo); ("enum", en);
                             ("required", rq); ("description", de);
                             ("minimum", mi); ("maximum", ma);
                             ("minLength", ml); ("maxLength", xl);
                             ("pattern", pa); ("nullable", nu)])).
  { intros. cbn [map fst].
    repeat (constructor; [cbn [In]; intuition discriminate|]). constructor. }
  split; [|split].
  - rewrite dict_get_without_none by apply Hnd. reflexivity.
  - intros key Hkey. rewrite dict_get_without_none by apply Hnd.
    unfold kept, kept_keywords, has_name. cbn [existsb dict_get].
    repeat match goal with
           | |- context [String.eqb key ?s] =>
               destruct (String.eqb_spec key s) as [->|?]
           end; try contradiction;
      cbn [orb dict_get fst snd String.eqb Ascii.eqb Bool.eqb is_None negb];
      repeat match goal with
             | |- context [match dict_get ?k details with _ => _ end] =>
                 destruct (dict_get k details) as [[]|]
             end;
      reflexivity.
  - unfold without_none. apply Forall_forall. intros kv Hkv.
    apply filter_In in Hkv as [_ Hkv]. now apply negb_true_iff in Hkv.
Qed.

Lemma property_entry_not_dict (required_fields : pyset) (f : string) (v : pyval) :
  is_dict v = false -> property_entry required_fields (f, v) = Raise AttributeError.
Proof. destruct v; intros H; try discriminate; reflexivity. Qed.

Lemma extract_properties_keys (required_fields : pyset) (props : pydict) :
  forall acc out : pydict,
    NoDup (map fst acc ++ map fst props) ->
    extract_properties required_fields props acc = Ok out ->
    map fst out = map fst acc ++ map fst props.
Proof.
  induction props as [|[f v] props IH]; intros acc out Hnd H; simpl in H.
  - injection H as <-. now rewrite app_nil_r.
  - bind_ok H. simpl in Hnd.
    assert (Hf : ~ In f (map fst acc)).
    { intros Hin. apply NoDup_remove_2 in Hnd. apply Hnd, in_or_app. now left. }
    rewrite (dict_set_fresh _ _ _ Hf) in H.
    apply IH in H.
    + rewrite H, map_app, <- app_assoc. reflexivity.
    + rewrite map_app, <- app_assoc. exact Hnd.
Qed.

Lemma extract_properties_absent (required_fields : pyset) (props : pydict)
    (f : string) :
  forall acc out : pydict,
    ~ In f (map fst props) ->
    extract_properties required_fields props acc = Ok out ->
    dict_get f out = dict_get f acc.
Proof.
  induction props as [|[g v] props IH]; intros acc out Hf H; simpl in H.
  - now injection H as <-.
  - bind_ok H. simpl in Hf.
    assert (Hf' : ~ In f (map fst props)) by (intros Hin; apply Hf; now right).
    rewrite (IH _ _ Hf' H).
    apply dict_get_after_set_other. intros ->. apply Hf. now left.
Qed.

Lemma extract_properties_entry (required_fields : pyset) (props : pydict)
    (f : string) (details : pydict) :
  forall acc out : pydict,
    NoDup (map fst props) ->
    dict_get f props = Some (PDict details) ->
    extract_properties required_fields props acc = Ok out ->
    exists entry,
      property_entry required_fields (f, PDict details) = Ok entry /\
      dict_get f out = Some (PDict entry).
Proof.
  induction props as [|[g v] props IH]; intros acc out Hnd Hget H;
    simpl in Hget, H; [discriminate|].
  inversion Hnd as [|? ? Hnotin Hnd']; subst.
  bind_ok H. destruct (String.eqb_spec f g) as [->|Hne].
  - injection Hget as ->. exists a. split; [exact E|].
    rewrite (extract_properties_absent _ _ g _ _ Hnotin H).
    apply dict_get_after_set.
  - eapply IH; eassumption.
Qed.

Lemma extract_properties_outcome (required_fields : pyset) (props : pydict) :
  forall acc : pydict,
    if forallb (fun kv => is_dict (snd kv)) props
    then exists out, extract_properties required_fields props acc = Ok out
    else extract_properties required_fields props acc = Raise AttributeError.
Proof.
  induction props as [|[f v] props IH]; intros acc;
    cbn [forallb extract_properties snd fst].
  - now exists acc.
  - destruct (is_dict v) eqn:Ev; cbn [andb].
    + destruct v; try discriminate.
      destruct (property_entry_of_dict required_fields f d) as (entry & -> & _).
      cbn [bind]. apply IH.
    + now rewrite (property_entry_not_dict _ _ _ Ev).
Qed.

Lemma has_name_Permutation (x : string) (u v : list string) :
  Permutation u v -> has_name x u = has_name x v.
Proof.
  intros P. apply bool_eq_iff. rewrite !has_name_In.
  split; apply Permutation_in; [exact P | symmetry; exact P].
Qed.

(** X11.  A schema with a [properties] dict and a [required] that is
    absent or a list of names: in what [extract_schema_properties]
    returns, the entries follow the properties in their order; the entry
    of a property holds [required], true exactly for the names that
    [required] lists; under any other key it holds the declared value of
    one of the kept keywords unless that value is null, [False] for an
    undeclared [nullable], and nothing for any other keyword; no value of
    an entry is [None]. *)
Theorem extracted_entries :
  forall (schema props out : pydict) (names : list string),
    dict_get "properties" schema = Some (PDict props) ->
    NoDup (map fst props) ->
    schema_required schema = PList (map PStr names) ->
    extract_schema_properties schema = Ok out ->
    map fst out = map fst props /\
    forall f details,
      dict_get f props = Some (PDict details) ->
      exists entry,
        dict_get f out = Some (PDict entry) /\
        dict_get "required" entry = Some (PBool (has_name f names)) /\
        (forall key, key <> "required" -> dict_get key entry = kept details key) /\
        Forall (fun kv => is_None (snd kv) = false) entry.
Proof.
  intros schema props out names Hprops Hnd Hreq H.
  destruct schema as [|kv schema]; [discriminate Hprops|].
  unfold extract_schema_properties in H. rewrite Hprops, Hreq in H.
  destruct (py_set_names names) as (u & Hu & Pu). rewrite Hu in H. cbn [bind] in H.
  split.
  - now apply extract_properties_keys in H.
  - intros f details Hf.
    destruct (extract_properties_entry _ _ _ _ _ _ Hnd Hf H) as (entry & He & Hout).
    destruct (property_entry_of_dict (map PStr u) f details)
      as (entry' & He' & Hr & Hk & Hn).
    rewrite He in He'. injection He' as <-.
    exists entry. split; [exact Hout|]. split; [|split; assumption].
    rewrite Hr, set_mem_names, (has_name_Permutation f _ _ Pu).
    do 2 f_equal. apply bool_eq_iff. rewrite !has_name_In. apply nodup_In.
Qed.

Lemma extracted_entries_witness :
  exists out entry,
    extract_schema_properties Samples.schema_id_note = Ok out /\
    map fst out = ["id"; "note"] /\
    dict_get "id" out = Some (PDict entry) /\
    dict_get "required" entry = Some (PBool true) /\
    dict_get "minimum" entry = Some (PInt 1) /\
    dict_get "title" entry = None /\
    dict_get "nullable" entry = Some (PBool false).
Proof.
  eexists.
  assert (Hnd : NoDup (map fst Samples.properties_id_note)).
  { repeat constructor; simpl; intuition discriminate. }
  destruct (extracted_entries Samples.schema_id_note Samples.properties_id_note
              _ ["id"] eq_refl Hnd eq_refl eq_refl)
    as (Hkeys & Hentries).
  destruct (Hentries "id" _ eq_refl) as (entry & Hout & Hr & Hk & _).
  exists entry. split; [reflexivity|]. split; [exact Hkeys|].
  split; [exact Hout|]. split; [exact Hr|].
  split; [|split]; rewrite Hk by discriminate; reflexivity.
Defined.

(** X12.  With a [properties] dict and such a [required], the function
    returns exactly when the details of every property are a dict; one
    that is not (a string, a list, null) makes it raise AttributeError. *)
Theorem extract_returns_iff_details_are_dicts :
  forall (schema props : pydict) (names : list string),
    dict_get "properties" schema = Some (PDict props) ->
    schema_required schema = PList (map PStr names) ->
    if forallb (fun kv => is_dict (snd kv)) props
    then exists out, extract_schema_properties schema = Ok out
    else extract_schema_properties schema = Raise AttributeError.
Proof.
  intros schema props names Hprops Hreq.
  destruct schema as [|kv schema]; [discriminate Hprops|].
  unfold extract_schema_properties. rewrite Hprops, Hreq.
  destruct (py_set_names names) as (u & -> & _). cbn [bind].
  apply extract_properties_outcome.
Qed.

Lemma extract_returns_iff_details_are_dicts_witness :
  (exists out, extract_schema_properties Samples.schema_id_note = Ok out) /\
  extract_schema_properties Samples.schema_id_text = Raise AttributeError.
Proof.
  split.
  - exact (extract_returns_iff_details_are_dicts Samples.schema_id_note
             Samples.properties_id_note ["id"] eq_refl eq_refl).
  - exact (extract_returns_iff_details_are_dicts Samples.schema_id_text
             [("id", PStr "integer")] ["id"] eq_refl eq_refl).
Defined.

(** ** The export of the failed rows *)

Lemma insert_sorted_comm (a b : Z) (l : list Z) :
  insert_sorted a (insert_sorted b l) = insert_sorted b (insert_sorted a l).
Proof.
  induction l as [|x l IH]; simpl.
  - destruct (Z.leb_spec a b), (Z.leb_spec b a); try reflexivity; try lia.
    now replace b with a by lia.
  - destruct (Z.leb_spec b x), (Z.leb_spec a x); simpl.
    + destruct (Z.leb_spec a b), (Z.leb_spec b a), (Z.leb_spec a x),
               (Z.leb_spec b x); try reflexivity; try lia.
      now replace b with a by lia.
    + destruct (Z.leb_spec a b), (Z.leb_spec b x), (Z.leb_spec a x);
        try reflexivity; lia.
    + destruct (Z.leb_spec b a), (Z.leb_spec b x), (Z.leb_spec a x);
        try reflexivity; lia.
    + destruct (Z.leb_spec a x), (Z.leb_spec b x); try lia. now rewrite IH.
Qed.

Lemma sorted_Permutation (l l' : list Z) :
  Permutation l l' -> sorted l = sorted l'.
Proof.
  unfold sorted. induction 1; simpl.
  - reflexivity.
  - now f_equal.
  - apply insert_sorted_comm.
  - congruence.
Qed.

Lemma sorted_increasing (l : list Z) : StronglySorted Z.lt l -> sorted l = l.
Proof.
  unfold sorted. induction 1 as [|x l Hs IH Hx]; simpl; [reflexivity|].
  rewrite IH. destruct l as [|y l]; [reflexivity|]. simpl.
  inversion Hx; subst. destruct (Z.leb_spec x y); [reflexivity | lia].
Qed.

Lemma all_int_ints (zs : list Z) : all_int (map PInt zs) = Some zs.
Proof. induction zs as [|z zs IH]; simpl; [reflexivity | now rewrite IH]. Qed.

Lemma py_eqb_ints (a b : Z) : py_eqb (PInt a) (PInt b) = Z.eqb a b.
Proof.
  unfold py_eqb, num_eqb, num_compare. simpl. rewrite !Z.mul_1_r.
  destruct (Z.compare_spec a b), (Z.eqb_spec a b); try reflexivity; lia.
Qed.

Lemma set_mem_ints (z : Z) (zs : list Z) :
  set_mem (PInt z) (map PInt zs) = existsb (Z.eqb z) zs.
Proof.
  unfold set_mem. induction zs as [|y zs IH]; [reflexivity|].
  cbn [map existsb]. now rewrite IH, py_eqb_ints.
Qed.

Lemma set_update_distinct_ints (zs : list Z) :
  forall acc : list Z,
    NoDup (acc ++ zs) ->
    set_update (map PInt acc) (map PInt zs) = Ok (map PInt (acc ++ zs)).
Proof.
  induction zs as [|z zs IH]; intros acc Hnd; simpl.
  - now rewrite app_nil_r.
  - unfold set_add. rewrite set_mem_ints.
    assert (Hz : existsb (Z.eqb z) acc = false).
    { apply not_true_is_false. intros Hex.
      apply existsb_exists in Hex as (y & Hy & E). apply Z.eqb_eq in E. subst y.
      apply NoDup_remove_2 in Hnd. apply Hnd, in_or_app. now left. }
    rewrite Hz.
    change (map PInt acc ++ [PInt z]) with (map PInt acc ++ map PInt [z]).
    rewrite <- map_app, IH by (rewrite <- app_assoc; exact Hnd).
    now rewrite <- app_assoc.
Qed.

Lemma increasing_NoDup (zs : list Z) : StronglySorted Z.lt zs -> NoDup zs.
Proof.
  induction 1 as [|x l Hs IH Hx]; constructor; [|exact IH].
  intros Hin. rewrite Forall_forall in Hx. specialize (Hx x Hin). lia.
Qed.

Lemma increasing_as_ints (rows : list nat) :
  StronglySorted lt rows -> StronglySorted Z.lt (map Z.of_nat rows).
Proof.
  induction 1 as [|x l Hs IH Hx]; simpl; constructor; [exact IH|].
  rewrite Forall_forall in *. intros z Hz.
  apply in_map_iff in Hz as (y & <- & Hy). specialize (Hx y Hy). lia.
Qed.

Lemma positions_in_frame (n : nat) (rows : list nat) :
  Forall (fun i => (i < n)%nat) rows ->
  positions n (map Z.of_nat rows) = Some rows.
Proof.
  induction 1 as [|i rows Hi _ IH]; simpl; [reflexivity|].
  rewrite IH. unfold position.
  destruct (Z.leb_spec 0 (Z.of_nat i)); [|lia].
  destruct (Z.ltb_spec (Z.of_nat i) (Z.of_nat n)); [|lia].
  simpl. now rewrite Nat2Z.id.
Qed.

Lemma row_indices_of_rows (errs : list pyval) (zs : list Z) :
  map row_index_of errs = map Some zs ->
  row_indices errs = Ok (map PInt zs).
Proof.
  revert zs. induction errs as [|e errs IH]; intros [|z zs] H; simpl in H;
    try discriminate; [reflexivity|].
  injection H as He H. simpl. rewrite (IH _ H).
  unfold row_index_of, py_field in He.
  destruct e; try discriminate. simpl. unfold dict_mem.
  destruct (dict_get "row_index" d) as [[]|]; try discriminate.
  now injection He as ->.
Qed.

Lemma row_indices_without_index (errs : list pyval) :
  Forall (fun e => py_contains "row_index" e = Ok false) errs ->
  row_indices errs = Ok [].
Proof.
  induction 1 as [|e errs He _ IH]; simpl; [reflexivity|]. now rewrite He.
Qed.

Section ExportOfReport.

Variable validate : pyval -> pydict -> validation_outcome.
Variable set_iter : pyset -> list pyval.
Variable py_str : pyval -> string.
Variable format_2f : pyval -> string.
Variable to_csv : DataFrame -> encoded.
Variable other_indexers : DataFrame -> list pyval -> exported.
Hypothesis set_iter_perm : forall s : pyset, Permutation (set_iter s) s.

Local Abbreviation run :=
  (validate_data_against_schema validate set_iter py_str format_2f).
Local Abbreviation export :=
  (export_failed_cases_csv set_iter to_csv other_indexers).

(** X13.  The export of the errors of a returned report, as the
    application calls it: nothing raises before the CSV is written; the
    export returns [None] when every record validated, and otherwise
    gives what [to_csv(index=False).encode('utf-8')] gives, its bytes or
    its UnicodeEncodeError, on the frame restricted to the records that
    did not validate, each row once, in increasing order, whatever the
    order in which the set yields the indices. *)
Theorem export_selects_the_invalid_rows :
  forall (df : DataFrame) (schema : pydict) (rep : pyval) (errs : list pyval),
    df_empty df = false -> schema <> [] ->
    run df (Some schema) = Ok rep ->
    py_field "errors" rep = Some (PList errs) ->
    export df errs
    = match invalid_rows validate schema (convert_dataframe_to_json_serializable df) with
      | [] => NoneReturned
      | rows => after_encode (to_csv (select_rows df rows))
      end.
Proof.
  intros df schema rep errs He Hs H Herrs.
  rewrite (run_errors validate set_iter py_str format_2f df schema rep He Hs H)
    in Herrs.
  injection Herrs as <-.
  pose proof (record_errors_rows validate schema
                (convert_dataframe_to_json_serializable df) 0%nat) as Hrows.
  fold (invalid_rows validate schema (convert_dataframe_to_json_serializable df))
    in Hrows.
  pose proof (invalid_rows_sorted validate schema
                (convert_dataframe_to_json_serializable df)) as Hsorted.
  pose proof (invalid_rows_in_frame validate schema df) as Hframe.
  set (rows := invalid_rows validate schema
                 (convert_dataframe_to_json_serializable df)) in *.
  set (errs := map to_json_serializable _) in *.
  rewrite <- (map_map Z.of_nat Some) in Hrows.
  unfold export_failed_cases_csv. rewrite He. cbn [orb].
  assert (Hlen : nonempty errs = nonempty rows).
  { apply (f_equal (@List.length _)) in Hrows. rewrite !length_map in Hrows.
    destruct errs, rows; try discriminate; reflexivity. }
  rewrite Hlen. clearbody rows errs. destruct rows as [|row rest]; [reflexivity|].
  set (rows := row :: rest) in *.
  change (nonempty rows) with true. cbn [negb].
  rewrite (row_indices_of_rows _ _ Hrows). cbn [bind].
  rewrite (set_update_distinct_ints _ []) by
    (apply increasing_NoDup, increasing_as_ints, Hsorted).
  cbn [app].
  destruct (Permutation_map_inv _ _ (set_iter_perm (map PInt (map Z.of_nat rows))))
    as (zs & -> & Hperm).
  rewrite all_int_ints. cbv zeta.
  rewrite (sorted_Permutation _ _ (Permutation_sym Hperm)).
  rewrite (sorted_increasing _ (increasing_as_ints _ Hsorted)).
  unfold iloc. rewrite (positions_in_frame _ _ Hframe). reflexivity.
Qed.

(** X14.  Errors that carry no [row_index], such as the one of a report
    made without a schema, export nothing: the function returns [None]
    and does not reach [iloc]. *)
Theorem errors_without_rows_export_nothing :
  forall (df : DataFrame) (errs : list pyval),
    Forall (fun e => py_contains "row_index" e = Ok false) errs ->
    export df errs = NoneReturned.
Proof.
  intros df errs H. unfold export_failed_cases_csv.
  destruct (df_empty df || negb (nonempty errs)); [reflexivity|].
  rewrite (row_indices_without_index _ H). cbn [bind set_update].
  pose proof (set_iter_perm []) as Hp. apply Permutation_sym, Permutation_nil in Hp.
  rewrite Hp. reflexivity.
Qed.

End ExportOfReport.

Lemma export_selects_the_invalid_rows_witness :
  exists rep errs,
    Samples.run Samples.age_is_integer Samples.insertion_order
      Samples.df_age (Some Samples.schema_age) = Ok rep /\
    py_field "errors" rep = Some (PList errs) /\
    export_failed_cases_csv Samples.insertion_order Samples.csv_bytes
      Samples.unsupported Samples.df_age errs
    = Bytes (Samples.csv [("age", ObjectCol [PStr "old"])]).
Proof.
  do 2 eexists. split; [vm_compute; reflexivity|]. split; [reflexivity|].
  exact (export_selects_the_invalid_rows Samples.age_is_integer
           Samples.insertion_order Samples.str Samples.two_decimals
           Samples.csv_bytes Samples.unsupported (fun s => Permutation_refl s)
           Samples.df_age Samples.schema_age _ _
           eq_refl ltac:(discriminate) eq_refl eq_refl).
Defined.

Lemma errors_without_rows_export_nothing_witness :
  exists errs,
    py_field "errors" no_schema_report = Some (PList errs) /\
    export_failed_cases_csv Samples.insertion_order Samples.csv_bytes
      Samples.unsupported Samples.df_age errs
    = NoneReturned.
Proof.
  eexists. split; [reflexivity|].
  apply (errors_without_rows_export_nothing Samples.insertion_order
           Samples.csv_bytes Samples.unsupported (fun s => Permutation_refl s)).
  repeat constructor.
Defined.

(** ** Calls of the model with retries *)

Lemma retries_next (c : nat) :
  retries (S c)
  = retries c ++ [Call; Sleep (INITIAL_RETRY_DELAY * 2 ^ Z.of_nat c) c].
Proof.
  unfold retries. rewrite seq_S, flat_map_app. reflexivity.
Qed.

Lemma retry_wait (c : nat) :
  slept (INITIAL_RETRY_DELAY * 2 ^ (Z.of_nat (S c) - 1)) (called (entering c))
  = entering (S c).
Proof.
  unfold slept, called, entering. simpl calls. simpl draws. simpl trace.
  rewrite retries_next, <- app_assoc.
  replace (Z.of_nat (S c) - 1) with (Z.of_nat c) by lia. reflexivity.
Qed.

Lemma retry_loop_from (generate_content : model) :
  forall n c fuel : nat,
    (c + n = 4)%nat -> (n < fuel)%nat ->
    retry_loop generate_content fuel c (entering c)
    = Some (final (generate_content (first_decisive generate_content c n)),
            ended_at (first_decisive generate_content c n)).
Proof.
  induction n as [|n IH]; intros c fuel Hc Hfuel;
    (destruct fuel as [|fuel]; [lia|]); cbn [retry_loop first_decisive].
  - replace c with 4%nat by lia. cbn [Nat.ltb Nat.leb MAX_RETRIES].
    change (calls (entering 4)) with 4%nat.
    destruct (generate_content 4%nat) as [text|[message|message|message]];
      reflexivity.
  - assert (Hlt : (c <? MAX_RETRIES)%nat = true) by (apply Nat.ltb_lt; unfold MAX_RETRIES; lia).
    assert (Hne : (S c =? MAX_RETRIES)%nat = false)
      by (apply Nat.eqb_neq; unfold MAX_RETRIES; lia).
    rewrite Hlt. change (calls (entering c)) with c.
    destruct (generate_content c) as [text|[message|message|message]] eqn:E;
      cbn [retried]; rewrite ?E; try reflexivity;
      cbv zeta; rewrite Hne, retry_wait; apply IH; lia.
Qed.

Lemma first_decisive_bound (generate_content : model) :
  forall n c : nat, (c <= first_decisive generate_content c n <= c + n)%nat.
Proof.
  induction n as [|n IH]; intros c; simpl; [lia|].
  destruct (retried (generate_content c)); [|lia].
  specialize (IH (S c)). lia.
Qed.

Lemma first_decisive_is (generate_content : model) :
  forall n c k : nat,
    (c <= k <= c + n)%nat ->
    (forall i, (c <= i < k)%nat -> retried (generate_content i) = true) ->
    retried (generate_content k) = false \/ k = (c + n)%nat ->
    first_decisive generate_content c n = k.
Proof.
  induction n as [|n IH]; intros c k Hk Hbefore Hat; simpl; [lia|].
  destruct (Nat.eq_dec c k) as [->|Hne].
  - destruct Hat as [-> | Hat]; [reflexivity | lia].
  - rewrite Hbefore by lia. apply IH; [lia | | ].
    + intros i Hi. apply Hbefore. lia.
    + destruct Hat; [now left | right; lia].
Qed.

Lemma waits_of_retries (c : nat) :
  flat_map (fun e => match e with Sleep base _ => [base] | Call => [] end)
    (retries c ++ [Call])
  = map (fun k => 2 * 2 ^ Z.of_nat k) (seq 0 c).
Proof.
  rewrite flat_map_app. simpl. rewrite app_nil_r.
  unfold retries. generalize (seq 0 c). intros l.
  induction l as [|k l IH]; [reflexivity|].
  cbn [flat_map map app]. now rewrite IH.
Qed.

(** X15.  The helper ends at the first call that returns or raises an
    exception it does not retry, and at the fifth call whatever it
    raises: with the [k] calls before it failing on quota or another API
    error, it returns the text of call [k] or re-raises its exception,
    that of the last call and not of the first, after [k + 1] calls and
    the [k] waits in between. *)
Theorem retry_ends_at_first_decisive_call :
  forall (generate_content : model) (k fuel : nat),
    (k < 5)%nat -> (5 <= fuel)%nat ->
    (forall i, (i < k)%nat -> retried (generate_content i) = true) ->
    retried (generate_content k) = false \/ k = 4%nat ->
    call_gemini_with_retry fuel (Some generate_content)
    = Some (final (generate_content k), ended_at k).
Proof.
  intros generate_content k fuel Hk Hfuel Hbefore Hat. unfold call_gemini_with_retry.
  change untouched with (entering 0).
  rewrite (retry_loop_from generate_content 4 0 fuel) by lia.
  rewrite (first_decisive_is generate_content 4 0 k); [reflexivity | lia | | ].
  - intros i Hi. apply Hbefore. lia.
  - destruct Hat; [now left | now right].
Qed.

Lemma retry_ends_at_first_decisive_call_witness :
  call_gemini_with_retry 5 (Some Samples.third_time)
  = Some (Returned "[]",
          {| calls := 3;
             draws := 2;
             trace := [Call; Sleep 2 0; Call; Sleep 4 1; Call] |}).
Proof.
  apply (retry_ends_at_first_decisive_call Samples.third_time 2 5).
  - lia.
  - lia.
  - intros [|[|i]] Hi; [reflexivity | reflexivity | lia].
  - now left.
Defined.

(** X16.  With fuel for five turns the loop always ends inside its body:
    the helper returns the text of a call or re-raises the exception of
    a call, after at most five calls, and the statement after the loop is
    never reached; between the calls it waits 2, 4, 8 and 16 seconds plus
    the jitter, one wait per failed call but the last. *)
Theorem retry_stays_within_five_calls :
  forall (generate_content : model) (fuel : nat),
    (5 <= fuel)%nat ->
    exists (k : nat) (w : world),
      (k < 5)%nat /\
      call_gemini_with_retry fuel (Some generate_content)
      = Some (final (generate_content k), w) /\
      calls w = S k /\
      waits w = firstn k [2; 4; 8; 16].
Proof.
  intros generate_content fuel Hfuel.
  pose proof (first_decisive_bound generate_content 4 0) as Hb.
  exists (first_decisive generate_content 0 4),
         (ended_at (first_decisive generate_content 0 4)).
  split; [lia|]. split; [|split; [reflexivity|]].
  - unfold call_gemini_with_retry. change untouched with (entering 0).
    apply retry_loop_from; lia.
  - unfold waits, ended_at. cbn [trace]. rewrite waits_of_retries.
    destruct (first_decisive generate_content 0 4) as [|[|[|[|[|k]]]]];
      [reflexivity .. | lia].
Qed.

Lemma retry_stays_within_five_calls_witness :
  exists w,
    call_gemini_with_retry 7 (Some Samples.exhausted)
    = Some (Reraised (ResourceExhausted "429 at call 4"), w) /\
    calls w = 5%nat /\
    waits w = [2; 4; 8; 16].
Proof.
  destruct (retry_stays_within_five_calls Samples.exhausted 7 ltac:(lia))
    as (k & w & Hk & Hcall & Hcalls & Hwaits).
  exists w.
  assert (Hw : call_gemini_with_retry 7 (Some Samples.exhausted)
               = Some (Reraised (ResourceExhausted "429 at call 4"), ended_at 4))
    by (vm_compute; reflexivity).
  rewrite Hw in Hcall. injection Hcall as Hfinal <-.
  split; [exact Hw|]. split; reflexivity.
Defined.

(** ** Parsing the answer of the model *)

Lemma lstrip_spaces (ws s : text) :
  forallb is_space ws = true -> lstrip (ws ++ s) = lstrip s.
Proof.
  induction ws as [|c ws IH]; simpl; [reflexivity|].
  intros H. apply andb_true_iff in H as [-> H]. now apply IH.
Qed.

Lemma rstrip_spaces (ws s : text) :
  forallb is_space ws = true -> rstrip (s ++ ws) = rstrip s.
Proof.
  intros H. unfold rstrip. rewrite rev_app_distr, lstrip_spaces; [reflexivity|].
  rewrite forallb_forall in *. intros c Hc. apply H. now apply in_rev.
Qed.

Lemma rstrip_fence (s : text) : rstrip (s ++ codes "```") = s ++ codes "```".
Proof.
  unfold rstrip. rewrite rev_app_distr. simpl.
  rewrite <- !app_assoc. simpl. now rewrite rev_involutive.
Qed.

Lemma strip_between_fences (ws1 ws4 inner : text) :
  forallb is_space ws1 = true -> forallb is_space ws4 = true ->
  strip (ws1 ++ codes "```" ++ inner ++ codes "```" ++ ws4)
  = codes "```" ++ inner ++ codes "```".
Proof.
  intros H1 H4. unfold strip. rewrite (lstrip_spaces _ _ H1).
  change (lstrip (codes "```" ++ inner ++ codes "```" ++ ws4))
    with (codes "```" ++ inner ++ codes "```" ++ ws4).
  replace (codes "```" ++ inner ++ codes "```" ++ ws4)
    with (((codes "```" ++ inner) ++ codes "```") ++ ws4)
    by (now rewrite <- !app_assoc).
  rewrite (rstrip_spaces _ _ H4), rstrip_fence. now rewrite <- app_assoc.
Qed.

Lemma endswith_fence (s : text) : endswith (s ++ codes "```") (codes "```") = true.
Proof. unfold endswith. rewrite rev_app_distr. reflexivity. Qed.

Lemma startswith_json_before_fence (inner : text) :
  startswith (inner ++ codes "```") (codes "json")
  = startswith inner (codes "json").
Proof.
  destruct inner as [|a [|b [|c [|d inner]]]]; simpl;
    rewrite ?andb_false_r; reflexivity.
Qed.

Lemma slice_between (before inner : text) :
  slice (before ++ inner ++ codes "```") (List.length before) 3 = inner.
Proof.
  unfold slice. rewrite !length_app. simpl List.length.
  replace (List.length before + (List.length inner + 3) - 3)%nat
    with (List.length (before ++ inner) + 0)%nat by (rewrite length_app; lia).
  rewrite app_assoc, firstn_app_2. simpl. rewrite app_nil_r.
  rewrite skipn_app, skipn_all, Nat.sub_diag. reflexivity.
Qed.

Lemma cleaned_between_fences (ws1 ws4 inner : text) :
  forallb is_space ws1 = true -> forallb is_space ws4 = true ->
  cleaned (ws1 ++ codes "```" ++ inner ++ codes "```" ++ ws4)
  = strip (if startswith inner (codes "json") then skipn 4 inner else inner).
Proof.
  intros H1 H4. unfold cleaned.
  rewrite (strip_between_fences _ _ _ H1 H4). cbv zeta.
  rewrite (app_assoc (codes "```") inner), endswith_fence, <- app_assoc.
  change (startswith (codes "```" ++ inner ++ codes "```") (codes "```json"))
    with (startswith (inner ++ codes "```") (codes "json")).
  change (startswith (codes "```" ++ inner ++ codes "```") (codes "```")) with true.
  rewrite startswith_json_before_fence, !andb_true_r.
  destruct (startswith inner (codes "json")) eqn:Ej.
  - destruct inner as [|a [|b [|c [|d inner]]]];
      simpl in Ej; rewrite ?andb_false_r in Ej; try discriminate Ej.
    change (codes "```" ++ (a :: b :: c :: d :: inner) ++ codes "```")
      with ((codes "```" ++ [a; b; c; d]) ++ inner ++ codes "```").
    change 7%nat with (List.length (codes "```" ++ [a; b; c; d])).
    now rewrite slice_between.
  - change 3%nat with (List.length (codes "```")) at 1.
    now rewrite slice_between.
Qed.

(** X17.  An answer wrapped in a code fence, with white space around it:
    what [_parse_gemini_json_response] returns or raises is what
    [json.loads] gives on the text between the opening and the last
    closing fence, stripped; the language tag [json] after the opening
    fence is dropped first, any other tag stays in the text. *)
Theorem fenced_answer_is_parsed :
  forall (json_loads : text -> loads_outcome) (ws1 ws4 inner : text),
    forallb is_space ws1 = true -> forallb is_space ws4 = true ->
    parse_gemini_json_response json_loads
      (ws1 ++ codes "```" ++ inner ++ codes "```" ++ ws4)
    = after_loads
        (json_loads
           (strip (if startswith inner (codes "json") then skipn 4 inner
                   else inner))).
Proof.
  intros json_loads ws1 ws4 inner H1 H4. unfold parse_gemini_json_response.
  now rewrite cleaned_between_fences.
Qed.

Lemma fenced_answer_is_parsed_witness :
  parse_gemini_json_response Samples.loads
    (codes " " ++ codes "```" ++ (codes "json" ++ [10%N] ++ codes "[]" ++ [10%N])
       ++ codes "```" ++ [10%N])
  = Parsed (PList []).
Proof.
  exact (fenced_answer_is_parsed Samples.loads (codes " ") [10%N]
           (codes "json" ++ [10%N] ++ codes "[]" ++ [10%N]) eq_refl eq_refl).
Defined.
